(** * MEV protection scanner: mempool aggregation and pattern detection

    A shallow embedding of the JavaScript services of the scanner
    (websocket-mempool, pattern-analyzer, mempool-enhanced, the cache
    queries, the legacy detectors and the enhanced server's scoring)
    together with the properties proved about them.

    Modelling conventions.
    - A JavaScript Number is modelled by the exact rational it denotes
      ([Q]); IEEE rounding error is not modelled.  Where the source can
      divide by zero the model writes out what JavaScript computes there
      (an infinity absorbed by [Math.min], or a comparison with NaN that is
      false).  A numeric string ('12.5', the output of [formatUnits] or
      [toFixed]) is represented by the number [parseFloat] reads from it;
      where the source can read NaN from a missing field the field is an
      [option Q] and [None] stands for NaN.
    - A missing or empty string field (both falsy in JavaScript) is the
      empty string.
    - Exceptions are values: a computation that can throw returns
      [Result A]; [try ... catch] is [try_catch]. *)

From Stdlib Require Import ZArith QArith Qround Qminmax Qabs.
From Stdlib Require Import List String Ascii Bool Lia Lqa.
From Stdlib Require Import Sorted Permutation.
Import ListNotations.

Local Open Scope Q_scope.

(** ** JavaScript numbers and strings *)

Module JS.

(** [a > b] and [a < b] on numbers. *)
Definition gt (a b : Q) : bool := negb (Qle_bool a b).
Definition lt (a b : Q) : bool := negb (Qle_bool b a).

(** [x || d] on a number: [0] is falsy. *)
Definition truthy (x : Q) : bool := negb (Qeq_bool x 0).

(** [Math.round]: the nearest integer, ties towards +infinity. *)
Definition round (x : Q) : Z := Qfloor (x + (1 # 2)).

(** [Math.floor(n * p)] for an array length [n]. *)
Definition floor_mul (n : nat) (p : Q) : nat :=
  Z.to_nat (Qfloor (inject_Z (Z.of_nat n) * p)).

(** The number read back from [x.toFixed(d)] for [0 <= x]: the multiple
    of [10^-d] nearest to [x], the larger one on a tie. *)
Definition toFixedPos (d : nat) (x : Q) : Q :=
  let scale := (10 ^ Z.of_nat d)%Z in
  Qfloor (x * inject_Z scale + (1 # 2)) # Z.to_pos scale.

(** [toFixed] formats a negative number as the opposite of its absolute
    value. *)
Definition toFixed (d : nat) (x : Q) : Q :=
  if lt x 0 then - toFixedPos d (- x) else toFixedPos d x.

(** [Math.max(...xs)] on a non-empty array [x :: xs]. *)
Definition max_of (x : Q) (xs : list Q) : Q := fold_left Qmax xs x.

(** [xs.reduce((sum, x) => sum + x, 0)]. *)
Definition sum (xs : list Q) : Q := fold_left Qplus xs 0.

(** [s.split(sep)] for a one-character separator. *)
Fixpoint split (sep : ascii) (s : string) : list string :=
  match s with
  | EmptyString => [EmptyString]
  | String c rest =>
      if Ascii.eqb c sep then EmptyString :: split sep rest
      else match split sep rest with
           | [] => [String c EmptyString]
           | hd :: tl => String c hd :: tl
           end
  end.

(** [!s] on a string: the empty (or missing) string is falsy. *)
Definition empty (s : string) : bool :=
  match s with EmptyString => true | _ => false end.

(** [a === b] on two values that may be [undefined]. *)
Definition opt_eqb (a b : option string) : bool :=
  match a, b with
  | Some x, Some y => String.eqb x y
  | None, None => true
  | _, _ => false
  end.

(** [xs.includes(t)] and [xs.some(t => ys.includes(t))]. *)
Definition includes (xs : list string) (t : string) : bool :=
  existsb (String.eqb t) xs.

Definition startsWith (s p : string) : bool := String.prefix p s.

(** The template literal [`${a}/${b}`]. *)
Definition pair_of (a b : string) : string := (a ++ "/" ++ b)%string.

End JS.

(** ** Data model *)

(** One competing transaction of a snapshot. *)
Record Tx := {
  hash : string;
  gasPrice : Q;             (* parseFloat(tx.gasPrice) *)
  value : option Q;         (* parseFloat(tx.value); None is NaN *)
  amount : option Q;        (* tx.amount of the simulated records; None is NaN *)
  tokenPair : string;       (* '' when missing *)
  input : string;           (* method-signature prefix; '' when missing *)
  isSuspicious : bool
}.

Record GasPercentiles := { p25 : Q; p50 : Q; p75 : Q; p90 : Q }.

Definition defaultPercentiles : GasPercentiles :=
  {| p25 := 20; p50 := 35; p75 := 50; p90 := 80 |}.

Record MempoolData := {
  md_tokenPair : string;
  currentBlock : Z;
  blockTimeEstimate : Z;
  gasPercentiles : GasPercentiles;
  competingTxs : list Tx;
  pendingTxCount : option Z;      (* absent for some sources *)
  avgBlockTxCount : option Z;     (* block analysis only *)
  dataSource : string;
  md_confidence : Q;
  isRealTime : bool;
  md_timestamp : Z
}.

(** The trade descriptor handed to the detectors.  [u_gasPrice] is
    [userTx.gasPrice]: [None] when the field is missing or empty. *)
Record UserTx := {
  token_in : string;
  token_out : string;
  amount_in : Q;                  (* parseFloat(userTx.amount_in) *)
  u_gasPrice : option Q;
  wallet_address : string
}.

(** [parseFloat(userTx.gasPrice || mempoolData.gasPercentiles.p50)]. *)
Definition userGasPriceOf (mempoolData : MempoolData) (userTx : UserTx) : Q :=
  match u_gasPrice userTx with
  | Some g => g
  | None => p50 (gasPercentiles mempoolData)
  end.

Definition userPair (userTx : UserTx) : string :=
  JS.pair_of (token_in userTx) (token_out userTx).

(** ** pattern-analyzer.js *)

Module PatternAnalyzer.

(** What [calculateAggregateRisk] and [determineAttackType] read of a
    detector's result, with the matching transactions as evidence. *)
Record Detection := {
  detected : bool;
  confidence : Q;
  matched : list Tx;        (* frontRunners / competitors / copycats / ... *)
  matchedBack : list Tx     (* backRunners of the sandwich detector *)
}.

Definition notDetected : Detection :=
  {| detected := false; confidence := 0; matched := []; matchedBack := [] |}.

Definition isSameOrRelatedPair (pair1 pair2 : string) : bool :=
  if JS.empty pair1 || JS.empty pair2 then false
  else if String.eqb pair1 pair2 then true
  else
    let tokens1 := JS.split "/"%char pair1 in
    let tokens2 := JS.split "/"%char pair2 in
    let t1a := nth_error tokens1 0 in
    let t1b := nth_error tokens1 1 in
    let t2a := nth_error tokens2 0 in
    let t2b := nth_error tokens2 1 in
    if JS.opt_eqb t1a t2b && JS.opt_eqb t1b t2a then true
    else existsb (JS.includes tokens2) tokens1.

Definition isOppositeDirection (tx : Tx) (userTx : UserTx) : bool :=
  if JS.empty (tokenPair tx) then false
  else
    let parts := JS.split "/"%char (tokenPair tx) in
    JS.opt_eqb (nth_error parts 0) (Some (token_out userTx)) &&
    JS.opt_eqb (nth_error parts 1) (Some (token_in userTx)).

Definition avgGas (txs : list Tx) : Q :=
  JS.sum (map gasPrice txs) / inject_Z (Z.of_nat (List.length txs)).

Definition checkGasOrdering (frontRunners backRunners : list Tx)
    (userGasPrice : Q) : bool :=
  match frontRunners, backRunners with
  | [], _ | _, [] => false
  | _, _ =>
      JS.gt (avgGas frontRunners) userGasPrice &&
      JS.gt userGasPrice (avgGas backRunners)
  end.

Definition checkGasPositioning (backRunners : list Tx) (userGasPrice : Q)
    : bool :=
  match backRunners with
  | [] => false
  | _ =>
      JS.lt (avgGas backRunners) userGasPrice &&
      JS.gt (avgGas backRunners) (userGasPrice * (85 # 100))
  end.

Definition nonEmpty {A} (l : list A) : bool :=
  match l with [] => false | _ => true end.

Definition len {A} (l : list A) : Q := inject_Z (Z.of_nat (List.length l)).

Definition isFrontRunner (userGasPrice : Q) (userTx : UserTx) (tx : Tx) : bool :=
  JS.gt (gasPrice tx) (userGasPrice * (105 # 100)) &&
  isSameOrRelatedPair (tokenPair tx) (userPair userTx).

Definition isBackRunner (userGasPrice : Q) (userTx : UserTx) (tx : Tx) : bool :=
  JS.lt (gasPrice tx) (userGasPrice * (95 # 100)) &&
  isSameOrRelatedPair (tokenPair tx) (userPair userTx) &&
  isOppositeDirection tx userTx.

Definition detectSandwichPattern (mempoolData : MempoolData) (userTx : UserTx)
    : Detection :=
  match competingTxs mempoolData with
  | [] => notDetected
  | txs =>
      let userGasPrice := userGasPriceOf mempoolData userTx in
      let frontRunners := filter (isFrontRunner userGasPrice userTx) txs in
      let backRunners := filter (isBackRunner userGasPrice userTx) txs in
      let detected := nonEmpty frontRunners && nonEmpty backRunners in
      let confidence :=
        if detected then
          Qmin ((6 # 10) + len frontRunners * (1 # 10)
                + len backRunners * (1 # 10)
                + (if checkGasOrdering frontRunners backRunners userGasPrice
                   then 2 # 10 else 0))
               1
        else 0 in
      {| detected := detected; confidence := confidence;
         matched := frontRunners; matchedBack := backRunners |}
  end.

Definition isCompetitor (userGasPrice : Q) (userTx : UserTx) (tx : Tx) : bool :=
  JS.gt (gasPrice tx) userGasPrice &&
  isSameOrRelatedPair (tokenPair tx) (userPair userTx).

(** [(parseFloat(tx.gasPrice) - userGasPrice) / userGasPrice]. *)
Definition gasDiff (userGasPrice : Q) (tx : Tx) : Q :=
  (gasPrice tx - userGasPrice) / userGasPrice.

(** With [userGasPrice] zero every competitor has a positive gas price,
    the quotient is +Infinity and [Math.min(..., 1.0)] is 1. *)
Definition detectFrontrunPattern (mempoolData : MempoolData) (userTx : UserTx)
    : Detection :=
  match competingTxs mempoolData with
  | [] => notDetected
  | txs =>
      let userGasPrice := userGasPriceOf mempoolData userTx in
      let competitors := filter (isCompetitor userGasPrice userTx) txs in
      let confidence :=
        match map (gasDiff userGasPrice) competitors with
        | [] => 0
        | d :: ds =>
            if Qeq_bool userGasPrice 0 then 1
            else
              let maxGasDiff := JS.max_of d ds in
              Qmin ((5 # 10) + len competitors * (1 # 10)
                    + maxGasDiff * (3 # 10))
                   1
        end in
      {| detected := nonEmpty competitors; confidence := confidence;
         matched := competitors; matchedBack := [] |}
  end.

Definition isBackrunCandidate (userGasPrice : Q) (userTx : UserTx) (tx : Tx)
    : bool :=
  JS.lt (gasPrice tx) userGasPrice &&
  JS.gt (gasPrice tx) (userGasPrice * (8 # 10)) &&
  isSameOrRelatedPair (tokenPair tx) (userPair userTx) &&
  isOppositeDirection tx userTx.

Definition detectBackrunPattern (mempoolData : MempoolData) (userTx : UserTx)
    : Detection :=
  match competingTxs mempoolData with
  | [] => notDetected
  | txs =>
      let userGasPrice := userGasPriceOf mempoolData userTx in
      let backRunners := filter (isBackrunCandidate userGasPrice userTx) txs in
      let detected := nonEmpty backRunners in
      let confidence :=
        if detected then
          Qmin ((4 # 10) + len backRunners * (15 # 100)
                + (if checkGasPositioning backRunners userGasPrice
                   then 2 # 10 else 0))
               1
        else 0 in
      {| detected := detected; confidence := confidence;
         matched := backRunners; matchedBack := [] |}
  end.

(** [Math.abs(parseFloat(tx.value) - userAmount) / userAmount < 0.1]:
    false when [tx.value] is missing (NaN) and when [userAmount] is zero
    (the quotient is then Infinity or NaN). *)
Definition isSimilarAmount (userAmount : Q) (tx : Tx) : bool :=
  match value tx with
  | None => false
  | Some v =>
      if Qeq_bool userAmount 0 then false
      else JS.lt (Qabs (v - userAmount) / userAmount) (1 # 10)
  end.

Definition isCopycat (userGasPrice : Q) (userTx : UserTx) (tx : Tx) : bool :=
  String.eqb (tokenPair tx) (userPair userTx) &&
  isSimilarAmount (amount_in userTx) tx &&
  JS.gt (gasPrice tx) userGasPrice.

Definition detectCopycatPattern (mempoolData : MempoolData) (userTx : UserTx)
    : Detection :=
  match competingTxs mempoolData with
  | [] => notDetected
  | txs =>
      let userGasPrice := userGasPriceOf mempoolData userTx in
      let copycats := filter (isCopycat userGasPrice userTx) txs in
      let detected := nonEmpty copycats in
      {| detected := detected;
         confidence :=
           if detected then Qmin ((7 # 10) + len copycats * (1 # 10)) 1 else 0;
         matched := copycats; matchedBack := [] |}
  end.

Definition isLiquidityTx (tx : Tx) : bool :=
  negb (JS.empty (input tx)) &&
  (JS.startsWith (input tx) "0xe8e33700" ||
   JS.startsWith (input tx) "0xf305d719").

Definition detectJITLiquidityPattern (mempoolData : MempoolData)
    (userTx : UserTx) : Detection :=
  match competingTxs mempoolData with
  | [] => notDetected
  | txs =>
      let liquidityTxs := filter isLiquidityTx txs in
      let detected := nonEmpty liquidityTxs in
      {| detected := detected;
         confidence := if detected then 6 # 10 else 0;
         matched := liquidityTxs; matchedBack := [] |}
  end.

(** The keys of the [patterns] object. *)
Inductive PatternName := sandwich | frontrun | backrun | copycat | jit.

Record Patterns := {
  pat_sandwich : Detection;
  pat_frontrun : Detection;
  pat_backrun : Detection;
  pat_copycat : Detection;
  pat_jit : Detection
}.

(** [Object.entries(patterns)], in the order the object literal of
    [analyzeMEVPatterns] defines its keys. *)
Definition entries (patterns : Patterns) : list (PatternName * Detection) :=
  [ (sandwich, pat_sandwich patterns);
    (frontrun, pat_frontrun patterns);
    (backrun, pat_backrun patterns);
    (copycat, pat_copycat patterns);
    (jit, pat_jit patterns) ].

Definition weights (pattern : PatternName) : Q :=
  match pattern with
  | sandwich => 40 # 100
  | frontrun => 30 # 100
  | copycat => 15 # 100
  | backrun => 10 # 100
  | jit => 5 # 100
  end.

Definition totalRisk (patterns : Patterns) : Q :=
  fold_left
    (fun total (entry : PatternName * Detection) =>
       let (pattern, data) := entry in
       if detected data && JS.truthy (confidence data)
       then total + confidence data * weights pattern * 100
       else total)
    (entries patterns) 0.

Definition calculateAggregateRisk (patterns : Patterns) : Z :=
  Z.min (JS.round (totalRisk patterns)) 100.

Definition analyzePatterns (mempoolData : MempoolData) (userTx : UserTx)
    : Patterns :=
  {| pat_sandwich := detectSandwichPattern mempoolData userTx;
     pat_frontrun := detectFrontrunPattern mempoolData userTx;
     pat_backrun := detectBackrunPattern mempoolData userTx;
     pat_copycat := detectCopycatPattern mempoolData userTx;
     pat_jit := detectJITLiquidityPattern mempoolData userTx |}.

Record Analysis := {
  patterns : Patterns;
  aggregateRisk : Z
}.

Definition analyzeMEVPatterns (mempoolData : MempoolData) (userTx : UserTx)
    : Analysis :=
  let ps := analyzePatterns mempoolData userTx in
  {| patterns := ps; aggregateRisk := calculateAggregateRisk ps |}.

End PatternAnalyzer.

(** ** websocket-mempool.js *)

Module WebSocketMempool.

(** The module-level [pendingTxCache] object. *)
Record PendingTxCache := {
  transactions : list Tx;
  lastUpdate : Z;               (* Date.now() of the last insertion, 0 at start *)
  isConnected : bool;
  source : string
}.

Definition initialCache : PendingTxCache :=
  {| transactions := []; lastUpdate := 0; isConnected := false;
     source := "none" |}.

Definition CACHE_TTL : Z := 5000.
Definition MAX_CACHED_TXS : nat := 100.
Definition MAX_RECONNECT_ATTEMPTS : nat := 5.

(** The module state: the cache and the [reconnectAttempts] counter. *)
Record State := {
  pendingTxCache : PendingTxCache;
  reconnectAttempts : nat
}.

Definition initialState : State :=
  {| pendingTxCache := initialCache; reconnectAttempts := 0 |}.

(** What a socket handler asks of the outside world. *)
Inductive Action :=
| SendSubscribe                 (* wsConnection.send(eth_subscribe ...) *)
| SetTimeoutReconnect (delay : Z).  (* setTimeout(() => initializeInfuraWebSocket(key), delay) *)

Definition addToPendingCache (tx : Tx) (now : Z) (c : PendingTxCache)
    : PendingTxCache :=
  let unshifted := tx :: transactions c in
  let kept :=
    if (MAX_CACHED_TXS <? List.length unshifted)%nat
    then firstn MAX_CACHED_TXS unshifted
    else unshifted in
  {| transactions := kept; lastUpdate := now;
     isConnected := isConnected c; source := source c |}.

(** The socket's ['open'] handler. *)
Definition onOpen (s : State) : State * list Action :=
  ({| pendingTxCache :=
        {| transactions := transactions (pendingTxCache s);
           lastUpdate := lastUpdate (pendingTxCache s);
           isConnected := true; source := "infura" |};
      reconnectAttempts := 0 |},
   [SendSubscribe]).

(** The socket's ['error'] handler. *)
Definition onError (s : State) : State * list Action :=
  ({| pendingTxCache :=
        {| transactions := transactions (pendingTxCache s);
           lastUpdate := lastUpdate (pendingTxCache s);
           isConnected := false; source := source (pendingTxCache s) |};
      reconnectAttempts := reconnectAttempts s |},
   []).

(** The socket's ['close'] handler. *)
Definition onClose (s : State) : State * list Action :=
  let c := {| transactions := transactions (pendingTxCache s);
              lastUpdate := lastUpdate (pendingTxCache s);
              isConnected := false; source := "none" |} in
  if (reconnectAttempts s <? MAX_RECONNECT_ATTEMPTS)%nat
  then ({| pendingTxCache := c;
           reconnectAttempts := S (reconnectAttempts s) |},
        [SetTimeoutReconnect 5000])
  else ({| pendingTxCache := c; reconnectAttempts := reconnectAttempts s |},
        []).

(** A notification whose lookup resolved to a DEX transaction:
    [processPendingTransaction] ends in [addToPendingCache]. *)
Definition onPendingTx (tx : Tx) (now : Z) (s : State) : State * list Action :=
  ({| pendingTxCache := addToPendingCache tx now (pendingTxCache s);
      reconnectAttempts := reconnectAttempts s |},
   []).

Inductive Event :=
| Open
| Error
| Close
| PendingTx (tx : Tx) (now : Z).

Definition handle (s : State) (e : Event) : State * list Action :=
  match e with
  | Open => onOpen s
  | Error => onError s
  | Close => onClose s
  | PendingTx tx now => onPendingTx tx now s
  end.

(** The handlers run one after another on the event loop. *)
Fixpoint run (s : State) (events : list Event) : State * list Action :=
  match events with
  | [] => (s, [])
  | e :: rest =>
      let (s1, out1) := handle s e in
      let (s2, out2) := run s1 rest in
      (s2, out1 ++ out2)
  end.

Definition isReconnect (a : Action) : bool :=
  match a with SetTimeoutReconnect _ => true | SendSubscribe => false end.

(** How many reconnects a list of actions schedules. *)
Definition reconnects (out : list Action) : nat :=
  List.length (filter isReconnect out).

Record CachedPending := {
  cp_transactions : list Tx;
  cp_isRealTime : bool;
  cp_source : string;
  cp_cacheAge : Z;
  cp_totalCached : option nat     (* missing from the stale answer *)
}.

Definition getCachedPendingTransactions (c : PendingTxCache) (now : Z)
    : CachedPending :=
  if (CACHE_TTL <? now - lastUpdate c)%Z then
    {| cp_transactions := []; cp_isRealTime := false; cp_source := source c;
       cp_cacheAge := (now - lastUpdate c)%Z; cp_totalCached := None |}
  else
    let filtered := filter (fun _ => true) (transactions c) in
    {| cp_transactions := firstn 20 filtered;
       cp_isRealTime := isConnected c;
       cp_source := source c;
       cp_cacheAge := (now - lastUpdate c)%Z;
       cp_totalCached := Some (List.length (transactions c)) |}.

Record WebSocketStatus := {
  st_isConnected : bool;
  st_source : string;
  st_cachedTransactions : nat;
  st_lastUpdate : Z;
  st_cacheAge : Z
}.

Definition getWebSocketStatus (c : PendingTxCache) (now : Z) : WebSocketStatus :=
  {| st_isConnected := isConnected c;
     st_source := source c;
     st_cachedTransactions := List.length (transactions c);
     st_lastUpdate := lastUpdate c;
     st_cacheAge := (now - lastUpdate c)%Z |}.

End WebSocketMempool.

(** ** database/queries.js: the mempool_cache table *)

Module Queries.

(** A row of [mempool_cache].  The [data] column holds
    [JSON.stringify(snapshot)] and is read back with [JSON.parse]; the
    round trip is the identity on the fields of [MempoolData]. *)
Record CacheRow := {
  token_pair : string;
  data : MempoolData;
  cached_at : Z                 (* seconds *)
}.

(** The table, in rowid order. *)
Definition Db := list CacheRow.

(** [Math.floor(Date.now() / 1000)] and SQLite's [strftime('%s','now')]. *)
Definition seconds (now : Z) : Z := (now / 1000)%Z.

(** [ORDER BY cached_at DESC LIMIT 1].  SQL leaves the choice among rows
    of equal [cached_at] open; the model takes the one inserted last. *)
Definition newer (best : option CacheRow) (row : CacheRow) : option CacheRow :=
  match best with
  | None => Some row
  | Some b => if (cached_at b <=? cached_at row)%Z then Some row else Some b
  end.

Definition newest (rows : list CacheRow) : option CacheRow :=
  fold_left newer rows None.

Definition fresh (tokenPair : string) (since : Z) (row : CacheRow) : bool :=
  String.eqb (token_pair row) tokenPair && (since <? cached_at row)%Z.

Definition getCachedMempoolData (db : Db) (now : Z) (tokenPair : string)
    : option MempoolData :=
  let since := (seconds now - 3)%Z in
  match newest (filter (fresh tokenPair since) db) with
  | Some result => Some (data result)
  | None => None
  end.

Definition cacheMempoolData (db : Db) (now : Z) (tokenPair : string)
    (d : MempoolData) : Db :=
  let cleaned :=
    filter (fun row => negb (cached_at row <? seconds now - 10)%Z) db in
  cleaned ++ [ {| token_pair := tokenPair; data := d;
                  cached_at := seconds now |} ].

End Queries.

(** ** Exceptions *)

Inductive Result (A : Type) :=
| Ok (a : A)
| Throw (message : string).

Arguments Ok {A} a.
Arguments Throw {A} message.

Definition bind {A B} (c : Result A) (k : A -> Result B) : Result B :=
  match c with
  | Ok a => k a
  | Throw m => Throw m
  end.

(** [try { c } catch (error) { handler(error.message) }]. *)
Definition try_catch {A} (c : Result A) (handler : string -> A) : A :=
  match c with
  | Ok a => a
  | Throw m => handler m
  end.

Declare Scope result_scope.
Delimit Scope result_scope with result.
Notation "x <- c ;; k" := (bind c (fun x => k))
  (at level 61, c at next level, right associativity) : result_scope.

(** ** mempool-enhanced.js *)

Module MempoolEnhanced.

Import WebSocketMempool Queries.
Local Open Scope result_scope.

(** *** The upstream sources *)

Record Block := {
  baseFeePerGas : option Z;       (* wei; null before EIP-1559 *)
  blockTransactions : list string
}.

(** A transaction of the node's pending block. *)
Record RawTx := {
  raw_hash : string;
  raw_gasPrice : option Z;        (* wei *)
  raw_maxFeePerGas : option Z;    (* wei *)
  raw_value : option Z;           (* wei *)
  raw_input : string
}.

(** One JSON-RPC endpoint: what each of its calls answers. *)
Record Provider := {
  getBlockNumber : Result Z;
  getBlock : Z -> Result (option Block);
  getFilter : Result unit;                        (* provider._getFilter *)
  getPendingBlock : Result (option (list RawTx))  (* eth_getBlockByNumber 'pending' *)
}.

(** The first entry of [blockPrices] in Blocknative's answer. *)
Record BlockPrices := {
  bp_blockNumber : Z;
  estimatedTransactionCount : Z;
  estimatedPrices : list (option Q)   (* estimatedPrices[i]?.price *)
}.

(** The environment of one call: [process.env] and the behaviour of the
    services behind the network.  An unset variable is the empty string.
    [elapsed] is the time in milliseconds the awaited calls take, from the
    cache lookup to the cache write. *)
Record Env := {
  BLOCKNATIVE_API_KEY : string;
  INFURA_PROJECT_ID : string;
  ALCHEMY_API_KEY : string;
  blocknativeBlockPrices : Result (option BlockPrices);
  rpc : string -> Provider;       (* new ethers.JsonRpcProvider(url) *)
  elapsed : N
}.

(** [userTxDetails.gasPrice], which only [BigInt(...)] reads. *)
Inductive GasPriceField :=
| Missing
| NotInteger                      (* BigInt throws a SyntaxError *)
| IntegerLiteral (n : Z).

(** *** Gas percentiles *)

Fixpoint insert (x : Q) (l : list Q) : list Q :=
  match l with
  | [] => [x]
  | y :: t => if Qle_bool x y then x :: y :: t else y :: insert x t
  end.

(** [xs.sort((a, b) => a - b)]: ascending and stable. *)
Definition sortAsc (xs : list Q) : list Q := fold_right insert [] xs.

(** [sorted[Math.floor(sorted.length * p)]]. *)
Definition at_percentile (sorted : list Q) (p : Q) : option Q :=
  nth_error sorted (JS.floor_mul (List.length sorted) p).

(** [(x || d)] where [x] may be [undefined]. *)
Definition or_default (x : option Q) (d : Q) : Q :=
  match x with
  | Some v => if JS.truthy v then v else d
  | None => d
  end.

(** The percentile block of [fetchFromWebSocketCache]. *)
Definition wsGasPercentiles (txs : list Tx) : GasPercentiles :=
  let gasPrices :=
    sortAsc (filter (fun gp => JS.gt gp 0) (map gasPrice txs)) in
  match gasPrices with
  | [] => defaultPercentiles
  | _ =>
      {| p25 := JS.toFixed 2 (or_default (at_percentile gasPrices (25 # 100)) 20);
         p50 := JS.toFixed 2 (or_default (at_percentile gasPrices (50 # 100)) 35);
         p75 := JS.toFixed 2 (or_default (at_percentile gasPrices (75 # 100)) 50);
         p90 := JS.toFixed 2 (or_default (at_percentile gasPrices (90 # 100)) 80) |}
  end.

(** [Promise.all] of a list of calls: the first rejection wins. *)
Fixpoint all {A} (calls : list (Result A)) : Result (list A) :=
  match calls with
  | [] => Ok []
  | c :: rest => x <- c ;; xs <- all rest ;; Ok (x :: xs)
  end.

(** [Number(ethers.formatUnits(wei, 'gwei'))]. *)
Definition gwei (wei : Z) : Q := wei # 1000000000.

(** [ethers.formatEther(wei)]. *)
Definition ether (wei : Z) : Q := wei # 1000000000000000000.

(** [b && b.baseFeePerGas], mapped to gwei. *)
Definition baseFeeOf (b : option Block) : option Q :=
  match b with
  | Some blk =>
      match baseFeePerGas blk with
      | Some w => if (w =? 0)%Z then None else Some (gwei w)
      | None => None
      end
  | None => None
  end.

Fixpoint keep_some {A} (l : list (option A)) : list A :=
  match l with
  | [] => []
  | Some x :: t => x :: keep_some t
  | None :: t => keep_some t
  end.

(** [baseFees[Math.floor(baseFees.length * p)] * k], formatted; the index
    is inside the array whenever the array is not empty. *)
Definition scaled (sorted : list Q) (p k : Q) : Q :=
  match at_percentile sorted p with
  | Some v => JS.toFixed 2 (v * k)
  | None => 0
  end.

(** The body of [getGasPricePercentiles] once the blocks are fetched. *)
Definition baseFeePercentiles (fees : list Q) : GasPercentiles :=
  match fees with
  | [] => defaultPercentiles
  | _ =>
      let baseFees := sortAsc fees in
      {| p25 := scaled baseFees (25 # 100) (11 # 10);
         p50 := scaled baseFees (50 # 100) (125 # 100);
         p75 := scaled baseFees (75 # 100) (15 # 10);
         p90 := scaled baseFees (90 # 100) 2 |}
  end.

Definition getGasPricePercentiles (provider : Provider) (currentBlock : Z)
    : GasPercentiles :=
  try_catch
    (blocks <- all [ getBlock provider currentBlock;
                     getBlock provider (currentBlock - 1)%Z;
                     getBlock provider (currentBlock - 2)%Z;
                     getBlock provider (currentBlock - 3)%Z;
                     getBlock provider (currentBlock - 4)%Z ] ;;
     Ok (baseFeePercentiles (keep_some (map baseFeeOf blocks))))
    (fun _ => defaultPercentiles).

(** *** The acquisition strategies *)

Definition snapshot_seconds (now : Z) : Z := seconds now.

Definition getSimulatedMempoolData (tokenIn tokenOut : string) (now : Z)
    : MempoolData :=
  {| md_tokenPair := JS.pair_of tokenIn tokenOut;
     currentBlock := 0;
     blockTimeEstimate := 12;
     gasPercentiles := defaultPercentiles;
     competingTxs := [];
     pendingTxCount := None;
     avgBlockTxCount := None;
     dataSource := "simulated";
     md_confidence := 50 # 100;
     isRealTime := false;
     md_timestamp := snapshot_seconds now |}.

Definition fetchFromWebSocketCache (ws : PendingTxCache)
    (tokenIn tokenOut : string) (now : Z) : option MempoolData :=
  let wsData := getCachedPendingTransactions ws now in
  if negb (cp_isRealTime wsData) then None
  else
    Some {| md_tokenPair := JS.pair_of tokenIn tokenOut;
            currentBlock := 0;
            blockTimeEstimate := 12;
            gasPercentiles := wsGasPercentiles (cp_transactions wsData);
            competingTxs := cp_transactions wsData;
            pendingTxCount := option_map Z.of_nat (cp_totalCached wsData);
            avgBlockTxCount := None;
            dataSource := ("real-mempool-" ++ cp_source wsData)%string;
            md_confidence := 98 # 100;
            isRealTime := true;
            md_timestamp := snapshot_seconds now |}.

(** [estimatedPrices[i]?.price?.toString() || d]. *)
Definition priceAt (prices : list (option Q)) (i : nat) (d : Q) : Q :=
  match nth_error prices i with
  | Some (Some price) => price
  | _ => d
  end.

Definition fetchFromBlocknative (env : Env) (tokenIn tokenOut : string)
    (now : Z) : option MempoolData :=
  try_catch
    (answer <- blocknativeBlockPrices env ;;
     match answer with
     | None => Throw "No block price data available"
     | Some blockPrices =>
         let prices := estimatedPrices blockPrices in
         Ok (Some
           {| md_tokenPair := JS.pair_of tokenIn tokenOut;
              currentBlock := bp_blockNumber blockPrices;
              blockTimeEstimate :=
                if (200 <? estimatedTransactionCount blockPrices)%Z
                then 13 else 12;
              gasPercentiles :=
                {| p25 := priceAt prices 0 20; p50 := priceAt prices 1 35;
                   p75 := priceAt prices 2 50; p90 := priceAt prices 4 80 |};
              competingTxs := [];
              pendingTxCount := None;
              avgBlockTxCount := None;
              dataSource := "blocknative";
              md_confidence := 95 # 100;
              isRealTime := false;
              md_timestamp := snapshot_seconds now |})
     end)
    (fun _ => None).

Definition publicRPCs : list string :=
  [ "https://eth.llamarpc.com";
    "https://rpc.ankr.com/eth";
    "https://ethereum.publicnode.com" ]%string.

(** The loop of [getProvider] over the public endpoints. *)
Fixpoint firstWorking (env : Env) (urls : list string) : Result Provider :=
  match urls with
  | [] => Throw "No working Ethereum RPC provider available"
  | url :: rest =>
      match getBlockNumber (rpc env url) with
      | Ok _ => Ok (rpc env url)
      | Throw _ => firstWorking env rest
      end
  end.

Definition getProvider (env : Env) : Result Provider :=
  if negb (JS.empty (ALCHEMY_API_KEY env)) then
    Ok (rpc env ("https://eth-mainnet.g.alchemy.com/v2/" ++ ALCHEMY_API_KEY env)%string)
  else if negb (JS.empty (INFURA_PROJECT_ID env)) then
    Ok (rpc env ("https://mainnet.infura.io/v3/" ++ INFURA_PROJECT_ID env)%string)
  else firstWorking env publicRPCs.

Definition getPendingTransactions (provider : Provider) : list RawTx :=
  try_catch
    (_ <- getFilter provider ;;
     pendingBlock <- getPendingBlock provider ;;
     match pendingBlock with
     | Some txs =>
         Ok (firstn 100 (filter (fun tx => negb (JS.empty (raw_hash tx))) txs))
     | None => Ok []
     end)
    (fun _ => []).

Definition swapSignatures : list string :=
  [ "0x38ed1739"; "0x8803dbee"; "0x7ff36ab5"; "0x18cbafe5"; "0xfb3bdb41";
    "0x4a25d94a"; "0x414bf389"; "0xc04b8d59"; "0xdb3e2198"; "0x09b81346" ]%string.

Definition isLikelySwapTransaction (tx : RawTx) : bool :=
  if (String.length (raw_input tx) <? 10)%nat then false
  else JS.includes swapSignatures (String.substring 0 10 (raw_input tx)).

Definition extractTokenPair (tx : RawTx) : string := "UNKNOWN/UNKNOWN".

Definition isRelatedPair (pair1 pair2 : string) : bool :=
  existsb (JS.includes (JS.split "/"%char pair2)) (JS.split "/"%char pair1).

(** [tx.gasPrice || tx.maxFeePerGas || BigInt(0)]: [0n] is falsy. *)
Definition rawGasPrice (tx : RawTx) : Z :=
  match raw_gasPrice tx with
  | Some g => if (g =? 0)%Z
              then match raw_maxFeePerGas tx with Some m => m | None => 0%Z end
              else g
  | None => match raw_maxFeePerGas tx with Some m => m | None => 0%Z end
  end.

(** [Number(txGasPrice - userGasPrice) / Number(userGasPrice) > 0.1]; with
    a zero divisor the quotient is +Infinity, -Infinity or NaN. *)
Definition isSuspiciousTransaction (tx : RawTx) (userGasPrice : GasPriceField)
    : Result bool :=
  match userGasPrice with
  | Missing => Ok false
  | NotInteger => Throw "Cannot convert to a BigInt"
  | IntegerLiteral user =>
      if (user =? 0)%Z then Ok (0 <? rawGasPrice tx - user)%Z
      else Ok (JS.gt (inject_Z (rawGasPrice tx - user) / inject_Z user) (1 # 10))
  end.

(** One turn of the loop of [analyzePendingTransactions]: the record
    pushed, if any; a throw inside the turn skips the transaction. *)
Definition analyzeOne (tokenPair : string) (userGasPrice : GasPriceField)
    (tx : RawTx) : option Tx :=
  try_catch
    (if isLikelySwapTransaction tx then
       let txTokenPair := extractTokenPair tx in
       if String.eqb txTokenPair tokenPair || isRelatedPair txTokenPair tokenPair
       then
         suspicious <- isSuspiciousTransaction tx userGasPrice ;;
         Ok (Some {| hash := raw_hash tx;
                     gasPrice := gwei (rawGasPrice tx);
                     value := Some (ether (match raw_value tx with
                                           | Some v => v | None => 0%Z end));
                     amount := None;
                     tokenPair := txTokenPair;
                     input := String.substring 0 10 (raw_input tx);
                     isSuspicious := suspicious |})
       else Ok None
     else Ok None)
    (fun _ => None).

Definition analyzePendingTransactions (pendingTxs : list RawTx)
    (tokenIn tokenOut : string) (userGasPrice : GasPriceField) : list Tx :=
  keep_some (map (analyzeOne (JS.pair_of tokenIn tokenOut) userGasPrice)
                 pendingTxs).

Definition fetchFromEthereumRPC (env : Env) (tokenIn tokenOut : string)
    (userGasPrice : GasPriceField) (now : Z) : Result (option MempoolData) :=
  provider <- getProvider env ;;
  Ok (try_catch
        (current <- getBlockNumber provider ;;
         _ <- getBlock provider current ;;
         let pendingTxs := getPendingTransactions provider in
         let competing :=
           analyzePendingTransactions pendingTxs tokenIn tokenOut userGasPrice in
         Ok (Some
           {| md_tokenPair := JS.pair_of tokenIn tokenOut;
              currentBlock := current;
              blockTimeEstimate := 12;
              gasPercentiles := getGasPricePercentiles provider current;
              competingTxs := competing;
              pendingTxCount := Some (Z.of_nat (List.length pendingTxs));
              avgBlockTxCount := None;
              dataSource := "ethereum-rpc";
              md_confidence := 85 # 100;
              isRealTime := false;
              md_timestamp := snapshot_seconds now |}))
        (fun _ => None)).

(** [b?.transactions?.length || 0]. *)
Definition txCount (b : option Block) : Z :=
  match b with
  | Some blk => Z.of_nat (List.length (blockTransactions blk))
  | None => 0%Z
  end.

Definition analyzeRecentBlocks (env : Env) (tokenIn tokenOut : string)
    (now : Z) : Result MempoolData :=
  provider <- getProvider env ;;
  Ok (try_catch
        (current <- getBlockNumber provider ;;
         let percentiles := getGasPricePercentiles provider current in
         recentBlocks <- all [ getBlock provider current;
                               getBlock provider (current - 1)%Z;
                               getBlock provider (current - 2)%Z ] ;;
         let avgTxCount :=
           inject_Z (fold_left (fun sum b => (sum + txCount b)%Z) recentBlocks 0%Z)
           / 3 in
         Ok {| md_tokenPair := JS.pair_of tokenIn tokenOut;
               currentBlock := current;
               blockTimeEstimate := if JS.gt avgTxCount 200 then 13 else 12;
               gasPercentiles := percentiles;
               competingTxs := [];
               pendingTxCount := None;
               avgBlockTxCount := Some (JS.round avgTxCount);
               dataSource := "block-analysis";
               md_confidence := 70 # 100;
               isRealTime := false;
               md_timestamp := snapshot_seconds now |})
        (fun _ => getSimulatedMempoolData tokenIn tokenOut now)).

(** *** The fallback chain *)

Definition getRealMempoolData (env : Env) (ws : PendingTxCache) (db : Db)
    (now : Z) (tokenIn tokenOut : string) (userGasPrice : GasPriceField)
    : Result MempoolData * Db :=
  let tokenPair := JS.pair_of tokenIn tokenOut in
  match getCachedMempoolData db now tokenPair with
  | Some cached => (Ok cached, db)
  | None =>
      let later := (now + Z.of_N (elapsed env))%Z in
      let store := fun mempoolData : MempoolData =>
        (Ok mempoolData, cacheMempoolData db later tokenPair mempoolData) in
      let wsStatus := getWebSocketStatus ws now in
      let fromWebSocket :=
        if st_isConnected wsStatus then
          let hasFreshCache :=
            (0 <? st_cachedTransactions wsStatus)%nat &&
            (st_cacheAge wsStatus <? 10000)%Z in
          let isActivelyListening :=
            (st_lastUpdate wsStatus =? 0)%Z ||
            (st_cacheAge wsStatus <? 60000)%Z in
          if hasFreshCache || isActivelyListening
          then fetchFromWebSocketCache ws tokenIn tokenOut now
          else None
        else None in
      match fromWebSocket with
      | Some mempoolData => store mempoolData
      | None =>
          let fromBlocknative :=
            if negb (JS.empty (BLOCKNATIVE_API_KEY env))
            then fetchFromBlocknative env tokenIn tokenOut later
            else None in
          match fromBlocknative with
          | Some mempoolData => store mempoolData
          | None =>
              match fetchFromEthereumRPC env tokenIn tokenOut userGasPrice later with
              | Throw m => (Throw m, db)
              | Ok (Some mempoolData) => store mempoolData
              | Ok None =>
                  match analyzeRecentBlocks env tokenIn tokenOut later with
                  | Throw m => (Throw m, db)
                  | Ok mempoolData => store mempoolData
                  end
              end
          end
      end
  end.

End MempoolEnhanced.

(** ** detectors/sandwich.js, detectors/frontrun.js, detectors/historical.js *)

Module Detectors.

Record Risk := {
  score : Z;
  type : string
}.

(** [tx.tokenPair === `${userTx.token_out}/${userTx.token_in}`]. *)
Definition reversePair (userTx : UserTx) : string :=
  JS.pair_of (token_out userTx) (token_in userTx).

(** utils/calculations.js: [calculatePriceImpact(amountIn)] with the
    default pool of 1000000. *)
Definition calculatePriceImpact (amountIn : Q) : Q :=
  Qmin (amountIn / 1000000 * 100) 100.

Definition detectSandwich (userTx : UserTx) (mempoolData : MempoolData) : Risk :=
  let userAmount := amount_in userTx in
  let userGasPrice := userGasPriceOf mempoolData userTx in
  let userTokenPair := userPair userTx in
  let samePairTxs :=
    filter (fun tx => String.eqb (tokenPair tx) userTokenPair ||
                      String.eqb (tokenPair tx) (reversePair userTx))
           (competingTxs mempoolData) in
  match samePairTxs with
  | [] => {| score := 10; type := "none" |}
  | _ =>
      let frontRunners :=
        filter (fun tx => JS.gt (gasPrice tx) (userGasPrice * (105 # 100)) &&
                          String.eqb (tokenPair tx) userTokenPair)
               samePairTxs in
      let backRunners :=
        filter (fun tx => JS.lt (gasPrice tx) (userGasPrice * (95 # 100)) &&
                          String.eqb (tokenPair tx) (reversePair userTx))
               samePairTxs in
      match frontRunners, backRunners with
      | _ :: _, _ :: _ =>
          let priceImpact := calculatePriceImpact userAmount in
          let riskScore :=
            (70 + Z.min (Z.of_nat (List.length frontRunners) * 5) 15
             + (if JS.gt userAmount 10000 then 5 else 0)
             + (if JS.gt userAmount 50000 then 5 else 0)
             + (if JS.gt priceImpact 1 then 5 else 0)
             + (if JS.gt priceImpact 2 then 5 else 0))%Z in
          {| score := Z.min riskScore 100; type := "sandwich" |}
      | _ :: _, [] =>
          {| score := (50 + Z.of_nat (List.length frontRunners) * 5)%Z;
             type := "potential-sandwich" |}
      | [], _ =>
          {| score := (20 + Z.of_nat (List.length samePairTxs) * 3)%Z;
             type := "none" |}
      end
  end.

Definition detectFrontRun (userTx : UserTx) (mempoolData : MempoolData) : Risk :=
  let userGasPrice := userGasPriceOf mempoolData userTx in
  let userTokenPair := userPair userTx in
  let similarTxs :=
    filter (fun tx => String.eqb (tokenPair tx) userTokenPair)
           (competingTxs mempoolData) in
  match similarTxs with
  | [] => {| score := 5; type := "none" |}
  | _ =>
      let highGasCompetitors :=
        filter (fun tx => JS.gt (gasPrice tx) (userGasPrice * (11 # 10)))
               similarTxs in
      let veryHighGasCompetitors :=
        filter (fun tx => JS.gt (gasPrice tx) (userGasPrice * (125 # 100)))
               similarTxs in
      let riskScore :=
        match veryHighGasCompetitors, highGasCompetitors with
        | _ :: _, _ => (70 + Z.of_nat (List.length veryHighGasCompetitors) * 5)%Z
        | [], _ :: _ => (50 + Z.of_nat (List.length highGasCompetitors) * 5)%Z
        | [], [] => (20 + Z.of_nat (List.length similarTxs) * 3)%Z
        end in
      let attackType :=
        match veryHighGasCompetitors, highGasCompetitors with
        | [], [] => "none"%string
        | _, _ => "front-run"%string
        end in
      {| score := Z.min riskScore 100; type := attackType |}
  end.

(** [Math.abs(tx.amount - userAmount) / userAmount < 0.1]: false when
    [tx.amount] is missing and when [userAmount] is zero. *)
Definition amountSimilar (userAmount : Q) (tx : Tx) : bool :=
  match amount tx with
  | None => false
  | Some a =>
      if Qeq_bool userAmount 0 then false
      else JS.lt (Qabs (a - userAmount) / userAmount) (1 # 10)
  end.

(** The [detected] flag of [detectCopycat]. *)
Definition detectCopycat (userTx : UserTx) (mempoolData : MempoolData) : bool :=
  let userGasPrice := userGasPriceOf mempoolData userTx in
  let copycatTxs :=
    filter (fun tx => String.eqb (tokenPair tx) (userPair userTx) &&
                      amountSimilar (amount_in userTx) tx &&
                      JS.gt (gasPrice tx) (userGasPrice * (105 # 100)))
           (competingTxs mempoolData) in
  PatternAnalyzer.nonEmpty copycatTxs.

(** What the attack database and the clock answer to
    [performHistoricalAnalysis]. *)
Record History := {
  patternQueryFails : bool;       (* getAttacksByTokenPair / getRecentAttacks throw *)
  totalAttacks : nat;
  recentAttackCount : nat;
  totalProfit : Q;
  attackerQueryFails : bool;      (* checkIfKnownAttacker throws *)
  isKnown : bool;
  utcHour : Z;
  utcDay : Z
}.

Definition analyzeHistoricalPatterns (h : History) : Z :=
  if patternQueryFails h then 0%Z
  else
    let avgProfit :=
      if (0 <? totalAttacks h)%nat
      then totalProfit h / inject_Z (Z.of_nat (totalAttacks h)) else 0 in
    ((if (50 <? totalAttacks h)%nat then 15
      else if (20 <? totalAttacks h)%nat then 10
      else if (10 <? totalAttacks h)%nat then 5 else 0)
     + (if (5 <? recentAttackCount h)%nat then 15
        else if (2 <? recentAttackCount h)%nat then 10
        else if (0 <? recentAttackCount h)%nat then 5 else 0)
     + (if JS.gt avgProfit 100 then 10
        else if JS.gt avgProfit 50 then 5 else 0))%Z.

Definition checkKnownAttackers (walletAddress : string) (h : History) : Z :=
  if JS.empty walletAddress then 0%Z
  else if attackerQueryFails h then 0%Z
  else if isKnown h then 30%Z else 0%Z.

Definition analyzeTimingPatterns (h : History) : Z :=
  let isPeakHour := (12 <=? utcHour h)%Z && (utcHour h <=? 18)%Z in
  let isWeekend := (utcDay h =? 0)%Z || (utcDay h =? 6)%Z in
  ((if isPeakHour then 5 else 0) + (if isWeekend then 3 else 0))%Z.

(** The [riskScore] of [performHistoricalAnalysis]. *)
Definition performHistoricalAnalysis (userTx : UserTx) (h : History) : Z :=
  Z.min (analyzeHistoricalPatterns h
         + checkKnownAttackers (wallet_address userTx) h
         + analyzeTimingPatterns h) 40.

End Detectors.

(** ** The enhanced server: the scan_transaction handler *)

Module Server.

Import PatternAnalyzer Detectors.

(** The request after [scanRequestSchema.parse]. *)
Record ScanRequest := {
  req_token_in : string;
  req_token_out : string;
  req_amount_in : Q;
  gas_price : option Q;
  req_wallet_address : string
}.

(** The handler passes the parsed request itself to the detectors.  The
    schema names the gas price [gas_price] and drops unknown keys, so the
    [gasPrice] the detectors read is [undefined]. *)
Definition asUserTx (input : ScanRequest) : UserTx :=
  {| token_in := req_token_in input;
     token_out := req_token_out input;
     amount_in := req_amount_in input;
     u_gasPrice := None;
     wallet_address := req_wallet_address input |}.

(** What [getPoolData] answers, as far as [calculatePriceImpact] reads it. *)
Record PoolData := {
  reserve0 : Q;
  reserve1 : Q;
  token0 : string;
  token1 : string
}.

(** [parseFloat(calculatePriceImpact(poolData, amount, tokenIn).priceImpact) > 2].
    With an empty reserve the quotient is +Infinity for a positive amount
    and -Infinity or NaN otherwise. *)
Definition priceImpactAbove2 (poolData : PoolData) (tradeAmount : Q)
    (tokenIn : string) : bool :=
  let reserveIn :=
    if String.eqb (token0 poolData) tokenIn
    then reserve0 poolData else reserve1 poolData in
  if Qeq_bool reserveIn 0 then JS.gt tradeAmount 0
  else JS.gt (JS.toFixed 4 (tradeAmount / reserveIn * 100)) 2.

(** The [congestionScore] of [analyzeMempoolCongestion]. *)
Definition congestionScore (mempoolData : MempoolData) : Z :=
  match pendingTxCount mempoolData with
  | None => 0
  | Some n =>
      if (n =? 0)%Z then 0
      else if (1000 <? n)%Z then 90
      else if (500 <? n)%Z then 70
      else if (200 <? n)%Z then 40
      else 20
  end%Z.

Definition passes (d : Detection) (threshold : Q) : bool :=
  detected d && JS.gt (confidence d) threshold.

Definition determineAttackType (patterns : Patterns)
    (sandwichRisk frontRunRisk : Risk) (copycatDetected : bool) : string :=
  if passes (pat_sandwich patterns) (7 # 10) then "sandwich"
  else if passes (pat_copycat patterns) (7 # 10) then "copycat-frontrun"
  else if passes (pat_frontrun patterns) (6 # 10) then "front-run"
  else if passes (pat_backrun patterns) (6 # 10) then "back-run"
  else if passes (pat_jit patterns) (6 # 10) then "jit-liquidity"
  else if copycatDetected then "copycat-frontrun"
  else if Qle_bool (inject_Z (score frontRunRisk) * (9 # 10))
                   (inject_Z (score sandwichRisk))
       then type sandwichRisk
  else type frontRunRisk.

Record ScanResult := {
  risk_score : Z;
  attack_type : string
}.

(** Steps 3 to 5 of the handler, once the snapshot and the pool data are
    there. *)
Definition assess (mempoolData : MempoolData) (poolData : PoolData)
    (h : History) (input : ScanRequest) : ScanResult :=
  let userTx := asUserTx input in
  let patternAnalysis := analyzeMEVPatterns mempoolData userTx in
  let sandwichRisk := detectSandwich userTx mempoolData in
  let frontRunRisk := detectFrontRun userTx mempoolData in
  let copycatRisk := detectCopycat userTx mempoolData in
  let historicalRisk := performHistoricalAnalysis userTx h in
  let patternRiskScore := inject_Z (aggregateRisk patternAnalysis) in
  let legacyRiskScore :=
    inject_Z (score sandwichRisk) * (45 # 100)
    + inject_Z (score frontRunRisk) * (35 # 100)
    + inject_Z historicalRisk * (20 # 100) in
  let combinedRisk := patternRiskScore * (6 # 10) + legacyRiskScore * (4 # 10) in
  let priceImpactRisk :=
    if priceImpactAbove2 poolData (req_amount_in input) (req_token_in input)
    then 10 else 0 in
  let congestionRisk := inject_Z (congestionScore mempoolData) * (1 # 10) in
  {| risk_score :=
       Z.min (JS.round (combinedRisk + priceImpactRisk + congestionRisk)) 100;
     attack_type :=
       determineAttackType (patterns patternAnalysis)
                           sandwichRisk frontRunRisk copycatRisk |}.

(** The handler: any throw on the way ends in the error response. *)
Definition scan_transaction (fetched : Result MempoolData)
    (pool : Result PoolData) (h : History) (input : ScanRequest)
    : ScanResult :=
  try_catch
    (bind fetched (fun mempoolData =>
     bind pool (fun poolData =>
     Ok (assess mempoolData poolData h input))))
    (fun _ => {| risk_score := 0; attack_type := "unknown" |}).

End Server.

(** ** websocket-mempool.js: from a notification to the buffer *)

Module Subscriber.

Import WebSocketMempool.

(** What [provider.getTransaction] answers. *)
Record ChainTx := {
  c_hash : string;
  c_to : string;                  (* '' for a contract creation *)
  c_data : string;
  c_gasPrice : option Z;          (* wei *)
  c_maxFeePerGas : option Z;      (* wei *)
  c_value : option Z              (* wei *)
}.

(** [s.toLowerCase()] on the characters an address can hold. *)
Definition lowerChar (c : ascii) : ascii :=
  let n := nat_of_ascii c in
  if ((65 <=? n) && (n <=? 90))%nat then ascii_of_nat (n + 32) else c.

Fixpoint toLowerCase (s : string) : string :=
  match s with
  | EmptyString => EmptyString
  | String c rest => String (lowerChar c) (toLowerCase rest)
  end.

Definition DEX_ROUTERS : list string :=
  [ "0x7a250d5630b4cf539739df2c5dacb4c659f2488d";
    "0xe592427a0aece92de3edee1f18e0157c05861564";
    "0xd9e1ce17f2641f24ae83637ab66a2cca9c378b9f";
    "0x1111111254fb6c44bac0bed2854e76f90643097d" ]%string.

Definition swapSignatures : list string :=
  [ "0x38ed1739"; "0x7ff36ab5"; "0x18cbafe5"; "0x414bf389"; "0xc04b8d59" ]%string.

Definition isDexTransaction (tx : ChainTx) : bool :=
  if JS.empty (c_to tx) then false
  else
    let toAddress := toLowerCase (c_to tx) in
    let isDexRouter := existsb (fun router => String.eqb router toAddress) DEX_ROUTERS in
    let methodSig := String.substring 0 10 (c_data tx) in
    let isSwapMethod :=
      negb (JS.empty methodSig) && JS.includes swapSignatures methodSig in
    isDexRouter || isSwapMethod.

Definition extractTokenPairFromTx (tx : ChainTx) : string := "UNKNOWN/UNKNOWN".

(** [tx.gasPrice ? formatUnits(tx.gasPrice, 'gwei')
     : tx.maxFeePerGas ? formatUnits(tx.maxFeePerGas, 'gwei') : '0']. *)
Definition recordedGasPrice (tx : ChainTx) : Q :=
  let nonZero := fun o : option Z =>
    match o with
    | Some w => if (w =? 0)%Z then None else Some w
    | None => None
    end in
  match nonZero (c_gasPrice tx) with
  | Some w => MempoolEnhanced.gwei w
  | None =>
      match nonZero (c_maxFeePerGas tx) with
      | Some w => MempoolEnhanced.gwei w
      | None => 0
      end
  end.

(** The [processedTx] literal. *)
Definition processedTx (tx : ChainTx) : Tx :=
  {| hash := c_hash tx;
     gasPrice := recordedGasPrice tx;
     value := Some (MempoolEnhanced.ether
                      (match c_value tx with Some v => v | None => 0%Z end));
     amount := None;
     tokenPair := extractTokenPairFromTx tx;
     input := String.substring 0 10 (c_data tx);
     isSuspicious := false |}.

(** [processPendingTransaction]: a failed or empty lookup and a
    transaction that is no DEX swap leave the state as it is. *)
Definition processPendingTransaction (lookup : Result (option ChainTx))
    (now : Z) (s : State) : State :=
  try_catch
    (found <- lookup ;;
     match found with
     | None => Ok s
     | Some tx =>
         if isDexTransaction tx
         then Ok (fst (onPendingTx (processedTx tx) now s))
         else Ok s
     end)%result
    (fun _ => s).

End Subscriber.

(** ** pattern-analyzer.js: the recommendations *)

Module Recommendations.

Import PatternAnalyzer.

(** The [type] and [title] of a recommendation. *)
Record Recommendation := {
  rec_type : string;
  rec_title : string
}.

Definition generateRecommendations (patterns : Patterns) (aggregateRisk : Z)
    : list Recommendation :=
  (if detected (pat_sandwich patterns)
   then [ {| rec_type := "CRITICAL"; rec_title := "Sandwich Attack Detected" |} ]
   else [])
  ++ (if detected (pat_copycat patterns)
      then [ {| rec_type := "HIGH"; rec_title := "Copycat Transactions Detected" |} ]
      else [])
  ++ (if detected (pat_frontrun patterns)
      then [ {| rec_type := "HIGH"; rec_title := "Front-Running Risk" |} ]
      else [])
  ++ (if detected (pat_backrun patterns)
      then [ {| rec_type := "MEDIUM"; rec_title := "Back-Running Detected" |} ]
      else [])
  ++ (if detected (pat_jit patterns)
      then [ {| rec_type := "MEDIUM"; rec_title := "JIT Liquidity Detected" |} ]
      else []).

End Recommendations.

(** ** utils/gas.js and utils/calculations.js *)

Module Utils.

Definition calculateGasPercentile (userGasPrice : Q) (g : GasPercentiles) : Z :=
  if JS.lt userGasPrice (p25 g) then 15
  else if JS.lt userGasPrice (p50 g) then 35
  else if JS.lt userGasPrice (p75 g) then 60
  else if JS.lt userGasPrice (p90 g) then 80
  else 95.

Definition getMempoolPosition (percentile : Z) : string :=
  if (75 <=? percentile)%Z then "front"
  else if (40 <=? percentile)%Z then "middle"
  else "back".

Definition getRiskLevel (riskScore : Z) : string :=
  if (85 <=? riskScore)%Z then "critical"
  else if (70 <=? riskScore)%Z then "high"
  else if (40 <=? riskScore)%Z then "medium"
  else "low".

(** [parseFloat((amountIn * (0.05 * (riskScore / 100))).toFixed(2))]. *)
Definition calculatePotentialLoss (amountIn : Q) (riskScore : Z) : Q :=
  let slippageMultiplier := inject_Z riskScore / 100 in
  let maxSlippage := 5 # 100 in
  let estimatedSlippage := maxSlippage * slippageMultiplier in
  JS.toFixed 2 (amountIn * estimatedSlippage).

(** The number of [splits] of [calculateOptimalSplit]. *)
Definition calculateOptimalSplit (riskScore : Z) : Z :=
  if (riskScore <? 50)%Z then 1
  else if (riskScore <? 70)%Z then 2
  else if (riskScore <? 85)%Z then 3
  else 5.

End Utils.

(** ** The specification's formulas, in its own words *)

Module Spec.

Import PatternAnalyzer.

(** "for each detector that fired, add confidence x weight x 100". *)
Definition contribution (d : Detection) (weight : Q) : Q :=
  if detected d then confidence d * weight * 100 else 0.

(** Sandwich 0.40, Front-Run 0.30, Copycat 0.15, Back-Run 0.10,
    JIT-Liquidity 0.05. *)
Definition weightedSum (ps : Patterns) : Q :=
  contribution (pat_sandwich ps) (40 # 100)
  + contribution (pat_frontrun ps) (30 # 100)
  + contribution (pat_copycat ps) (15 # 100)
  + contribution (pat_backrun ps) (10 # 100)
  + contribution (pat_jit ps) (5 # 100).








(** "sorts them and returns the 25th/50th/75th/90th percentile values
    using nearest-rank indexing (floor(n * percentile))": the element of
    the sorted sample at that index. *)
Definition nearestRank (sorted : list Q) (percentile : Q) : option Q :=
  nth_error sorted
    (Z.to_nat (Qfloor (inject_Z (Z.of_nat (List.length sorted)) * percentile))).

End Spec.

(** ** Concrete inputs *)

Module Scenario.

(** A trade of 1000 A for B at the given gas price. *)
Definition trade_AB (gas : option Q) : UserTx :=
  {| token_in := "A"; token_out := "B"; amount_in := 1000;
     u_gasPrice := gas; wallet_address := "" |}.

Definition tx_of (h : string) (gas : Q) (pair : string) : Tx :=
  {| hash := h; gasPrice := gas; value := None; amount := None;
     tokenPair := pair; input := ""; isSuspicious := false |}.

(** A snapshot with the default percentiles and the given competitors. *)
Definition snapshot_of (txs : list Tx) : MempoolData :=
  {| md_tokenPair := "A/B"; currentBlock := 0; blockTimeEstimate := 12;
     gasPercentiles := defaultPercentiles; competingTxs := txs;
     pendingTxCount := None; avgBlockTxCount := None;
     dataSource := "simulated"; md_confidence := 50 # 100;
     isRealTime := false; md_timestamp := 0 |}.

(** Scenario B of the specification: caller at 50, a competitor at 100 on
    A/B and one at 20 on B/A. *)
Definition classic : MempoolData :=
  snapshot_of [tx_of "0x01" 100 "A/B"; tx_of "0x02" 20 "B/A"].


(** Both competitors trade B for A. *)
Definition reversed : MempoolData :=
  snapshot_of [tx_of "0x01" 100 "B/A"; tx_of "0x02" 20 "B/A"].

(** Scenario C of the specification: one competitor at 80 on A/B. *)
Definition frontRunOnly : MempoolData :=
  snapshot_of [tx_of "0x01" 80 "A/B"].

(** A scan request for the trade above, a pool and an empty attack
    history. *)
Definition request : Server.ScanRequest :=
  {| Server.req_token_in := "A"; Server.req_token_out := "B";
     Server.req_amount_in := 1000; Server.gas_price := Some 50;
     Server.req_wallet_address := "" |}.

Definition pool : Server.PoolData :=
  {| Server.reserve0 := 1000000; Server.reserve1 := 2000000;
     Server.token0 := "A"; Server.token1 := "B" |}.

Definition quietHistory : Detectors.History :=
  {| Detectors.patternQueryFails := false; Detectors.totalAttacks := 0;
     Detectors.recentAttackCount := 0; Detectors.totalProfit := 0;
     Detectors.attackerQueryFails := false; Detectors.isKnown := false;
     Detectors.utcHour := 3; Detectors.utcDay := 2 |}.

(** One buffered transaction at 20.126 gwei. *)
Definition oneObservation : list Tx := [tx_of "0x01" (20126 # 1000) "UNKNOWN/UNKNOWN"].

(** Six connection failures in a row: each is an ['error'] followed by a
    ['close']. *)
Definition sixFailures : list WebSocketMempool.Event :=
  [ WebSocketMempool.Error; WebSocketMempool.Close;
    WebSocketMempool.Error; WebSocketMempool.Close;
    WebSocketMempool.Error; WebSocketMempool.Close;
    WebSocketMempool.Error; WebSocketMempool.Close;
    WebSocketMempool.Error; WebSocketMempool.Close;
    WebSocketMempool.Error; WebSocketMempool.Close ].

(** No API key is configured and no endpoint answers. *)
Definition unreachable : MempoolEnhanced.Provider :=
  {| MempoolEnhanced.getBlockNumber := Throw "request timeout";
     MempoolEnhanced.getBlock := fun _ => Throw "request timeout";
     MempoolEnhanced.getFilter := Throw "request timeout";
     MempoolEnhanced.getPendingBlock := Throw "request timeout" |}.

Definition offline : MempoolEnhanced.Env :=
  {| MempoolEnhanced.BLOCKNATIVE_API_KEY := "";
     MempoolEnhanced.INFURA_PROJECT_ID := "";
     MempoolEnhanced.ALCHEMY_API_KEY := "";
     MempoolEnhanced.blocknativeBlockPrices := Throw "request timeout";
     MempoolEnhanced.rpc := fun _ => unreachable;
     MempoolEnhanced.elapsed := 3000 |}.

(** The same network failure with an Alchemy key configured. *)
Definition offlineWithKey : MempoolEnhanced.Env :=
  {| MempoolEnhanced.BLOCKNATIVE_API_KEY := "";
     MempoolEnhanced.INFURA_PROJECT_ID := "";
     MempoolEnhanced.ALCHEMY_API_KEY := "key";
     MempoolEnhanced.blocknativeBlockPrices := Throw "request timeout";
     MempoolEnhanced.rpc := fun _ => unreachable;
     MempoolEnhanced.elapsed := 3000 |}.


End Scenario.

(** ** Further concrete inputs *)

Module Sample.

(** A connected subscriber that buffered one transaction a second before
    the call at 10000 ms. *)
Definition liveBuffer : WebSocketMempool.PendingTxCache :=
  {| WebSocketMempool.transactions := Scenario.oneObservation;
     WebSocketMempool.lastUpdate := 9000;
     WebSocketMempool.isConnected := true;
     WebSocketMempool.source := "infura" |}.

Definition liveSnapshot : MempoolData :=
  {| md_tokenPair := "A/B"; currentBlock := 0; blockTimeEstimate := 12;
     gasPercentiles := {| p25 := 2013 # 100; p50 := 2013 # 100;
                          p75 := 2013 # 100; p90 := 2013 # 100 |};
     competingTxs := Scenario.oneObservation;
     pendingTxCount := Some 1%Z; avgBlockTxCount := None;
     dataSource := "real-mempool-infura"; md_confidence := 98 # 100;
     isRealTime := true; md_timestamp := 10 |}.

(** Blocknative is configured and answers; no RPC endpoint does. *)
Definition blocknativeOnly : MempoolEnhanced.Env :=
  {| MempoolEnhanced.BLOCKNATIVE_API_KEY := "bn-key";
     MempoolEnhanced.INFURA_PROJECT_ID := "";
     MempoolEnhanced.ALCHEMY_API_KEY := "";
     MempoolEnhanced.blocknativeBlockPrices :=
       Ok (Some {| MempoolEnhanced.bp_blockNumber := 100;
                   MempoolEnhanced.estimatedTransactionCount := 150;
                   MempoolEnhanced.estimatedPrices :=
                     [Some 30; Some 28; Some 26; Some 24; Some 22] |});
     MempoolEnhanced.rpc := fun _ => Scenario.unreachable;
     MempoolEnhanced.elapsed := 500 |}.

(** A trade of 1000 WETH for USDC, and a snapshot of two buffered
    transactions. *)
Definition trade : UserTx :=
  {| token_in := "WETH"; token_out := "USDC"; amount_in := 1000;
     u_gasPrice := None; wallet_address := "" |}.

Definition buffered : MempoolData :=
  Scenario.snapshot_of
    [ Scenario.tx_of "0x01" 100 "UNKNOWN/UNKNOWN";
      Scenario.tx_of "0x02" 20 "UNKNOWN/UNKNOWN" ].

Definition liveRequest : Server.ScanRequest :=
  {| Server.req_token_in := "WETH"; Server.req_token_out := "USDC";
     Server.req_amount_in := 1000; Server.gas_price := None;
     Server.req_wallet_address := "" |}.

(** A swap sent to the Uniswap V2 router, written with capitals. *)
Definition routerSwap : Subscriber.ChainTx :=
  {| Subscriber.c_hash := "0xabc";
     Subscriber.c_to := "0x7A250D5630B4CF539739DF2C5DACB4C659F2488D";
     Subscriber.c_data := "0x38ed17390000";
     Subscriber.c_gasPrice := Some 30000000000%Z;
     Subscriber.c_maxFeePerGas := None;
     Subscriber.c_value := None |}.

(** Two pending swaps as the node reports them. *)
Definition pendingSwaps : list MempoolEnhanced.RawTx :=
  [ {| MempoolEnhanced.raw_hash := "0x0a";
       MempoolEnhanced.raw_gasPrice := Some 40000000000%Z;
       MempoolEnhanced.raw_maxFeePerGas := None;
       MempoolEnhanced.raw_value := None;
       MempoolEnhanced.raw_input := "0x38ed1739ffff" |};
    {| MempoolEnhanced.raw_hash := "0x0b";
       MempoolEnhanced.raw_gasPrice := None;
       MempoolEnhanced.raw_maxFeePerGas := Some 25000000000%Z;
       MempoolEnhanced.raw_value := Some 1000000000000000000%Z;
       MempoolEnhanced.raw_input := "0x414bf389ffff" |} ].

End Sample.

(** ** Predicates used in the statements *)

(** [s] does not contain the character [sep]. *)
Fixpoint no_sep (sep : ascii) (s : string) : Prop :=
  match s with
  | EmptyString => True
  | String c rest => Ascii.eqb c sep = false /\ no_sep sep rest
  end.

(** The quadruple is in ascending order. *)
Definition ascending (g : GasPercentiles) : Prop :=
  p25 g <= p50 g /\ p50 g <= p75 g /\ p75 g <= p90 g.

(** How many ['close'] events a trace contains, and that it contains no
    ['open']. *)
Definition closes (events : list WebSocketMempool.Event) : nat :=
  List.length
    (filter (fun e => match e with WebSocketMempool.Close => true | _ => false end)
            events).

Definition noOpen (events : list WebSocketMempool.Event) : Prop :=
  Forall (fun e => e <> WebSocketMempool.Open) events.

(** Every record carries the pair the stream and the RPC give it. *)
Definition allUnknown (txs : list Tx) : Prop :=
  Forall (fun tx => tokenPair tx = "UNKNOWN/UNKNOWN"%string) txs.

(** The records a trace inserts into the buffer, in arrival order. *)
Definition inserted (events : list WebSocketMempool.Event) : list Tx :=
  flat_map (fun e => match e with
                     | WebSocketMempool.PendingTx tx _ => [tx]
                     | _ => []
                     end) events.

(** What happens to the subscriber: its socket opens, fails or closes,
    or a notification arrives at some time and is looked up. *)
Inductive Step :=
| Opened
| Errored
| Closed
| Notified (lookup : Result (option Subscriber.ChainTx)) (now : Z).

Definition step (s : WebSocketMempool.State) (st : Step) : WebSocketMempool.State :=
  match st with
  | Opened => fst (WebSocketMempool.onOpen s)
  | Errored => fst (WebSocketMempool.onError s)
  | Closed => fst (WebSocketMempool.onClose s)
  | Notified lookup now => Subscriber.processPendingTransaction lookup now s
  end.

(** The subscriber after a history of such steps. *)
Definition live (history : list Step) (s : WebSocketMempool.State)
    : WebSocketMempool.State :=
  fold_left step history s.

(** How many of the five detectors fired. *)
Definition firedCount (ps : PatternAnalyzer.Patterns) : nat :=
  List.length
    (filter PatternAnalyzer.detected
       [ PatternAnalyzer.pat_sandwich ps; PatternAnalyzer.pat_copycat ps;
         PatternAnalyzer.pat_frontrun ps; PatternAnalyzer.pat_backrun ps;
         PatternAnalyzer.pat_jit ps ]).

(** * Properties *)

(** ** Numbers *)

Lemma gt_true (a b : Q) : JS.gt a b = true <-> b < a.
Proof.
  unfold JS.gt. rewrite negb_true_iff.
  split; intros H.
  - apply Qnot_le_lt. intros Hle. apply Qle_bool_iff in Hle. congruence.
  - destruct (Qle_bool a b) eqn:E; [|reflexivity].
    apply Qle_bool_iff in E. exfalso. apply (Qlt_not_le _ _ H E).
Qed.

Lemma lt_true (a b : Q) : JS.lt a b = true <-> a < b.
Proof. unfold JS.lt. apply (gt_true b a). Qed.

Lemma gt_false (a b : Q) : JS.gt a b = false <-> a <= b.
Proof.
  unfold JS.gt. rewrite negb_false_iff. apply Qle_bool_iff.
Qed.

Lemma truthy_false (x : Q) : JS.truthy x = false -> x == 0.
Proof.
  unfold JS.truthy. rewrite negb_false_iff. apply Qeq_bool_eq.
Qed.

Lemma round_comp (x y : Q) : x == y -> JS.round x = JS.round y.
Proof. intros H. unfold JS.round. rewrite H. reflexivity. Qed.

Lemma round_nonneg (x : Q) : 0 <= x -> (0 <= JS.round x)%Z.
Proof.
  intros H. unfold JS.round.
  change 0%Z with (Qfloor 0). apply Qfloor_resp_le. lra.
Qed.

Lemma len_nonneg {A} (l : list A) : 0 <= PatternAnalyzer.len l.
Proof.
  unfold PatternAnalyzer.len.
  change 0 with (inject_Z 0). rewrite <- Zle_Qle. lia.
Qed.

Lemma len_cons {A} (x : A) (l : list A) :
  1 <= PatternAnalyzer.len (x :: l).
Proof.
  unfold PatternAnalyzer.len.
  change 1 with (inject_Z 1). rewrite <- Zle_Qle. simpl List.length. lia.
Qed.

(** ** The risk aggregator *)

Lemma totalRisk_step (total : Q) (p : PatternAnalyzer.PatternName)
    (d : PatternAnalyzer.Detection) :
  (if PatternAnalyzer.detected d && JS.truthy (PatternAnalyzer.confidence d)
   then total + PatternAnalyzer.confidence d * PatternAnalyzer.weights p * 100
   else total)
  == total + Spec.contribution d (PatternAnalyzer.weights p).
Proof.
  unfold Spec.contribution.
  destruct (PatternAnalyzer.detected d); simpl.
  - destruct (JS.truthy (PatternAnalyzer.confidence d)) eqn:E.
    + reflexivity.
    + apply truthy_false in E. rewrite E. lra.
  - lra.
Qed.

Lemma totalRisk_weightedSum (ps : PatternAnalyzer.Patterns) :
  PatternAnalyzer.totalRisk ps == Spec.weightedSum ps.
Proof.
  unfold PatternAnalyzer.totalRisk, PatternAnalyzer.entries, Spec.weightedSum.
  cbn [fold_left].
  rewrite !totalRisk_step.
  cbn [PatternAnalyzer.weights]. ring.
Qed.


(** ** Token pairs *)

Lemma split_not_nil (sep : ascii) (s : string) : JS.split sep s <> [].
Proof.
  destruct s as [|c rest]; simpl; [discriminate|].
  destruct (Ascii.eqb c sep); [discriminate|].
  destruct (JS.split sep rest); discriminate.
Qed.

Lemma split_app (sep : ascii) (a b : string) :
  JS.split sep (a ++ String sep b) = JS.split sep a ++ JS.split sep b.
Proof.
  induction a as [|c a IH]; simpl.
  - rewrite Ascii.eqb_refl. reflexivity.
  - destruct (Ascii.eqb c sep); [rewrite IH; reflexivity|].
    rewrite IH.
    pose proof (split_not_nil sep a) as Hne.
    destruct (JS.split sep a); [congruence|reflexivity].
Qed.

Lemma split_no_sep (sep : ascii) (s : string) :
  no_sep sep s -> JS.split sep s = [s].
Proof.
  induction s as [|c s IH]; simpl; [reflexivity|].
  intros [Hc Hs]. rewrite Hc, (IH Hs). reflexivity.
Qed.

Lemma split_parts_no_sep (sep : ascii) (s x : string) :
  In x (JS.split sep s) -> no_sep sep x.
Proof.
  revert x. induction s as [|c s IH]; simpl; intros x Hin.
  - destruct Hin as [<-|[]]. exact I.
  - destruct (Ascii.eqb c sep) eqn:E.
    + destruct Hin as [<-|Hin]; [exact I|auto].
    + destruct (JS.split sep s) as [|hd tl] eqn:Es.
      * destruct Hin as [<-|[]]. simpl. auto.
      * destruct Hin as [<-|Hin].
        -- simpl. split; [exact E|]. apply IH. left. reflexivity.
        -- apply IH. right. exact Hin.
Qed.

Lemma opt_eqb_Some (o : option string) (s : string) :
  JS.opt_eqb o (Some s) = true -> o = Some s.
Proof.
  destruct o as [x|]; simpl; [|discriminate].
  intros H. apply String.eqb_eq in H. congruence.
Qed.

Lemma split_pair_of (a b : string) :
  no_sep "/" a -> no_sep "/" b ->
  JS.split "/" (JS.pair_of a b) = [a; b].
Proof.
  intros Ha Hb. unfold JS.pair_of.
  change ("/" ++ b)%string with (String "/" b).
  rewrite split_app, (split_no_sep _ _ Ha), (split_no_sep _ _ Hb).
  reflexivity.
Qed.

Lemma pair_of_not_empty (a b : string) : JS.empty (JS.pair_of a b) = false.
Proof. destruct a; reflexivity. Qed.

(** A transaction in the opposite direction is on a related pair: the
    pair test in the back-runner filters is implied by the direction
    test. *)
Lemma opposite_is_related (tx : Tx) (userTx : UserTx) :
  PatternAnalyzer.isOppositeDirection tx userTx = true ->
  PatternAnalyzer.isSameOrRelatedPair (tokenPair tx) (userPair userTx) = true.
Proof.
  unfold PatternAnalyzer.isOppositeDirection,
    PatternAnalyzer.isSameOrRelatedPair, userPair.
  destruct (JS.empty (tokenPair tx)) eqn:Ee; [discriminate|].
  rewrite pair_of_not_empty. simpl orb. cbv iota.
  intros H. apply andb_true_iff in H. destruct H as [H0 H1].
  apply opt_eqb_Some in H0. apply opt_eqb_Some in H1.
  assert (Hout : no_sep "/" (token_out userTx)).
  { apply (split_parts_no_sep _ (tokenPair tx)).
    apply (nth_error_In _ 0). exact H0. }
  assert (Hin : no_sep "/" (token_in userTx)).
  { apply (split_parts_no_sep _ (tokenPair tx)).
    apply (nth_error_In _ 1). exact H1. }
  destruct (String.eqb (tokenPair tx)
              (JS.pair_of (token_in userTx) (token_out userTx)));
    [reflexivity|].
  rewrite (split_pair_of _ _ Hin Hout), H0, H1. simpl.
  rewrite !String.eqb_refl. reflexivity.
Qed.

(** ** The sandwich detector *)

Lemma nonEmpty_true {A} (l : list A) :
  PatternAnalyzer.nonEmpty l = true <-> l <> [].
Proof. destruct l; simpl; split; congruence. Qed.

Lemma isFrontRunner_true (g : Q) (userTx : UserTx) (tx : Tx) :
  PatternAnalyzer.isFrontRunner g userTx tx = true <->
  g * (105 # 100) < gasPrice tx /\
  PatternAnalyzer.isSameOrRelatedPair (tokenPair tx) (userPair userTx) = true.
Proof.
  unfold PatternAnalyzer.isFrontRunner.
  rewrite andb_true_iff, gt_true. reflexivity.
Qed.

Lemma isBackRunner_true (g : Q) (userTx : UserTx) (tx : Tx) :
  PatternAnalyzer.isBackRunner g userTx tx = true <->
  gasPrice tx < g * (95 # 100) /\
  PatternAnalyzer.isOppositeDirection tx userTx = true.
Proof.
  unfold PatternAnalyzer.isBackRunner.
  rewrite !andb_true_iff, lt_true. split.
  - intros [[H1 _] H3]. auto.
  - intros [H1 H3]. auto using opposite_is_related.
Qed.





(** ** The front-run detector *)

Lemma Qmax_cases (x y : Q) : Qmax x y = x \/ Qmax x y = y.
Proof.
  unfold Qmax, GenericMinMax.gmax. destruct (x ?= y); auto.
Qed.

Lemma max_of_In (d : Q) (ds : list Q) : In (JS.max_of d ds) (d :: ds).
Proof.
  unfold JS.max_of. revert d.
  induction ds as [|x ds IH]; intros d; simpl; [auto|].
  destruct (IH (Qmax d x)) as [H|H]; [|auto].
  rewrite <- H. destruct (Qmax_cases d x) as [E|E]; rewrite E; auto.
Qed.

Lemma max_of_ge_init (d : Q) (ds : list Q) : d <= JS.max_of d ds.
Proof.
  unfold JS.max_of. revert d.
  induction ds as [|x ds IH]; intros d; simpl; [apply Qle_refl|].
  eapply Qle_trans; [|apply IH]. apply Q.le_max_l.
Qed.

Lemma max_of_upper (d : Q) (ds : list Q) (x : Q) :
  In x (d :: ds) -> x <= JS.max_of d ds.
Proof.
  revert d. induction ds as [|y ds IH]; intros d [<-|Hin].
  - apply Qle_refl.
  - destruct Hin.
  - apply max_of_ge_init.
  - unfold JS.max_of. simpl. fold (JS.max_of (Qmax d y) ds).
    destruct Hin as [<-|Hin].
    + eapply Qle_trans; [apply (Q.le_max_r d y)|apply max_of_ge_init].
    + apply IH. right. exact Hin.
Qed.

Lemma isCompetitor_true (g : Q) (userTx : UserTx) (tx : Tx) :
  PatternAnalyzer.isCompetitor g userTx tx = true <->
  g < gasPrice tx /\
  PatternAnalyzer.isSameOrRelatedPair (tokenPair tx) (userPair userTx) = true.
Proof.
  unfold PatternAnalyzer.isCompetitor.
  rewrite andb_true_iff, gt_true. reflexivity.
Qed.

(** C6. The front-run detector fires exactly when some competing
    transaction on the same or a related pair has a gas price above the
    caller's assumed price (the caller's own, or the snapshot's p50 when
    omitted); its competitors are those transactions; and its confidence
    is then min(0.5 + 0.1 x their number + 0.3 x their largest relative
    gas-price gap, 1).  With an assumed price of zero the gap is infinite
    and the confidence is 1. *)
Theorem detectFrontrunPattern_spec (mempoolData : MempoolData) (userTx : UserTx) :
  let g := match u_gasPrice userTx with
           | Some own => own
           | None => p50 (gasPercentiles mempoolData)
           end in
  let r := PatternAnalyzer.detectFrontrunPattern mempoolData userTx in
  let competitor := fun tx =>
    In tx (competingTxs mempoolData) /\ g < gasPrice tx /\
    PatternAnalyzer.isSameOrRelatedPair (tokenPair tx) (userPair userTx) = true in
  (PatternAnalyzer.detected r = true <-> exists tx, competitor tx)
  /\ (forall tx, In tx (PatternAnalyzer.matched r) <-> competitor tx)
  /\ (PatternAnalyzer.detected r = true -> ~ g == 0 ->
      exists top,
        competitor top /\
        (forall tx, competitor tx ->
           (gasPrice tx - g) / g <= (gasPrice top - g) / g) /\
        PatternAnalyzer.confidence r ==
        Qmin ((5 # 10)
              + (1 # 10) * inject_Z (Z.of_nat (List.length (PatternAnalyzer.matched r)))
              + (3 # 10) * ((gasPrice top - g) / g))
             1)
  /\ (PatternAnalyzer.detected r = true -> g == 0 ->
      PatternAnalyzer.confidence r == 1).
Proof.
  intros g r competitor. subst r.
  unfold PatternAnalyzer.detectFrontrunPattern.
  change (userGasPriceOf mempoolData userTx) with g.
  assert (Hmem : forall txs tx,
             competingTxs mempoolData = txs ->
             In tx (filter (PatternAnalyzer.isCompetitor g userTx) txs)
             <-> competitor tx).
  { intros txs tx E. unfold competitor. rewrite E, filter_In, isCompetitor_true.
    reflexivity. }
  destruct (competingTxs mempoolData) as [|t0 txs] eqn:Etxs.
  - simpl. repeat split; try discriminate; try tauto.
    + intros [tx [[] _]].
    + intros [[] _].
  - specialize (Hmem (t0 :: txs)).
    set (C := filter (PatternAnalyzer.isCompetitor g userTx) (t0 :: txs)) in *.
    cbn [PatternAnalyzer.matched PatternAnalyzer.detected
         PatternAnalyzer.confidence].
    split; [|split; [|split]].
    + rewrite nonEmpty_true. split.
      * intros Hne. destruct C as [|c C'] eqn:EC; [congruence|].
        exists c. apply Hmem; [reflexivity|]. left. reflexivity.
      * intros [tx Htx] EC. apply (Hmem tx eq_refl) in Htx.
        rewrite EC in Htx. destruct Htx.
    + intros tx. apply Hmem. reflexivity.
    + intros Hd Hg.
      destruct C as [|c C'] eqn:EC; [discriminate|].
      cbn [map].
      destruct (Qeq_bool g 0) eqn:E0; [apply Qeq_bool_eq in E0; tauto|].
      pose proof (max_of_In (PatternAnalyzer.gasDiff g c)
                    (map (PatternAnalyzer.gasDiff g) C')) as Hin.
      change (PatternAnalyzer.gasDiff g c :: map (PatternAnalyzer.gasDiff g) C')
        with (map (PatternAnalyzer.gasDiff g) (c :: C')) in Hin.
      apply in_map_iff in Hin. destruct Hin as [top [Etop Htop]].
      exists top. split; [apply Hmem; [reflexivity|exact Htop]|]. split.
      * intros tx Htx. apply (Hmem tx eq_refl) in Htx.
        change ((gasPrice top - g) / g) with (PatternAnalyzer.gasDiff g top).
        rewrite Etop.
        apply (max_of_upper _ _ (PatternAnalyzer.gasDiff g tx)).
        change (PatternAnalyzer.gasDiff g c :: map (PatternAnalyzer.gasDiff g) C')
          with (map (PatternAnalyzer.gasDiff g) (c :: C')).
        apply in_map. exact Htx.
      * change ((gasPrice top - g) / g) with (PatternAnalyzer.gasDiff g top).
        rewrite Etop. unfold PatternAnalyzer.len.
        match goal with
        | |- Qmin ?a 1 == Qmin ?b 1 =>
            assert (E : a == b) by ring; rewrite E; reflexivity
        end.
    + intros Hd Hg.
      destruct C as [|c C'] eqn:EC; [discriminate|].
      cbn [map].
      destruct (Qeq_bool g 0) eqn:E0; [reflexivity|].
      apply Qeq_bool_neq in E0. tauto.
Qed.

Lemma detectFrontrunPattern_spec_witness :
  PatternAnalyzer.detected
    (PatternAnalyzer.detectFrontrunPattern Scenario.frontRunOnly
       (Scenario.trade_AB (Some 50))) = true /\
  PatternAnalyzer.confidence
    (PatternAnalyzer.detectFrontrunPattern Scenario.frontRunOnly
       (Scenario.trade_AB (Some 50))) == 78 # 100.
Proof.
  split; [reflexivity|].
  pose proof (detectFrontrunPattern_spec Scenario.frontRunOnly
                (Scenario.trade_AB (Some 50))) as H.
  cbv zeta in H. destruct H as (_ & _ & H & _).
  assert (Hnz : ~ 50 == 0) by (intros E; discriminate E).
  destruct (H eq_refl Hnz) as [top [[Hin _] [_ Hconf]]].
  destruct Hin as [<-|[]].
  rewrite Hconf. vm_compute. reflexivity.
Defined.

(** ** Confidence ranges of the detectors *)

Lemma min1_range (x : Q) : 0 <= x -> 0 <= Qmin x 1 <= 1.
Proof.
  intros H. split.
  - apply Q.min_glb; [exact H|lra].
  - apply Q.le_min_r.
Qed.

Lemma bonus_nonneg (b : bool) : 0 <= (if b then 2 # 10 else 0).
Proof. destruct b; lra. Qed.

Lemma sandwich_confidence_range (m : MempoolData) (u : UserTx) :
  0 <= PatternAnalyzer.confidence (PatternAnalyzer.detectSandwichPattern m u) <= 1.
Proof.
  unfold PatternAnalyzer.detectSandwichPattern.
  destruct (competingTxs m) as [|t0 txs]; [simpl; lra|].
  cbn [PatternAnalyzer.confidence].
  match goal with |- context [if ?d then _ else _] => destruct d end;
    [|lra].
  apply min1_range.
  pose proof (len_nonneg (filter (PatternAnalyzer.isFrontRunner
                  (userGasPriceOf m u) u) (t0 :: txs))).
  pose proof (len_nonneg (filter (PatternAnalyzer.isBackRunner
                  (userGasPriceOf m u) u) (t0 :: txs))).
  match goal with |- context [if ?b then 2 # 10 else 0] =>
    pose proof (bonus_nonneg b) end.
  lra.
Qed.

Lemma backrun_confidence_range (m : MempoolData) (u : UserTx) :
  0 <= PatternAnalyzer.confidence (PatternAnalyzer.detectBackrunPattern m u) <= 1.
Proof.
  unfold PatternAnalyzer.detectBackrunPattern.
  destruct (competingTxs m) as [|t0 txs]; [simpl; lra|].
  cbn [PatternAnalyzer.confidence].
  match goal with |- context [if ?d then _ else _] => destruct d end;
    [|lra].
  apply min1_range.
  pose proof (len_nonneg (filter (PatternAnalyzer.isBackrunCandidate
                  (userGasPriceOf m u) u) (t0 :: txs))).
  match goal with |- context [if ?b then 2 # 10 else 0] =>
    pose proof (bonus_nonneg b) end.
  lra.
Qed.

Lemma copycat_confidence_range (m : MempoolData) (u : UserTx) :
  0 <= PatternAnalyzer.confidence (PatternAnalyzer.detectCopycatPattern m u) <= 1.
Proof.
  unfold PatternAnalyzer.detectCopycatPattern.
  destruct (competingTxs m) as [|t0 txs]; [simpl; lra|].
  cbn [PatternAnalyzer.confidence].
  match goal with |- context [if ?d then _ else _] => destruct d end;
    [|lra].
  apply min1_range.
  pose proof (len_nonneg (filter (PatternAnalyzer.isCopycat
                  (userGasPriceOf m u) u) (t0 :: txs))).
  lra.
Qed.

Lemma jit_confidence_range (m : MempoolData) (u : UserTx) :
  0 <= PatternAnalyzer.confidence (PatternAnalyzer.detectJITLiquidityPattern m u) <= 1.
Proof.
  unfold PatternAnalyzer.detectJITLiquidityPattern.
  destruct (competingTxs m) as [|t0 txs]; [simpl; lra|].
  cbn [PatternAnalyzer.confidence].
  match goal with |- context [if ?d then _ else _] => destruct d end; lra.
Qed.

(** The relative gap of a competitor is positive when the caller's price
    is. *)
Lemma gasDiff_lower (g k : Q) (tx : Tx) :
  0 < g -> 0 <= k -> g * (1 + k) < gasPrice tx ->
  k < PatternAnalyzer.gasDiff g tx.
Proof.
  intros Hg Hk H. unfold PatternAnalyzer.gasDiff.
  apply Qlt_shift_div_l; [exact Hg|]. lra.
Qed.

(** A competitor at least [k] above a non-negative caller's price puts
    the front-run confidence above [0.6 + 0.3 k], up to the cap. *)
Lemma frontrun_confidence_lower (m : MempoolData) (u : UserTx) (tx : Tx) (k : Q) :
  0 <= userGasPriceOf m u -> 0 <= k ->
  In tx (competingTxs m) ->
  userGasPriceOf m u * (1 + k) < gasPrice tx ->
  PatternAnalyzer.isSameOrRelatedPair (tokenPair tx) (userPair u) = true ->
  PatternAnalyzer.detected (PatternAnalyzer.detectFrontrunPattern m u) = true /\
  Qmin ((6 # 10) + (3 # 10) * k) 1
  <= PatternAnalyzer.confidence (PatternAnalyzer.detectFrontrunPattern m u).
Proof.
  intros Hg Hk Hin Hgas Hrel.
  unfold PatternAnalyzer.detectFrontrunPattern.
  set (g := userGasPriceOf m u) in *.
  destruct (competingTxs m) as [|t0 txs] eqn:Etxs; [destruct Hin|].
  assert (HC : In tx (filter (PatternAnalyzer.isCompetitor g u) (t0 :: txs))).
  { apply filter_In. split; [exact Hin|].
    apply isCompetitor_true. split; [|exact Hrel].
    apply Qle_lt_trans with (g * (1 + k)); [|exact Hgas]. nra. }
  set (C := filter (PatternAnalyzer.isCompetitor g u) (t0 :: txs)) in *.
  cbn [PatternAnalyzer.detected PatternAnalyzer.confidence].
  destruct C as [|c C'] eqn:EC; [destruct HC|].
  split; [reflexivity|].
  cbn [map].
  destruct (Qeq_bool g 0) eqn:E0.
  - apply Q.le_min_r.
  - apply Qeq_bool_neq in E0.
    assert (Hpos : 0 < g) by (apply Qle_lteq in Hg; destruct Hg as [Hg|Hg];
                               [exact Hg|exfalso; apply E0; symmetry; exact Hg]).
    assert (Hmax : k < JS.max_of (PatternAnalyzer.gasDiff g c)
                         (map (PatternAnalyzer.gasDiff g) C')).
    { apply Qlt_le_trans with (PatternAnalyzer.gasDiff g tx).
      - apply gasDiff_lower; assumption.
      - apply max_of_upper.
        change (PatternAnalyzer.gasDiff g c :: map (PatternAnalyzer.gasDiff g) C')
          with (map (PatternAnalyzer.gasDiff g) (c :: C')).
        apply in_map. exact HC. }
    pose proof (len_cons c C') as Hlen.
    apply Q.min_glb_iff. split.
    + eapply Qle_trans; [apply Q.le_min_l|]. lra.
    + apply Q.le_min_r.
Qed.

Lemma frontrun_confidence_range (m : MempoolData) (u : UserTx) :
  0 <= userGasPriceOf m u ->
  0 <= PatternAnalyzer.confidence (PatternAnalyzer.detectFrontrunPattern m u) <= 1.
Proof.
  intros Hg.
  pose proof (frontrun_confidence_lower m u) as L.
  unfold PatternAnalyzer.detectFrontrunPattern in *.
  destruct (competingTxs m) as [|t0 txs] eqn:Etxs; [simpl; lra|].
  cbn [PatternAnalyzer.confidence] in *.
  set (g := userGasPriceOf m u) in *.
  destruct (filter (PatternAnalyzer.isCompetitor g u) (t0 :: txs))
    as [|c C'] eqn:EC; [simpl; lra|].
  cbn [map] in *.
  destruct (Qeq_bool g 0) eqn:E0; [lra|].
  split; [|apply Q.le_min_r].
  assert (Hc : In c (filter (PatternAnalyzer.isCompetitor g u) (t0 :: txs)))
    by (rewrite EC; left; reflexivity).
  apply filter_In in Hc. destruct Hc as [Hin Hc].
  apply isCompetitor_true in Hc. destruct Hc as [Hgas Hrel].
  assert (Hgas' : g * (1 + 0) < gasPrice c) by lra.
  destruct (L c 0 Hg (Qle_refl 0) Hin Hgas' Hrel) as [_ L'].
  eapply Qle_trans; [|exact L'].
  apply Q.min_glb; lra.
Qed.

(** ** The range of the risk scores *)






Lemma performHistoricalAnalysis_nonneg (u : UserTx) (h : Detectors.History) :
  (0 <= Detectors.performHistoricalAnalysis u h)%Z.
Proof.
  unfold Detectors.performHistoricalAnalysis, Detectors.analyzeHistoricalPatterns,
    Detectors.checkKnownAttackers, Detectors.analyzeTimingPatterns.
  apply Z.min_glb; [|lia].
  repeat match goal with |- context [if ?c then _ else _] => destruct c end; lia.
Qed.

Lemma congestionScore_nonneg (m : MempoolData) : (0 <= Server.congestionScore m)%Z.
Proof.
  unfold Server.congestionScore.
  destruct (pendingTxCount m); [|lia].
  repeat match goal with |- context [if ?c then _ else _] => destruct c end; lia.
Qed.

Lemma inject_Z_nonneg (z : Z) : (0 <= z)%Z -> 0 <= inject_Z z.
Proof. intros H. change 0 with (inject_Z 0). rewrite <- Zle_Qle. exact H. Qed.




(** ** The primary attack classification *)

Lemma filter_none {A} (f : A -> bool) (l : list A) :
  (forall x, In x l -> f x = false) -> filter f l = [].
Proof.
  induction l as [|a l IH]; intros H; simpl; [reflexivity|].
  rewrite (H a (or_introl eq_refl)). apply IH. intros x Hx. apply H. right. exact Hx.
Qed.



Section Quiet.

Variables (m : MempoolData) (u : UserTx).

Hypothesis no_higher_bid : forall tx,
  In tx (competingTxs m) ->
  String.eqb (tokenPair tx) (userPair u) = true ->
  JS.gt (gasPrice tx) (userGasPriceOf m u * (105 # 100)) = false.

Hypothesis price_nonneg : 0 <= userGasPriceOf m u.





End Quiet.




(** ** The gas percentile estimator *)

Import MempoolEnhanced.

Lemma insert_perm (x : Q) (l : list Q) : Permutation (x :: l) (insert x l).
Proof.
  induction l as [|y t IH]; simpl; [reflexivity|].
  destruct (Qle_bool x y); [reflexivity|].
  rewrite perm_swap. apply perm_skip. exact IH.
Qed.

Lemma sortAsc_perm (l : list Q) : Permutation l (sortAsc l).
Proof.
  induction l as [|x l IH]; simpl; [reflexivity|].
  rewrite <- insert_perm. apply perm_skip. exact IH.
Qed.

Lemma insert_sorted (x : Q) (l : list Q) :
  StronglySorted Qle l -> StronglySorted Qle (insert x l).
Proof.
  induction 1 as [|y t Hs IH Hall]; simpl.
  - constructor; constructor.
  - destruct (Qle_bool x y) eqn:E.
    + apply Qle_bool_iff in E. constructor.
      * constructor; assumption.
      * constructor; [exact E|].
        eapply Forall_impl; [|exact Hall].
        intros a Ha. eapply Qle_trans; eassumption.
    + assert (Hyx : y <= x).
      { apply Qlt_le_weak, Qnot_le_lt. intros Hle.
        apply Qle_bool_iff in Hle. congruence. }
      constructor; [exact IH|].
      apply (Permutation_Forall (insert_perm x t)).
      constructor; assumption.
Qed.

Lemma sortAsc_sorted (l : list Q) : StronglySorted Qle (sortAsc l).
Proof.
  induction l as [|x l IH]; simpl; [constructor|].
  apply insert_sorted. exact IH.
Qed.

Lemma sortAsc_length (l : list Q) : List.length (sortAsc l) = List.length l.
Proof. symmetry. apply Permutation_length, sortAsc_perm. Qed.

Lemma sortAsc_Forall (P : Q -> Prop) (l : list Q) :
  Forall P l -> Forall P (sortAsc l).
Proof. apply Permutation_Forall, sortAsc_perm. Qed.

Lemma sorted_nth_le (l : list Q) :
  StronglySorted Qle l ->
  forall i j a b, (i <= j)%nat ->
    nth_error l i = Some a -> nth_error l j = Some b -> a <= b.
Proof.
  induction 1 as [|y t Hs IH Hall]; intros i j a b Hij Ha Hb.
  - destruct i; discriminate.
  - destruct i as [|i], j as [|j]; simpl in *.
    + injection Ha as <-. injection Hb as <-. apply Qle_refl.
    + injection Ha as <-. apply nth_error_In in Hb.
      rewrite Forall_forall in Hall. auto.
    + lia.
    + apply (IH i j); [lia|assumption|assumption].
Qed.

Lemma floor_mul_mono (n : nat) (p q : Q) :
  0 <= p -> p <= q -> (JS.floor_mul n p <= JS.floor_mul n q)%nat.
Proof.
  intros Hp Hpq. unfold JS.floor_mul.
  apply Z2Nat.inj_le.
  - change 0%Z with (Qfloor 0). apply Qfloor_resp_le.
    apply Qmult_le_0_compat; [apply inject_Z_nonneg; lia|exact Hp].
  - change 0%Z with (Qfloor 0). apply Qfloor_resp_le.
    apply Qmult_le_0_compat; [apply inject_Z_nonneg; lia|lra].
  - apply Qfloor_resp_le.
    pose proof (inject_Z_nonneg (Z.of_nat n) (Nat2Z.is_nonneg n)). nra.
Qed.

Lemma floor_mul_lt (n : nat) (p : Q) :
  (0 < n)%nat -> 0 <= p -> p < 1 -> (JS.floor_mul n p < n)%nat.
Proof.
  intros Hn Hp Hp1. unfold JS.floor_mul.
  assert (Hpos : 0 < inject_Z (Z.of_nat n)).
  { change 0 with (inject_Z 0). rewrite <- Zlt_Qlt. lia. }
  assert (Hlt : (Qfloor (inject_Z (Z.of_nat n) * p) < Z.of_nat n)%Z).
  { rewrite Zlt_Qlt.
    eapply Qle_lt_trans; [apply Qfloor_le|]. nra. }
  assert (Hge : (0 <= Qfloor (inject_Z (Z.of_nat n) * p))%Z).
  { change 0%Z with (Qfloor 0). apply Qfloor_resp_le.
    apply Qmult_le_0_compat; lra. }
  lia.
Qed.

Lemma at_percentile_some (sorted : list Q) (p : Q) :
  sorted <> [] -> 0 <= p -> p < 1 ->
  exists v, at_percentile sorted p = Some v /\ In v sorted.
Proof.
  intros Hne Hp Hp1. unfold at_percentile.
  destruct (nth_error sorted _) as [v|] eqn:E.
  - exists v. split; [reflexivity|]. eapply nth_error_In. exact E.
  - apply nth_error_None in E.
    assert (0 < List.length sorted)%nat by (destruct sorted; simpl; [congruence|lia]).
    pose proof (floor_mul_lt (List.length sorted) p H Hp Hp1). lia.
Qed.

Lemma at_percentile_mono (sorted : list Q) (p q a b : Q) :
  StronglySorted Qle sorted -> 0 <= p -> p <= q ->
  at_percentile sorted p = Some a -> at_percentile sorted q = Some b ->
  a <= b.
Proof.
  intros Hs Hp Hpq Ha Hb. unfold at_percentile in *.
  eapply (sorted_nth_le sorted Hs); [|exact Ha|exact Hb].
  apply floor_mul_mono; assumption.
Qed.

Lemma toFixedPos_mono (d : nat) (x y : Q) :
  x <= y -> JS.toFixedPos d x <= JS.toFixedPos d y.
Proof.
  intros H. unfold JS.toFixedPos.
  assert (Hs : (0 < 10 ^ Z.of_nat d)%Z) by (apply Z.pow_pos_nonneg; lia).
  unfold Qle. cbn [Qnum Qden].
  apply Z.mul_le_mono_nonneg_r; [lia|].
  apply Qfloor_resp_le.
  assert (0 <= inject_Z (10 ^ Z.of_nat d)) by (apply inject_Z_nonneg; lia).
  nra.
Qed.

Lemma toFixed_nonneg_eq (d : nat) (x : Q) :
  0 <= x -> JS.toFixed d x = JS.toFixedPos d x.
Proof.
  intros H. unfold JS.toFixed.
  destruct (JS.lt x 0) eqn:E; [|reflexivity].
  apply lt_true in E. lra.
Qed.

Lemma toFixed_mono (d : nat) (x y : Q) :
  0 <= x -> x <= y -> JS.toFixed d x <= JS.toFixed d y.
Proof.
  intros Hx Hxy.
  rewrite (toFixed_nonneg_eq d x Hx), (toFixed_nonneg_eq d y) by lra.
  apply toFixedPos_mono. exact Hxy.
Qed.

Lemma or_default_pos (v d : Q) : 0 < v -> or_default (Some v) d = v.
Proof.
  intros H. unfold or_default, JS.truthy.
  destruct (Qeq_bool v 0) eqn:E; [|reflexivity].
  apply Qeq_bool_eq in E. lra.
Qed.

Lemma four_ranks (sorted : list Q) :
  sorted <> [] -> StronglySorted Qle sorted ->
  exists a b c d,
    at_percentile sorted (25 # 100) = Some a /\
    at_percentile sorted (50 # 100) = Some b /\
    at_percentile sorted (75 # 100) = Some c /\
    at_percentile sorted (90 # 100) = Some d /\
    a <= b /\ b <= c /\ c <= d /\
    In a sorted /\ In b sorted /\ In c sorted /\ In d sorted.
Proof.
  intros Hne Hs.
  destruct (at_percentile_some sorted (25 # 100) Hne) as [a [Ha Ia]]; [lra|lra|].
  destruct (at_percentile_some sorted (50 # 100) Hne) as [b [Hb Ib]]; [lra|lra|].
  destruct (at_percentile_some sorted (75 # 100) Hne) as [c [Hc Ic]]; [lra|lra|].
  destruct (at_percentile_some sorted (90 # 100) Hne) as [d [Hd Id]]; [lra|lra|].
  exists a, b, c, d. repeat split; try assumption.
  - apply (at_percentile_mono sorted (25 # 100) (50 # 100)); auto; lra.
  - apply (at_percentile_mono sorted (50 # 100) (75 # 100)); auto; lra.
  - apply (at_percentile_mono sorted (75 # 100) (90 # 100)); auto; lra.
Qed.

Lemma sortAsc_not_nil (l : list Q) : l <> [] -> sortAsc l <> [].
Proof.
  intros Hne E. apply (f_equal (@List.length Q)) in E.
  rewrite sortAsc_length in E. destruct l; [congruence|discriminate].
Qed.

Lemma positive_sample (txs : list Tx) :
  Forall (Qlt 0) (filter (fun gp => JS.gt gp 0) (map gasPrice txs)).
Proof.
  apply Forall_forall. intros x Hx. apply filter_In in Hx.
  destruct Hx as [_ Hx]. apply gt_true in Hx. exact Hx.
Qed.

Lemma wsGasPercentiles_spec (txs : list Tx) :
  let sample := filter (fun gp => JS.gt gp 0) (map gasPrice txs) in
  let sorted := sortAsc sample in
  let g := wsGasPercentiles txs in
  (sample = [] -> g = defaultPercentiles) /\
  (sample <> [] ->
   exists a b c d,
     Spec.nearestRank sorted (25 # 100) = Some a /\
     Spec.nearestRank sorted (50 # 100) = Some b /\
     Spec.nearestRank sorted (75 # 100) = Some c /\
     Spec.nearestRank sorted (90 # 100) = Some d /\
     p25 g = JS.toFixed 2 a /\ p50 g = JS.toFixed 2 b /\
     p75 g = JS.toFixed 2 c /\ p90 g = JS.toFixed 2 d /\
     ascending g).
Proof.
  intros sample sorted g. subst g. unfold wsGasPercentiles.
  fold sample. fold sorted. split.
  - intros E. unfold sorted. rewrite E. reflexivity.
  - intros Hne.
    pose proof (sortAsc_not_nil sample Hne) as Hne'. fold sorted in Hne'.
    destruct (four_ranks sorted Hne' (sortAsc_sorted sample))
      as (a & b & c & d & Ha & Hb & Hc & Hd & Hab & Hbc & Hcd & Ia & Ib & Ic & Id).
    assert (Hpos : Forall (Qlt 0) sorted)
      by (apply sortAsc_Forall, positive_sample).
    rewrite Forall_forall in Hpos.
    pose proof (Hpos a Ia). pose proof (Hpos b Ib).
    pose proof (Hpos c Ic). pose proof (Hpos d Id).
    exists a, b, c, d.
    destruct sorted as [|s0 rest] eqn:Es; [congruence|].
    rewrite Ha, Hb, Hc, Hd. rewrite !or_default_pos by assumption.
    cbn [p25 p50 p75 p90].
    repeat split; try reflexivity; try assumption;
      apply toFixed_mono; lra.
Qed.


Lemma ascending_default : ascending defaultPercentiles.
Proof. unfold ascending. simpl. repeat split; lra. Qed.







(** ** The subscriber: reconnection and the buffer *)

Import WebSocketMempool.

Lemma run_no_open (events : list Event) :
  noOpen events ->
  forall s,
    reconnects (snd (run s events))
    = Nat.min (closes events) (MAX_RECONNECT_ATTEMPTS - reconnectAttempts s) /\
    reconnectAttempts (fst (run s events))
    = (reconnectAttempts s
       + Nat.min (closes events) (MAX_RECONNECT_ATTEMPTS - reconnectAttempts s))%nat /\
    (isConnected (pendingTxCache s) = false \/ (0 < closes events)%nat ->
     isConnected (pendingTxCache (fst (run s events))) = false).
Proof.
  unfold MAX_RECONNECT_ATTEMPTS.
  induction 1 as [|e events He _ IH]; intros s.
  - simpl. repeat split; try lia. intros [H|H]; [exact H|inversion H].
  - cbn [run].
    destruct e as [| | |tx now]; [congruence| | |].
    + (* error *)
      destruct (IH (fst (onError s))) as (R & A & C).
      cbn [handle]. unfold onError in *. cbn [fst snd] in *.
      destruct (run _ events) as [s2 out2] eqn:Er. cbn [fst snd] in *.
      cbn [reconnectAttempts pendingTxCache isConnected] in *.
      change (closes (Error :: events)) with (closes events).
      repeat split; try assumption. intros _. apply C. left. reflexivity.
    + (* close *)
      cbn [handle]. unfold onClose. unfold MAX_RECONNECT_ATTEMPTS.
      change (closes (Close :: events)) with (S (closes events)).
      destruct (reconnectAttempts s <? 5)%nat eqn:Elt.
      * apply Nat.ltb_lt in Elt.
        match goal with |- context [run ?s1 events] =>
          destruct (IH s1) as (R & A & C);
          destruct (run s1 events) as [s2 out2] eqn:Er end.
        cbn [fst snd reconnectAttempts pendingTxCache isConnected] in *.
        unfold reconnects in *. cbn [app filter isReconnect List.length].
        repeat split; try lia. intros _. apply C. left. reflexivity.
      * apply Nat.ltb_ge in Elt.
        match goal with |- context [run ?s1 events] =>
          destruct (IH s1) as (R & A & C);
          destruct (run s1 events) as [s2 out2] eqn:Er end.
        cbn [fst snd reconnectAttempts pendingTxCache isConnected] in *.
        unfold reconnects in *. cbn [app].
        repeat split; try lia. intros _. apply C. left. reflexivity.
    + (* a buffered transaction *)
      destruct (IH (fst (onPendingTx tx now s))) as (R & A & C).
      cbn [handle]. unfold onPendingTx, addToPendingCache in *.
      cbn [fst snd] in *.
      destruct (run _ events) as [s2 out2] eqn:Er. cbn [fst snd] in *.
      cbn [reconnectAttempts pendingTxCache isConnected] in *.
      change (closes (PendingTx tx now :: events)) with (closes events).
      repeat split; assumption.
Qed.

(** C9. A ['close'] increments the retry counter and schedules one
    reconnect while the counter is below 5, and does neither from 5 on;
    an ['open'] resets the counter to zero.  Hence in any run of events
    without a successful connection the number of reconnects scheduled is
    the number of closes, cut off at what the counter leaves of the cap of
    5: after five failures from a fresh counter no further reconnect is
    scheduled, and after any close the status query reports
    connected = false. *)
Theorem reconnect_bounded :
  (forall s, (reconnectAttempts s < 5)%nat ->
     reconnectAttempts (fst (onClose s)) = S (reconnectAttempts s) /\
     snd (onClose s) = [SetTimeoutReconnect 5000])
  /\ (forall s, (5 <= reconnectAttempts s)%nat ->
        reconnectAttempts (fst (onClose s)) = reconnectAttempts s /\
        snd (onClose s) = [])
  /\ (forall s, reconnectAttempts (fst (onOpen s)) = 0%nat /\
        isConnected (pendingTxCache (fst (onOpen s))) = true)
  /\ (forall s events now,
        noOpen events ->
        reconnects (snd (run s events))
        = Nat.min (closes events) (5 - reconnectAttempts s) /\
        reconnectAttempts (fst (run s events))
        = (reconnectAttempts s
           + Nat.min (closes events) (5 - reconnectAttempts s))%nat /\
        ((0 < closes events)%nat ->
         st_isConnected
           (getWebSocketStatus (pendingTxCache (fst (run s events))) now)
         = false))
  /\ (forall s events now,
        noOpen events -> reconnectAttempts s = 0%nat ->
        (5 <= closes events)%nat ->
        reconnects (snd (run s events)) = 5%nat /\
        snd (onClose (fst (run s events))) = [] /\
        st_isConnected
          (getWebSocketStatus (pendingTxCache (fst (run s events))) now)
        = false).
Proof.
  split; [|split; [|split; [|split]]].
  - intros s H. unfold onClose, MAX_RECONNECT_ATTEMPTS.
    apply Nat.ltb_lt in H. rewrite H. split; reflexivity.
  - intros s H. unfold onClose, MAX_RECONNECT_ATTEMPTS.
    apply Nat.ltb_ge in H. rewrite H. split; reflexivity.
  - intros s. split; reflexivity.
  - intros s events now Hno.
    destruct (run_no_open events Hno s) as (R & A & C).
    repeat split; try assumption.
    intros Hc. cbn [getWebSocketStatus st_isConnected]. apply C. right. exact Hc.
  - intros s events now Hno H0 H5.
    destruct (run_no_open events Hno s) as (R & A & C).
    unfold MAX_RECONNECT_ATTEMPTS in *. rewrite H0 in *.
    repeat split.
    + rewrite R. lia.
    + unfold onClose, MAX_RECONNECT_ATTEMPTS.
      assert (E : (reconnectAttempts (fst (run s events)) <? 5)%nat = false)
        by (apply Nat.ltb_ge; lia).
      rewrite E. reflexivity.
    + cbn [getWebSocketStatus st_isConnected]. apply C. right. lia.
Qed.

Lemma reconnect_bounded_witness :
  reconnects (snd (run initialState Scenario.sixFailures)) = 5%nat /\
  st_isConnected
    (getWebSocketStatus
       (pendingTxCache (fst (run initialState Scenario.sixFailures))) 0)
  = false.
Proof.
  destruct reconnect_bounded as (_ & _ & _ & _ & H).
  assert (Hno : noOpen Scenario.sixFailures)
    by (repeat constructor; discriminate).
  assert (H5 : (5 <= closes Scenario.sixFailures)%nat) by (vm_compute; lia).
  destruct (H initialState Scenario.sixFailures 0%Z Hno eq_refl H5)
    as (R & _ & C).
  split; assumption.
Defined.

Lemma addToPendingCache_firstn (tx : Tx) (now : Z) (c : PendingTxCache) :
  transactions (addToPendingCache tx now c)
  = firstn MAX_CACHED_TXS (tx :: transactions c).
Proof.
  unfold addToPendingCache. cbn [transactions].
  destruct (MAX_CACHED_TXS <? List.length (tx :: transactions c))%nat eqn:E;
    [reflexivity|].
  apply Nat.ltb_ge in E. symmetry. apply firstn_all2. exact E.
Qed.

Lemma run_buffer_bound (events : list Event) :
  forall s,
    (List.length (transactions (pendingTxCache s)) <= MAX_CACHED_TXS)%nat ->
    (List.length (transactions (pendingTxCache (fst (run s events))))
     <= MAX_CACHED_TXS)%nat.
Proof.
  induction events as [|e events IH]; intros s Hs; [exact Hs|].
  cbn [run].
  destruct (handle s e) as [s1 out1] eqn:Eh.
  specialize (IH s1).
  destruct (run s1 events) as [s2 out2]. cbn [fst] in *.
  apply IH.
  destruct e as [| | |tx now]; cbn [handle] in Eh.
  - injection Eh as <- _. exact Hs.
  - injection Eh as <- _. exact Hs.
  - unfold onClose in Eh.
    destruct (reconnectAttempts s <? MAX_RECONNECT_ATTEMPTS)%nat;
      injection Eh as <- _; exact Hs.
  - injection Eh as <- _. cbn [pendingTxCache].
    rewrite addToPendingCache_firstn. apply firstn_le_length.
Qed.

Lemma read_is_prefix (c : PendingTxCache) (now : Z) :
  cp_transactions (getCachedPendingTransactions c now)
  = if (CACHE_TTL <? now - lastUpdate c)%Z then []
    else firstn 20 (transactions c).
Proof.
  unfold getCachedPendingTransactions.
  destruct (CACHE_TTL <? now - lastUpdate c)%Z; [reflexivity|].
  cbn [cp_transactions]. f_equal.
  induction (transactions c) as [|t l IH]; simpl; [reflexivity|].
  rewrite IH. reflexivity.
Qed.

Lemma read_at_most_20 (c : PendingTxCache) (now : Z) :
  (List.length (cp_transactions (getCachedPendingTransactions c now)) <= 20)%nat.
Proof.
  rewrite read_is_prefix.
  destruct (CACHE_TTL <? now - lastUpdate c)%Z; [simpl; lia|].
  apply firstn_le_length.
Qed.

Lemma filter_length_le {A} (f : A -> bool) (l : list A) :
  (List.length (filter f l) <= List.length l)%nat.
Proof.
  induction l as [|a l IH]; simpl; [lia|]. destruct (f a); simpl; lia.
Qed.

(** No detector reports more matching transactions than the snapshot
    holds. *)
Lemma matched_at_most (m : MempoolData) (u : UserTx) (d : PatternAnalyzer.Detection) :
  In d [ PatternAnalyzer.detectSandwichPattern m u;
         PatternAnalyzer.detectFrontrunPattern m u;
         PatternAnalyzer.detectBackrunPattern m u;
         PatternAnalyzer.detectCopycatPattern m u;
         PatternAnalyzer.detectJITLiquidityPattern m u ] ->
  (List.length (PatternAnalyzer.matched d) <= List.length (competingTxs m))%nat /\
  (List.length (PatternAnalyzer.matchedBack d) <= List.length (competingTxs m))%nat.
Proof.
  unfold PatternAnalyzer.detectSandwichPattern,
    PatternAnalyzer.detectFrontrunPattern, PatternAnalyzer.detectBackrunPattern,
    PatternAnalyzer.detectCopycatPattern, PatternAnalyzer.detectJITLiquidityPattern.
  destruct (competingTxs m) as [|t0 txs].
  - intros [<-|[<-|[<-|[<-|[<-|[]]]]]]; simpl; lia.
  - intros [<-|[<-|[<-|[<-|[<-|[]]]]]];
      cbn [PatternAnalyzer.matched PatternAnalyzer.matchedBack];
      split; try apply filter_length_le; simpl; lia.
Qed.

(** C10. The pending-transaction buffer takes each new record at its
    head and keeps the first 100, so it never holds more than 100; a read
    of the buffer answers its first 20 records (none when the buffer is
    stale); hence a snapshot built from the buffer has at most 20
    competing transactions, and no detector matches more than 20 of
    them. *)
Theorem buffer_snapshot_at_most_20 :
  (forall tx now c,
     transactions (addToPendingCache tx now c)
     = firstn 100 (tx :: transactions c))
  /\ (forall events s,
        (List.length (transactions (pendingTxCache s)) <= 100)%nat ->
        (List.length (transactions (pendingTxCache (fst (run s events))))
         <= 100)%nat)
  /\ (forall c now,
        cp_transactions (getCachedPendingTransactions c now)
        = (if (5000 <? now - lastUpdate c)%Z then []
           else firstn 20 (transactions c)) /\
        (List.length (cp_transactions (getCachedPendingTransactions c now))
         <= 20)%nat)
  /\ (forall ws tokenIn tokenOut now snapshot,
        fetchFromWebSocketCache ws tokenIn tokenOut now = Some snapshot ->
        competingTxs snapshot = firstn 20 (transactions ws) /\
        (List.length (competingTxs snapshot) <= 20)%nat /\
        forall userTx d,
          In d [ PatternAnalyzer.detectSandwichPattern snapshot userTx;
                 PatternAnalyzer.detectFrontrunPattern snapshot userTx;
                 PatternAnalyzer.detectBackrunPattern snapshot userTx;
                 PatternAnalyzer.detectCopycatPattern snapshot userTx;
                 PatternAnalyzer.detectJITLiquidityPattern snapshot userTx ] ->
          (List.length (PatternAnalyzer.matched d) <= 20)%nat /\
          (List.length (PatternAnalyzer.matchedBack d) <= 20)%nat).
Proof.
  split; [|split; [|split]].
  - exact addToPendingCache_firstn.
  - exact run_buffer_bound.
  - intros c now. split; [apply read_is_prefix|apply read_at_most_20].
  - intros ws tokenIn tokenOut now snapshot H.
    unfold fetchFromWebSocketCache in H.
    destruct (negb (cp_isRealTime (getCachedPendingTransactions ws now))) eqn:E;
      [discriminate|].
    injection H as <-. cbn [competingTxs].
    assert (Hlen : (List.length
                      (cp_transactions (getCachedPendingTransactions ws now))
                    <= 20)%nat) by apply read_at_most_20.
    split; [|split; [exact Hlen|]].
    + rewrite read_is_prefix.
      unfold getCachedPendingTransactions in E.
      destruct (CACHE_TTL <? now - lastUpdate ws)%Z; [discriminate E|reflexivity].
    + intros userTx d Hd.
      match type of Hd with In d (PatternAnalyzer.detectSandwichPattern ?m _ :: _) =>
        destruct (matched_at_most m userTx d Hd) as [H1 H2];
        change (competingTxs m) with
          (cp_transactions (getCachedPendingTransactions ws now)) in H1, H2
      end.
      lia.
Qed.

Lemma buffer_snapshot_at_most_20_witness :
  (List.length
     (transactions
        (pendingTxCache
           (fst (run initialState
                   [Open; PendingTx (Scenario.tx_of "0x01" 30 "UNKNOWN/UNKNOWN") 1000]))))
   <= 100)%nat.
Proof.
  destruct buffer_snapshot_at_most_20 as (_ & H & _).
  apply H. simpl. lia.
Defined.

(** ** The freshness cache *)

Import Queries.

Lemma newest_snoc (l : list CacheRow) (x : CacheRow) :
  newest (l ++ [x]) = newer (newest l) x.
Proof. unfold newest. rewrite fold_left_app. reflexivity. Qed.

Lemma newest_none (l : list CacheRow) : newest l = None -> l = [].
Proof.
  induction l as [|x l _] using rev_ind; [reflexivity|].
  rewrite newest_snoc. destruct (newest l) as [b|]; simpl.
  - destruct (cached_at b <=? cached_at x)%Z; discriminate.
  - discriminate.
Qed.

Lemma newest_is_max (l : list CacheRow) (r : CacheRow) :
  newest l = Some r ->
  In r l /\ forall y, In y l -> (cached_at y <= cached_at r)%Z.
Proof.
  revert r. induction l as [|x l IH] using rev_ind; intros r H.
  - discriminate.
  - rewrite newest_snoc in H.
    destruct (newest l) as [b|] eqn:Eb; simpl in H.
    + destruct (IH b eq_refl) as [Hb Hmax].
      destruct (cached_at b <=? cached_at x)%Z eqn:E; injection H as <-.
      * apply Z.leb_le in E. split; [apply in_or_app; right; left; reflexivity|].
        intros y Hy. apply in_app_or in Hy. destruct Hy as [Hy|[<-|[]]]; [|lia].
        specialize (Hmax y Hy). lia.
      * apply Z.leb_gt in E. split; [apply in_or_app; left; exact Hb|].
        intros y Hy. apply in_app_or in Hy. destruct Hy as [Hy|[<-|[]]]; [|lia].
        apply Hmax. exact Hy.
    + injection H as <-. apply newest_none in Eb. subst l.
      split; [left; reflexivity|].
      intros y [<-|[]]. lia.
Qed.

(** Raising the freshness threshold below the newest row's time does not
    change which row is the newest. *)
Lemma newest_filter_above (l : list CacheRow) (t : Z) (r : CacheRow) :
  newest l = Some r -> (t < cached_at r)%Z ->
  newest (filter (fun x => (t <? cached_at x)%Z) l) = Some r.
Proof.
  revert r. induction l as [|x l IH] using rev_ind; intros r H Ht.
  - discriminate.
  - rewrite newest_snoc in H. rewrite filter_app. cbn [filter].
    destruct (newest l) as [b|] eqn:Eb; simpl in H.
    + destruct (cached_at b <=? cached_at x)%Z eqn:E; injection H as <-.
      * apply Z.leb_le in E.
        assert (Hx : (t <? cached_at x)%Z = true) by (apply Z.ltb_lt; exact Ht).
        rewrite Hx, newest_snoc.
        destruct (newest (filter _ l)) as [b'|] eqn:Eb'; [|reflexivity].
        simpl. apply newest_is_max in Eb'. destruct Eb' as [Hin _].
        apply filter_In in Hin. destruct Hin as [Hin _].
        destruct (newest_is_max l b Eb) as [_ Hmax]. specialize (Hmax b' Hin).
        assert (Hle : (cached_at b' <=? cached_at x)%Z = true)
          by (apply Z.leb_le; lia).
        rewrite Hle. reflexivity.
      * specialize (IH b eq_refl Ht).
        destruct (t <? cached_at x)%Z.
        -- rewrite newest_snoc, IH. simpl. rewrite E. reflexivity.
        -- rewrite app_nil_r. exact IH.
    + injection H as <-. apply newest_none in Eb. subst l. simpl.
      assert (Hx : (t <? cached_at x)%Z = true) by (apply Z.ltb_lt; exact Ht).
      rewrite Hx. reflexivity.
Qed.

Lemma filter_fresh_later (db : Db) (pair : string) (t1 t2 : Z) :
  (t1 <= t2)%Z ->
  filter (fresh pair t2) db
  = filter (fun x => (t2 <? cached_at x)%Z) (filter (fresh pair t1) db).
Proof.
  intros Ht. induction db as [|x db IH]; [reflexivity|].
  cbn [filter].
  destruct (fresh pair t2 x) eqn:E2.
  - unfold fresh in E2. apply andb_true_iff in E2. destruct E2 as [Ep E2].
    assert (E1 : fresh pair t1 x = true).
    { unfold fresh. rewrite Ep. simpl. apply Z.ltb_lt. apply Z.ltb_lt in E2. lia. }
    rewrite E1. cbn [filter]. rewrite E2. f_equal. exact IH.
  - destruct (fresh pair t1 x) eqn:E1; [|exact IH].
    cbn [filter].
    unfold fresh in E1, E2. apply andb_true_iff in E1. destruct E1 as [Ep E1].
    rewrite Ep in E2. simpl in E2. rewrite E2. exact IH.
Qed.

Lemma seconds_mono (a b : Z) : (a <= b)%Z -> (seconds a <= seconds b)%Z.
Proof. intros H. unfold seconds. apply Z.div_le_mono; lia. Qed.

(** A hit stays a hit on the same row while that pair has an unexpired
    row. *)
Lemma hit_again (db : Db) (pair : string) (now now' : Z) (d : MempoolData) :
  getCachedMempoolData db now pair = Some d ->
  (now <= now')%Z ->
  (exists row, In row db /\ token_pair row = pair /\
               (seconds now' - 3 < cached_at row)%Z) ->
  getCachedMempoolData db now' pair = Some d.
Proof.
  unfold getCachedMempoolData. intros H Hnow (row & Hin & Hpair & Hfresh).
  destruct (newest (filter (fresh pair (seconds now - 3)) db)) as [r|] eqn:Er;
    [|discriminate].
  injection H as <-.
  pose proof (seconds_mono now now' Hnow) as Hsec.
  rewrite (filter_fresh_later db pair (seconds now - 3) (seconds now' - 3))
    by lia.
  destruct (newest_is_max _ r Er) as [_ Hmax].
  assert (Hrow : In row (filter (fresh pair (seconds now - 3)) db)).
  { apply filter_In. split; [exact Hin|]. unfold fresh.
    rewrite Hpair, String.eqb_refl. simpl. apply Z.ltb_lt. lia. }
  specialize (Hmax row Hrow).
  rewrite (newest_filter_above _ _ r Er); [reflexivity|lia].
Qed.

(** After a miss and a write, the row written is the only unexpired row
    of the pair. *)
Lemma hit_after_store (db : Db) (pair : string) (now later now' : Z)
    (d : MempoolData) :
  getCachedMempoolData db now pair = None ->
  (now <= now')%Z ->
  (exists row, In row (cacheMempoolData db later pair d) /\
               token_pair row = pair /\
               (seconds now' - 3 < cached_at row)%Z) ->
  getCachedMempoolData (cacheMempoolData db later pair d) now' pair = Some d.
Proof.
  unfold getCachedMempoolData. intros Hmiss Hnow (row & Hin & Hpair & Hfresh).
  destruct (newest (filter (fresh pair (seconds now - 3)) db)) eqn:En;
    [discriminate|].
  apply newest_none in En.
  pose proof (seconds_mono now now' Hnow) as Hsec.
  assert (Hold : forall x, In x db -> fresh pair (seconds now' - 3) x = false).
  { intros x Hx.
    destruct (fresh pair (seconds now' - 3) x) eqn:E; [|reflexivity].
    assert (Hx' : In x (filter (fresh pair (seconds now - 3)) db)).
    { apply filter_In. split; [exact Hx|].
      unfold fresh in *. apply andb_true_iff in E. destruct E as [E1 E2].
      rewrite E1. simpl. apply Z.ltb_lt. apply Z.ltb_lt in E2. lia. }
    rewrite En in Hx'. destruct Hx'. }
  unfold cacheMempoolData in *. rewrite filter_app.
  rewrite (filter_none (fresh pair (seconds now' - 3))).
  - apply in_app_or in Hin. destruct Hin as [Hin|[<-|[]]].
    + apply filter_In in Hin. destruct Hin as [Hin _].
      specialize (Hold row Hin). unfold fresh in Hold.
      rewrite Hpair, String.eqb_refl in Hold. simpl in Hold.
      apply Z.ltb_ge in Hold. lia.
    + cbn [filter app]. unfold fresh. cbn [token_pair cached_at] in *.
      rewrite String.eqb_refl. simpl.
      assert (E : (seconds now' - 3 <? seconds later)%Z = true)
        by (apply Z.ltb_lt; exact Hfresh).
      rewrite E. reflexivity.
  - intros x Hx. apply filter_In in Hx. apply Hold, Hx.
Qed.

(** A call that misses the cache and returns a snapshot has written that
    snapshot to the cache. *)
Lemma miss_stores (env : Env) (ws : PendingTxCache) (db db1 : Db) (now : Z)
    (tokenIn tokenOut : string) (userGasPrice : GasPriceField)
    (snapshot : MempoolData) :
  getCachedMempoolData db now (JS.pair_of tokenIn tokenOut) = None ->
  getRealMempoolData env ws db now tokenIn tokenOut userGasPrice
  = (Ok snapshot, db1) ->
  db1 = cacheMempoolData db (now + Z.of_N (elapsed env))
          (JS.pair_of tokenIn tokenOut) snapshot.
Proof.
  intros Hmiss. unfold getRealMempoolData. rewrite Hmiss.
  repeat match goal with
         | |- context [match ?x with _ => _ end] =>
             lazymatch x with
             | context [match _ with _ => _ end] => fail
             | _ => destruct x eqn:?
             end
         end;
    intros H; try discriminate; injection H as <- <-; reflexivity.
Qed.

(** C8. When a call of [getRealMempoolData] has returned a snapshot and
    the pair's cache row has not expired at a later call (some row of the
    pair is younger than the 3 second TTL), the later call returns the
    same snapshot and leaves the cache as it is, whatever the upstream
    sources, the subscriber's buffer and the caller's gas price are then:
    it is answered from the cache and no acquisition strategy has a say.
    After a miss the row written at the end of the first call is that
    row. *)
Theorem cached_snapshot_idempotent (env : Env) (ws : PendingTxCache) (db db1 : Db)
    (now : Z) (tokenIn tokenOut : string) (userGasPrice : GasPriceField)
    (snapshot : MempoolData) :
  getRealMempoolData env ws db now tokenIn tokenOut userGasPrice
  = (Ok snapshot, db1) ->
  forall (env' : Env) (ws' : PendingTxCache) (userGasPrice' : GasPriceField)
         (now' : Z),
    (now <= now')%Z ->
    ((exists row, In row db1 /\
                  token_pair row = JS.pair_of tokenIn tokenOut /\
                  (seconds now' - 3 < cached_at row)%Z) ->
     getRealMempoolData env' ws' db1 now' tokenIn tokenOut userGasPrice'
     = (Ok snapshot, db1))
    /\ (getCachedMempoolData db now (JS.pair_of tokenIn tokenOut) = None ->
        (seconds now' - 3 < seconds (now + Z.of_N (elapsed env)))%Z ->
        getRealMempoolData env' ws' db1 now' tokenIn tokenOut userGasPrice'
        = (Ok snapshot, db1)).
Proof.
  intros H env' ws' userGasPrice' now' Hnow.
  assert (Hmain :
    (exists row, In row db1 /\ token_pair row = JS.pair_of tokenIn tokenOut /\
                 (seconds now' - 3 < cached_at row)%Z) ->
    getRealMempoolData env' ws' db1 now' tokenIn tokenOut userGasPrice'
    = (Ok snapshot, db1)).
  { intros Hrow.
    destruct (getCachedMempoolData db now (JS.pair_of tokenIn tokenOut))
      as [d|] eqn:Ec.
    - unfold getRealMempoolData in H. rewrite Ec in H.
      injection H as <- <-.
      unfold getRealMempoolData.
      rewrite (hit_again db _ now now' d Ec Hnow Hrow). reflexivity.
    - pose proof (miss_stores _ _ _ _ _ _ _ _ _ Ec H) as ->.
      unfold getRealMempoolData.
      rewrite (hit_after_store db _ now _ now' snapshot Ec Hnow Hrow).
      reflexivity. }
  split; [exact Hmain|].
  intros Ec Httl. apply Hmain.
  pose proof (miss_stores _ _ _ _ _ _ _ _ _ Ec H) as ->.
  eexists. split; [|split].
  - unfold cacheMempoolData. apply in_or_app. right. left. reflexivity.
  - reflexivity.
  - exact Httl.
Qed.

Lemma cached_snapshot_idempotent_witness :
  exists snapshot db1,
    getRealMempoolData Scenario.offlineWithKey initialCache [] 10000 "A" "B" Missing
    = (Ok snapshot, db1) /\
    getRealMempoolData Scenario.offline initialCache db1 14000 "A" "B" Missing
    = (Ok snapshot, db1).
Proof.
  eexists. eexists. split; [reflexivity|].
  assert (H : getRealMempoolData Scenario.offlineWithKey initialCache [] 10000
                "A" "B" Missing
              = (Ok (getSimulatedMempoolData "A" "B" 13000),
                 [ {| token_pair := "A/B";
                      data := getSimulatedMempoolData "A" "B" 13000;
                      cached_at := 13 |} ])) by reflexivity.
  apply (proj2 (cached_snapshot_idempotent _ _ _ _ _ _ _ _ _ H
                  Scenario.offline initialCache Missing 14000%Z
                  ltac:(lia))).
  - reflexivity.
  - vm_compute. reflexivity.
Defined.

(** ** The fallback chain *)

(** The chain throws only what [getProvider] throws. *)
Lemma throws_only_without_provider (env : Env) (ws : PendingTxCache) (db db1 : Db)
    (now : Z) (tokenIn tokenOut : string) (userGasPrice : GasPriceField)
    (msg : string) :
  getRealMempoolData env ws db now tokenIn tokenOut userGasPrice
  = (Throw msg, db1) ->
  getProvider env = Throw msg.
Proof.
  unfold getRealMempoolData, fetchFromEthereumRPC, analyzeRecentBlocks.
  destruct (getProvider env) as [provider|m]; cbn [bind].
  - repeat match goal with
           | |- context [match ?x with _ => _ end] =>
               lazymatch x with
               | context [match _ with _ => _ end] => fail
               | _ => destruct x eqn:?
               end
           end; intros H; discriminate.
  - repeat match goal with
           | |- context [match ?x with _ => _ end] =>
               lazymatch x with
               | context [match _ with _ => _ end] => fail
               | _ => destruct x eqn:?
               end
           end; intros H; try discriminate; injection H as <- _; reflexivity.
Qed.

(** With a provider at hand, a chain whose real sources all fail ends in
    the baseline. *)
Lemma baseline_when_sources_fail (env : Env) (ws : PendingTxCache) (db : Db)
    (now : Z) (tokenIn tokenOut : string) (userGasPrice : GasPriceField)
    (provider : Provider) (msg : string) :
  getCachedMempoolData db now (JS.pair_of tokenIn tokenOut) = None ->
  isConnected ws = false ->
  fetchFromBlocknative env tokenIn tokenOut (now + Z.of_N (elapsed env)) = None ->
  getProvider env = Ok provider ->
  getBlockNumber provider = Throw msg ->
  exists db1 snapshot,
    getRealMempoolData env ws db now tokenIn tokenOut userGasPrice
    = (Ok snapshot, db1) /\
    md_confidence snapshot = 50 # 100 /\
    dataSource snapshot = "simulated"%string /\
    competingTxs snapshot = [].
Proof.
  intros Hmiss Hws Hbn Hp Hblock.
  unfold getRealMempoolData, fetchFromEthereumRPC, analyzeRecentBlocks.
  rewrite Hmiss. cbn [getWebSocketStatus st_isConnected]. rewrite Hws, Hbn, Hp.
  cbn [bind]. rewrite Hblock. cbn [bind try_catch].
  destruct (negb (JS.empty (BLOCKNATIVE_API_KEY env)));
    eexists; eexists; (split; [reflexivity|]); repeat split.
Qed.

(** C1 fails on the code: with no Alchemy or Infura key and no public
    endpoint answering, [getProvider] throws outside the [try] of
    [fetchFromEthereumRPC] and the exception reaches the caller of
    [getRealMempoolData]; no baseline snapshot is returned and the scan
    ends in its error response. *)
Theorem getRealMempoolData_propagates_exception :
  getRealMempoolData Scenario.offline initialCache [] 10000 "A" "B" Missing
  = (Throw "No working Ethereum RPC provider available", [])
  /\ Server.scan_transaction
       (fst (getRealMempoolData Scenario.offline initialCache [] 10000
               "A" "B" Missing))
       (Ok Scenario.pool) Scenario.quietHistory Scenario.request
     = {| Server.risk_score := 0; Server.attack_type := "unknown" |}.
Proof. split; reflexivity. Qed.

(** * Further properties of the code *)

(** ** The fallback chain, source by source *)

Lemma throws_only_without_provider_witness :
  getProvider Scenario.offline
  = Throw "No working Ethereum RPC provider available".
Proof.
  apply (throws_only_without_provider Scenario.offline initialCache [] []
           10000 "A" "B" Missing).
  reflexivity.
Defined.

Lemma baseline_when_sources_fail_witness :
  exists db1 snapshot,
    getRealMempoolData Scenario.offlineWithKey initialCache [] 10000 "A" "B"
      Missing = (Ok snapshot, db1) /\
    md_confidence snapshot = 50 # 100 /\
    dataSource snapshot = "simulated"%string /\
    competingTxs snapshot = [].
Proof.
  apply (baseline_when_sources_fail Scenario.offlineWithKey initialCache []
           10000 "A" "B" Missing Scenario.unreachable "request timeout");
    reflexivity.
Defined.

(** The buffer is a source exactly while the subscriber is connected and
    the last insertion is at most 5 seconds old; a subscriber that is
    connected but has buffered nothing yet (lastUpdate 0) is no source. *)
Lemma fetchFromWebSocketCache_some_iff (ws : PendingTxCache)
    (tokenIn tokenOut : string) (now : Z) :
  (exists d, fetchFromWebSocketCache ws tokenIn tokenOut now = Some d)
  <-> isConnected ws = true /\ (now - lastUpdate ws <= 5000)%Z.
Proof.
  unfold fetchFromWebSocketCache, getCachedPendingTransactions, CACHE_TTL.
  destruct (5000 <? now - lastUpdate ws)%Z eqn:E; cbn [cp_isRealTime negb].
  - apply Z.ltb_lt in E. split.
    + intros [d H]. discriminate.
    + intros [_ H]. lia.
  - apply Z.ltb_ge in E. destruct (isConnected ws); cbn [negb]; split.
    + intros _. split; [reflexivity|exact E].
    + intros _. eexists. reflexivity.
    + intros [d H]. discriminate.
    + intros [H _]. discriminate.
Qed.

(** When the cache misses and the buffer is a source, the buffer's
    snapshot is returned and cached whatever the other sources do: no
    other strategy is tried, so none of them can fail the call. *)
Lemma websocket_snapshot_first (env : Env) (ws : PendingTxCache) (db : Db)
    (now : Z) (tokenIn tokenOut : string) (userGasPrice : GasPriceField)
    (d : MempoolData) :
  getCachedMempoolData db now (JS.pair_of tokenIn tokenOut) = None ->
  fetchFromWebSocketCache ws tokenIn tokenOut now = Some d ->
  getRealMempoolData env ws db now tokenIn tokenOut userGasPrice
  = (Ok d, cacheMempoolData db (now + Z.of_N (elapsed env))
             (JS.pair_of tokenIn tokenOut) d)
  /\ md_confidence d = 98 # 100
  /\ competingTxs d = firstn 20 (transactions ws).
Proof.
  intros Hmiss Hws.
  assert (Hsome : exists d', fetchFromWebSocketCache ws tokenIn tokenOut now = Some d')
    by (exists d; exact Hws).
  apply fetchFromWebSocketCache_some_iff in Hsome. destruct Hsome as [Hc Hage].
  split.
  - unfold getRealMempoolData. rewrite Hmiss.
    cbn [getWebSocketStatus st_isConnected st_cacheAge st_lastUpdate
         st_cachedTransactions].
    rewrite Hc.
    assert (E : (now - lastUpdate ws <? 60000)%Z = true) by (apply Z.ltb_lt; lia).
    rewrite E, orb_true_r, orb_true_r, Hws. reflexivity.
  - unfold fetchFromWebSocketCache in Hws.
    destruct (negb (cp_isRealTime (getCachedPendingTransactions ws now)));
      [discriminate|].
    injection Hws as <-. cbn [md_confidence competingTxs].
    split; [reflexivity|].
    rewrite read_is_prefix. unfold CACHE_TTL.
    assert (E : (5000 <? now - lastUpdate ws)%Z = false) by (apply Z.ltb_ge; lia).
    rewrite E. reflexivity.
Qed.

Lemma websocket_snapshot_first_witness :
  fst (getRealMempoolData Scenario.offline Sample.liveBuffer [] 10000 "A" "B"
         Missing)
  = Ok Sample.liveSnapshot.
Proof.
  assert (Hmiss : getCachedMempoolData [] 10000 (JS.pair_of "A" "B") = None)
    by reflexivity.
  assert (Hws : fetchFromWebSocketCache Sample.liveBuffer "A" "B" 10000
                = Some Sample.liveSnapshot) by reflexivity.
  rewrite (proj1 (websocket_snapshot_first Scenario.offline Sample.liveBuffer []
                    10000 "A" "B" Missing Sample.liveSnapshot Hmiss Hws)).
  reflexivity.
Defined.

(** When the cache misses, the buffer is no source and Blocknative
    answers, its snapshot is returned and cached and the Ethereum RPC is
    not asked, so a failing [getProvider] does not fail the call. *)
Lemma blocknative_before_rpc (env : Env) (ws : PendingTxCache) (db : Db)
    (now : Z) (tokenIn tokenOut : string) (userGasPrice : GasPriceField)
    (d : MempoolData) :
  getCachedMempoolData db now (JS.pair_of tokenIn tokenOut) = None ->
  fetchFromWebSocketCache ws tokenIn tokenOut now = None ->
  JS.empty (BLOCKNATIVE_API_KEY env) = false ->
  fetchFromBlocknative env tokenIn tokenOut (now + Z.of_N (elapsed env)) = Some d ->
  getRealMempoolData env ws db now tokenIn tokenOut userGasPrice
  = (Ok d, cacheMempoolData db (now + Z.of_N (elapsed env))
             (JS.pair_of tokenIn tokenOut) d)
  /\ md_confidence d = 95 # 100 /\ competingTxs d = [].
Proof.
  intros Hmiss Hws Hkey Hbn. split.
  - unfold getRealMempoolData. rewrite Hmiss, Hws, Hkey, Hbn. cbn [negb].
    repeat match goal with
           | |- context [if ?b then _ else _] => destruct b
           end; reflexivity.
  - unfold fetchFromBlocknative in Hbn.
    destruct (blocknativeBlockPrices env) as [[bp|]|msg];
      cbn [bind try_catch] in Hbn; try discriminate.
    injection Hbn as <-. split; reflexivity.
Qed.

Lemma blocknative_before_rpc_witness :
  exists d,
    fst (getRealMempoolData Sample.blocknativeOnly initialCache [] 10000
           "A" "B" Missing) = Ok d /\
    dataSource d = "blocknative"%string.
Proof.
  eexists. split.
  - rewrite (proj1 (blocknative_before_rpc Sample.blocknativeOnly initialCache
                      [] 10000 "A" "B" Missing _ eq_refl eq_refl eq_refl
                      eq_refl)).
    reflexivity.
  - reflexivity.
Defined.

Lemma analyzeRecentBlocks_source (env : Env) (tokenIn tokenOut : string)
    (now : Z) (d : MempoolData) :
  analyzeRecentBlocks env tokenIn tokenOut now = Ok d ->
  (dataSource d = "block-analysis"%string /\ md_confidence d = 70 # 100 /\
   competingTxs d = [])
  \/ (dataSource d = "simulated"%string /\ md_confidence d = 50 # 100 /\
      competingTxs d = [] /\ gasPercentiles d = defaultPercentiles).
Proof.
  unfold analyzeRecentBlocks.
  destruct (getProvider env) as [provider|msg]; cbn [bind]; [|discriminate].
  destruct (getBlockNumber provider) as [current|msg]; cbn [bind try_catch].
  - match goal with |- context [all ?cs] => destruct (all cs) end;
      cbn [bind try_catch]; intros H; injection H as <-.
    + left. repeat split.
    + right. repeat split.
  - intros H. injection H as <-. right. repeat split.
Qed.

Lemma fetchFromEthereumRPC_source (env : Env) (tokenIn tokenOut : string)
    (g : GasPriceField) (now : Z) (d : MempoolData) :
  fetchFromEthereumRPC env tokenIn tokenOut g now = Ok (Some d) ->
  dataSource d = "ethereum-rpc"%string /\ md_confidence d = 85 # 100.
Proof.
  unfold fetchFromEthereumRPC.
  destruct (getProvider env) as [provider|msg]; cbn [bind]; [|discriminate].
  destruct (getBlockNumber provider) as [current|msg]; cbn [bind try_catch];
    [|discriminate].
  destruct (getBlock provider current); cbn [bind try_catch]; [|discriminate].
  intros H. injection H as <-. split; reflexivity.
Qed.

(** Fallback monotonicity.  A snapshot fetched after a cache miss carries
    the label and the confidence of the strategy that produced it: 0.98
    from the buffer (only with the subscriber connected), 0.95 from
    Blocknative (only with its key set), 0.85 from the Ethereum RPC, 0.70
    from the block analysis, 0.50 for the simulated baseline; all but the
    buffer and the RPC come with an empty competitor list. *)
Lemma snapshot_source_and_confidence (env : Env) (ws : PendingTxCache)
    (db db1 : Db) (now : Z) (tokenIn tokenOut : string) (g : GasPriceField)
    (snapshot : MempoolData) :
  getCachedMempoolData db now (JS.pair_of tokenIn tokenOut) = None ->
  getRealMempoolData env ws db now tokenIn tokenOut g = (Ok snapshot, db1) ->
  (dataSource snapshot = ("real-mempool-" ++ source ws)%string /\
   md_confidence snapshot = 98 # 100 /\ isConnected ws = true)
  \/ (dataSource snapshot = "blocknative"%string /\
      md_confidence snapshot = 95 # 100 /\ competingTxs snapshot = [] /\
      JS.empty (BLOCKNATIVE_API_KEY env) = false)
  \/ (dataSource snapshot = "ethereum-rpc"%string /\
      md_confidence snapshot = 85 # 100)
  \/ (dataSource snapshot = "block-analysis"%string /\
      md_confidence snapshot = 70 # 100 /\ competingTxs snapshot = [])
  \/ (dataSource snapshot = "simulated"%string /\
      md_confidence snapshot = 50 # 100 /\ competingTxs snapshot = [] /\
      gasPercentiles snapshot = defaultPercentiles).
Proof.
  intros Hmiss. unfold getRealMempoolData. rewrite Hmiss.
  match goal with
  | |- context [match ?w with Some _ => _ | None => _ end] =>
      destruct w as [d|] eqn:Ews
  end.
  - intros H. injection H as <- _. left.
    cbn [getWebSocketStatus st_isConnected] in Ews.
    destruct (isConnected ws) eqn:Ec; [|discriminate].
    destruct (_ || _) in Ews; [|discriminate].
    unfold fetchFromWebSocketCache in Ews.
    destruct (negb _) in Ews; [discriminate|].
    injection Ews as <-. cbn [dataSource md_confidence].
    repeat split.
    unfold getCachedPendingTransactions.
    destruct (CACHE_TTL <? now - lastUpdate ws)%Z; reflexivity.
  - clear Ews.
    destruct (negb (JS.empty (BLOCKNATIVE_API_KEY env))) eqn:Ekey.
    + destruct (fetchFromBlocknative env tokenIn tokenOut _) as [d|] eqn:Ebn.
      * intros H. injection H as <- _. right. left.
        apply negb_true_iff in Ekey.
        unfold fetchFromBlocknative in Ebn.
        destruct (blocknativeBlockPrices env) as [[bp|]|msg];
          cbn [bind try_catch] in Ebn; try discriminate.
        injection Ebn as <-. repeat split. exact Ekey.
      * destruct (fetchFromEthereumRPC env tokenIn tokenOut g _)
          as [[d|]|msg] eqn:Erpc.
        -- intros H. injection H as <- _. right. right. left.
           apply (fetchFromEthereumRPC_source _ _ _ _ _ _ Erpc).
        -- destruct (analyzeRecentBlocks env tokenIn tokenOut _)
             as [d|msg] eqn:Erb; intros H; [|discriminate].
           injection H as <- _. right. right. right.
           apply (analyzeRecentBlocks_source _ _ _ _ _ Erb).
        -- intros H. discriminate.
    + destruct (fetchFromEthereumRPC env tokenIn tokenOut g _)
        as [[d|]|msg] eqn:Erpc.
      * intros H. injection H as <- _. right. right. left.
        apply (fetchFromEthereumRPC_source _ _ _ _ _ _ Erpc).
      * destruct (analyzeRecentBlocks env tokenIn tokenOut _)
          as [d|msg] eqn:Erb; intros H; [|discriminate].
        injection H as <- _. right. right. right.
        apply (analyzeRecentBlocks_source _ _ _ _ _ Erb).
      * intros H. discriminate.
Qed.

Lemma snapshot_source_and_confidence_witness :
  md_confidence Sample.liveSnapshot = 98 # 100 /\
  isConnected Sample.liveBuffer = true.
Proof.
  destruct (snapshot_source_and_confidence Scenario.offline Sample.liveBuffer
              [] _ 10000 "A" "B" Missing Sample.liveSnapshot eq_refl eq_refl)
    as [H|[H|[H|[H|H]]]]; try (destruct H as [H _]; discriminate H).
  destruct H as (_ & Hc & Hi). split; assumption.
Defined.

(** ** Token pairs and the records of the live sources *)

Lemma opposite_is_related_witness :
  PatternAnalyzer.isSameOrRelatedPair "B/A" (userPair (Scenario.trade_AB None))
  = true.
Proof.
  apply (opposite_is_related (Scenario.tx_of "0x02" 20 "B/A")
           (Scenario.trade_AB None)).
  reflexivity.
Defined.

Lemma opt_eqb_sym (a b : option string) : JS.opt_eqb a b = JS.opt_eqb b a.
Proof.
  destruct a, b; simpl; try reflexivity. apply String.eqb_sym.
Qed.

Lemma includes_true (xs : list string) (t : string) :
  JS.includes xs t = true <-> In t xs.
Proof.
  unfold JS.includes. rewrite existsb_exists. split.
  - intros [x [Hx E]]. apply String.eqb_eq in E. subst. exact Hx.
  - intros H. exists t. split; [exact H|apply String.eqb_refl].
Qed.

Lemma share_token_sym (xs ys : list string) :
  existsb (JS.includes ys) xs = existsb (JS.includes xs) ys.
Proof.
  apply eq_true_iff_eq. rewrite !existsb_exists. split.
  - intros [t [Hx Hy]]. apply includes_true in Hy.
    exists t. split; [exact Hy|apply includes_true; exact Hx].
  - intros [t [Hy Hx]]. apply includes_true in Hx.
    exists t. split; [exact Hx|apply includes_true; exact Hy].
Qed.

(** Two pairs are the same or related whichever comes first. *)
Lemma isSameOrRelatedPair_sym (pair1 pair2 : string) :
  PatternAnalyzer.isSameOrRelatedPair pair1 pair2
  = PatternAnalyzer.isSameOrRelatedPair pair2 pair1.
Proof.
  unfold PatternAnalyzer.isSameOrRelatedPair.
  rewrite (orb_comm (JS.empty pair1)), (String.eqb_sym pair1 pair2).
  rewrite (opt_eqb_sym (nth_error (JS.split "/" pair1) 0)),
          (opt_eqb_sym (nth_error (JS.split "/" pair1) 1)).
  rewrite (andb_comm (JS.opt_eqb (nth_error (JS.split "/" pair2) 1) _)).
  rewrite (share_token_sym (JS.split "/" pair1) (JS.split "/" pair2)).
  reflexivity.
Qed.

(** A pair of two tokens other than UNKNOWN is not related to
    UNKNOWN/UNKNOWN, the pair every record of the stream and of the RPC
    carries. *)
Lemma unknown_pair_unrelated (userTx : UserTx) :
  no_sep "/" (token_in userTx) -> no_sep "/" (token_out userTx) ->
  token_in userTx <> "UNKNOWN"%string -> token_out userTx <> "UNKNOWN"%string ->
  PatternAnalyzer.isSameOrRelatedPair "UNKNOWN/UNKNOWN" (userPair userTx) = false
  /\ String.eqb "UNKNOWN/UNKNOWN" (userPair userTx) = false
  /\ MempoolEnhanced.isRelatedPair "UNKNOWN/UNKNOWN" (userPair userTx) = false.
Proof.
  intros Hin Hout Ni No.
  assert (Hsplit : JS.split "/" (userPair userTx)
                   = [token_in userTx; token_out userTx])
    by (apply split_pair_of; assumption).
  assert (Ei : String.eqb "UNKNOWN" (token_in userTx) = false)
    by (apply String.eqb_neq; congruence).
  assert (Eo : String.eqb "UNKNOWN" (token_out userTx) = false)
    by (apply String.eqb_neq; congruence).
  assert (Hu : JS.split "/" "UNKNOWN/UNKNOWN" = ["UNKNOWN"; "UNKNOWN"]%string)
    by reflexivity.
  assert (Eq : String.eqb "UNKNOWN/UNKNOWN" (userPair userTx) = false).
  { apply String.eqb_neq. intros E.
    apply (f_equal (JS.split "/")) in E. rewrite Hsplit, Hu in E.
    injection E as E1 E2. congruence. }
  split; [|split; [exact Eq|]].
  - unfold PatternAnalyzer.isSameOrRelatedPair.
    unfold userPair in *. rewrite pair_of_not_empty, Eq, Hsplit, Hu.
    cbn [JS.empty orb nth_error JS.opt_eqb existsb JS.includes].
    rewrite Ei, Eo. reflexivity.
  - unfold MempoolEnhanced.isRelatedPair. rewrite Hsplit, Hu.
    cbn [existsb JS.includes]. rewrite Ei, Eo. reflexivity.
Qed.

Section LiveRecords.

Variables (m : MempoolData) (u : UserTx).

Hypothesis records_unknown : allUnknown (competingTxs m).
Hypothesis in_plain : no_sep "/" (token_in u).
Hypothesis out_plain : no_sep "/" (token_out u).
Hypothesis in_known : token_in u <> "UNKNOWN"%string.
Hypothesis out_known : token_out u <> "UNKNOWN"%string.

Lemma live_unrelated (tx : Tx) :
  In tx (competingTxs m) ->
  PatternAnalyzer.isSameOrRelatedPair (tokenPair tx) (userPair u) = false /\
  String.eqb (tokenPair tx) (userPair u) = false.
Proof.
  intros Hin. unfold allUnknown in records_unknown.
  rewrite Forall_forall in records_unknown.
  rewrite (records_unknown tx Hin).
  destruct (unknown_pair_unrelated u in_plain out_plain in_known out_known)
    as (H1 & H2 & _).
  split; assumption.
Qed.

Lemma live_no_frontRunner :
  filter (PatternAnalyzer.isFrontRunner (userGasPriceOf m u) u) (competingTxs m) = [].
Proof.
  apply filter_none. intros tx Hin. unfold PatternAnalyzer.isFrontRunner.
  rewrite (proj1 (live_unrelated tx Hin)). apply andb_false_r.
Qed.

Lemma live_no_competitor :
  filter (PatternAnalyzer.isCompetitor (userGasPriceOf m u) u) (competingTxs m) = [].
Proof.
  apply filter_none. intros tx Hin. unfold PatternAnalyzer.isCompetitor.
  rewrite (proj1 (live_unrelated tx Hin)). apply andb_false_r.
Qed.

Lemma live_no_backrunCandidate :
  filter (PatternAnalyzer.isBackrunCandidate (userGasPriceOf m u) u)
         (competingTxs m) = [].
Proof.
  apply filter_none. intros tx Hin. unfold PatternAnalyzer.isBackrunCandidate.
  rewrite (proj1 (live_unrelated tx Hin)).
  rewrite andb_false_r. reflexivity.
Qed.

Lemma live_no_copycat :
  filter (PatternAnalyzer.isCopycat (userGasPriceOf m u) u) (competingTxs m) = [].
Proof.
  apply filter_none. intros tx Hin. unfold PatternAnalyzer.isCopycat.
  rewrite (proj2 (live_unrelated tx Hin)). reflexivity.
Qed.

Lemma live_patterns_silent :
  PatternAnalyzer.detected (PatternAnalyzer.detectSandwichPattern m u) = false /\
  PatternAnalyzer.detected (PatternAnalyzer.detectFrontrunPattern m u) = false /\
  PatternAnalyzer.detected (PatternAnalyzer.detectBackrunPattern m u) = false /\
  PatternAnalyzer.detected (PatternAnalyzer.detectCopycatPattern m u) = false.
Proof.
  pose proof live_no_frontRunner as HF. pose proof live_no_competitor as HC.
  pose proof live_no_backrunCandidate as HB. pose proof live_no_copycat as HK.
  unfold PatternAnalyzer.detectSandwichPattern,
    PatternAnalyzer.detectFrontrunPattern, PatternAnalyzer.detectBackrunPattern,
    PatternAnalyzer.detectCopycatPattern.
  destruct (competingTxs m) as [|t0 txs]; [repeat split|].
  rewrite HF, HC, HB, HK. repeat split.
Qed.

Lemma live_legacy_silent :
  Detectors.detectSandwich u m = {| Detectors.score := 10; Detectors.type := "none" |} /\
  Detectors.detectFrontRun u m = {| Detectors.score := 5; Detectors.type := "none" |} /\
  Detectors.detectCopycat u m = false.
Proof.
  assert (Hrev : forall tx, In tx (competingTxs m) ->
            String.eqb (tokenPair tx) (Detectors.reversePair u) = false).
  { intros tx Hin. unfold allUnknown in records_unknown.
    rewrite Forall_forall in records_unknown. rewrite (records_unknown tx Hin).
    apply String.eqb_neq. intros E.
    apply (f_equal (JS.split "/")) in E.
    unfold Detectors.reversePair in E.
    rewrite (split_pair_of _ _ out_plain in_plain) in E.
    change (JS.split "/" "UNKNOWN/UNKNOWN") with ["UNKNOWN"; "UNKNOWN"]%string in E.
    injection E as E1 E2. congruence. }
  unfold Detectors.detectSandwich, Detectors.detectFrontRun, Detectors.detectCopycat.
  rewrite !(filter_none _ (competingTxs m)); [repeat split| | |].
  - intros tx Hin. rewrite (proj2 (live_unrelated tx Hin)). reflexivity.
  - intros tx Hin. rewrite (proj2 (live_unrelated tx Hin)). reflexivity.
  - intros tx Hin. rewrite (proj2 (live_unrelated tx Hin)), (Hrev tx Hin).
    reflexivity.
Qed.

End LiveRecords.

Lemma jit_confidence_values (m : MempoolData) (u : UserTx) :
  PatternAnalyzer.confidence (PatternAnalyzer.detectJITLiquidityPattern m u) = 0
  \/ PatternAnalyzer.confidence (PatternAnalyzer.detectJITLiquidityPattern m u)
     = 6 # 10.
Proof.
  unfold PatternAnalyzer.detectJITLiquidityPattern.
  destruct (competingTxs m) as [|t0 txs]; [left; reflexivity|].
  cbn [PatternAnalyzer.confidence].
  destruct (PatternAnalyzer.nonEmpty _); [right|left]; reflexivity.
Qed.

(** The JIT detector reports 0.6 at most, and the threshold asks for more
    than 0.6. *)
Lemma jit_never_passes (m : MempoolData) (u : UserTx) :
  Server.passes (PatternAnalyzer.detectJITLiquidityPattern m u) (6 # 10) = false.
Proof.
  unfold Server.passes.
  destruct (jit_confidence_values m u) as [E|E]; rewrite E;
    apply andb_false_r.
Qed.

Lemma performHistoricalAnalysis_le_40 (u : UserTx) (h : Detectors.History) :
  (Detectors.performHistoricalAnalysis u h <= 40)%Z.
Proof. unfold Detectors.performHistoricalAnalysis. apply Z.le_min_r. Qed.

Lemma congestionScore_le_90 (m : MempoolData) : (Server.congestionScore m <= 90)%Z.
Proof.
  unfold Server.congestionScore.
  destruct (pendingTxCount m); [|lia].
  repeat match goal with |- context [if ?c then _ else _] => destruct c end; lia.
Qed.

Lemma inject_Z_le (a b : Z) : (a <= b)%Z -> inject_Z a <= inject_Z b.
Proof. intros H. rewrite <- Zle_Qle. exact H. Qed.

(** The score of a scan whose legacy detectors see no competitor on the
    pair, in terms of a bound on the pattern aggregate. *)
Lemma assess_quiet_bounds (m : MempoolData) (pool : Server.PoolData)
    (h : Detectors.History) (input : Server.ScanRequest) (top : Z) :
  Detectors.detectSandwich (Server.asUserTx input) m
  = {| Detectors.score := 10; Detectors.type := "none" |} ->
  Detectors.detectFrontRun (Server.asUserTx input) m
  = {| Detectors.score := 5; Detectors.type := "none" |} ->
  (0 <= PatternAnalyzer.aggregateRisk
          (PatternAnalyzer.analyzeMEVPatterns m (Server.asUserTx input))
   <= top)%Z ->
  (3 <= Server.risk_score (Server.assess m pool h input)
   <= Qfloor ((6 # 10) * inject_Z top + (252 # 10)))%Z.
Proof.
  intros Hs Hf [Ha0 Ha]. unfold Server.assess. cbn [Server.risk_score].
  rewrite Hs, Hf. cbn [Detectors.score].
  pose proof (inject_Z_nonneg _ Ha0) as A0.
  pose proof (inject_Z_le _ _ Ha) as A1.
  pose proof (inject_Z_nonneg _ (performHistoricalAnalysis_nonneg
                                   (Server.asUserTx input) h)) as H0.
  pose proof (inject_Z_le _ _ (performHistoricalAnalysis_le_40
                                 (Server.asUserTx input) h)) as H1.
  pose proof (inject_Z_nonneg _ (congestionScore_nonneg m)) as C0.
  pose proof (inject_Z_le _ _ (congestionScore_le_90 m)) as C1.
  change (inject_Z 40) with 40 in H1. change (inject_Z 90) with 90 in C1.
  change (inject_Z 10) with 10. change (inject_Z 5) with 5.
  split.
  - apply Z.min_glb; [|lia]. unfold JS.round.
    change 3%Z with (Qfloor 3). apply Qfloor_resp_le.
    destruct (Server.priceImpactAbove2 _ _ _); lra.
  - eapply Z.le_trans; [apply Z.le_min_l|]. unfold JS.round.
    apply Qfloor_resp_le.
    destruct (Server.priceImpactAbove2 _ _ _); lra.
Qed.

Lemma jit_only_aggregate (ps : PatternAnalyzer.Patterns) :
  PatternAnalyzer.detected (PatternAnalyzer.pat_sandwich ps) = false ->
  PatternAnalyzer.detected (PatternAnalyzer.pat_frontrun ps) = false ->
  PatternAnalyzer.detected (PatternAnalyzer.pat_backrun ps) = false ->
  PatternAnalyzer.detected (PatternAnalyzer.pat_copycat ps) = false ->
  0 <= PatternAnalyzer.confidence (PatternAnalyzer.pat_jit ps) <= 6 # 10 ->
  (0 <= PatternAnalyzer.calculateAggregateRisk ps <= 3)%Z.
Proof.
  intros Hs Hf Hb Hc [J0 J1].
  unfold PatternAnalyzer.calculateAggregateRisk.
  rewrite (round_comp _ _ (totalRisk_weightedSum ps)).
  unfold Spec.weightedSum, Spec.contribution. rewrite Hs, Hf, Hb, Hc.
  split.
  - apply Z.min_glb; [|lia]. apply round_nonneg.
    destruct (PatternAnalyzer.detected (PatternAnalyzer.pat_jit ps)); lra.
  - eapply Z.le_trans; [apply Z.le_min_l|]. unfold JS.round.
    change 3%Z with (Qfloor (3 + (1 # 2))). apply Qfloor_resp_le.
    destruct (PatternAnalyzer.detected (PatternAnalyzer.pat_jit ps)); lra.
Qed.

Lemma jit_confidence_le (m : MempoolData) (u : UserTx) :
  0 <= PatternAnalyzer.confidence (PatternAnalyzer.detectJITLiquidityPattern m u)
  <= 6 # 10.
Proof. destruct (jit_confidence_values m u) as [E|E]; rewrite E; lra. Qed.

(** Every record the stream and the RPC produce carries the pair
    UNKNOWN/UNKNOWN.  On a snapshot of such records, a scan of two tokens
    other than UNKNOWN finds no sandwich, front-run, back-run or copycat,
    answers the attack type none and a risk score between 3 and 27, which
    is the level low. *)
Theorem live_scan_is_quiet (m : MempoolData) (pool : Server.PoolData)
    (h : Detectors.History) (input : Server.ScanRequest) :
  allUnknown (competingTxs m) ->
  no_sep "/" (Server.req_token_in input) ->
  no_sep "/" (Server.req_token_out input) ->
  Server.req_token_in input <> "UNKNOWN"%string ->
  Server.req_token_out input <> "UNKNOWN"%string ->
  let ps := PatternAnalyzer.analyzePatterns m (Server.asUserTx input) in
  PatternAnalyzer.detected (PatternAnalyzer.pat_sandwich ps) = false /\
  PatternAnalyzer.detected (PatternAnalyzer.pat_frontrun ps) = false /\
  PatternAnalyzer.detected (PatternAnalyzer.pat_backrun ps) = false /\
  PatternAnalyzer.detected (PatternAnalyzer.pat_copycat ps) = false /\
  Server.attack_type (Server.assess m pool h input) = "none"%string /\
  (3 <= Server.risk_score (Server.assess m pool h input) <= 27)%Z /\
  Utils.getRiskLevel (Server.risk_score (Server.assess m pool h input))
  = "low"%string.
Proof.
  intros Hall Hi Ho Ni No ps.
  set (u := Server.asUserTx input).
  destruct (live_patterns_silent m u Hall Hi Ho Ni No) as (Ps & Pf & Pb & Pc).
  destruct (live_legacy_silent m u Hall Hi Ho Ni No) as (Ls & Lf & Lc).
  assert (Hagg : (0 <= PatternAnalyzer.aggregateRisk
                         (PatternAnalyzer.analyzeMEVPatterns m u) <= 3)%Z).
  { apply jit_only_aggregate; try assumption. apply jit_confidence_le. }
  pose proof (assess_quiet_bounds m pool h input 3 Ls Lf Hagg) as Hscore.
  change (Qfloor ((6 # 10) * inject_Z 3 + (252 # 10))) with 27%Z in Hscore.
  repeat split; try assumption; try apply Hscore.
  - unfold Server.assess. cbn [Server.attack_type].
    fold u. unfold Server.determineAttackType, Server.passes.
    cbn [PatternAnalyzer.patterns PatternAnalyzer.analyzeMEVPatterns
         PatternAnalyzer.analyzePatterns PatternAnalyzer.pat_sandwich
         PatternAnalyzer.pat_copycat PatternAnalyzer.pat_frontrun
         PatternAnalyzer.pat_backrun PatternAnalyzer.pat_jit].
    rewrite Ps, Pf, Pb, Pc. cbn [andb].
    pose proof (jit_never_passes m u) as Hj. unfold Server.passes in Hj.
    rewrite Hj, Lc, Ls, Lf. reflexivity.
  - unfold Utils.getRiskLevel.
    repeat match goal with
           | |- context [(?a <=? ?b)%Z] =>
               destruct (Z.leb_spec a b); try lia
           end.
    reflexivity.
Qed.

Lemma live_scan_is_quiet_witness :
  Server.attack_type
    (Server.assess Sample.buffered Scenario.pool Scenario.quietHistory
       Sample.liveRequest) = "none"%string /\
  (3 <= Server.risk_score
          (Server.assess Sample.buffered Scenario.pool Scenario.quietHistory
             Sample.liveRequest) <= 27)%Z.
Proof.
  assert (Hall : allUnknown (competingTxs Sample.buffered))
    by (repeat constructor).
  assert (Hi : no_sep "/" (Server.req_token_in Sample.liveRequest))
    by (simpl; repeat split).
  assert (Ho : no_sep "/" (Server.req_token_out Sample.liveRequest))
    by (simpl; repeat split).
  assert (Ni : Server.req_token_in Sample.liveRequest <> "UNKNOWN"%string)
    by discriminate.
  assert (No : Server.req_token_out Sample.liveRequest <> "UNKNOWN"%string)
    by discriminate.
  destruct (live_scan_is_quiet Sample.buffered Scenario.pool
              Scenario.quietHistory Sample.liveRequest Hall Hi Ho Ni No)
    as (_ & _ & _ & _ & Ht & Hs & _).
  split; assumption.
Defined.

(** ** What the detectors and the classification never do *)

Lemma legacy_types (u : UserTx) (m : MempoolData) :
  In (Detectors.type (Detectors.detectSandwich u m))
     ["none"; "sandwich"; "potential-sandwich"]%string /\
  In (Detectors.type (Detectors.detectFrontRun u m)) ["none"; "front-run"]%string.
Proof.
  unfold Detectors.detectSandwich, Detectors.detectFrontRun. split.
  - repeat match goal with
           | |- context [match filter ?f ?l with _ => _ end] =>
               destruct (filter f l)
           end; cbn [Detectors.type]; simpl; auto.
  - repeat match goal with
           | |- context [match filter ?f ?l with _ => _ end] =>
               destruct (filter f l)
           end; cbn [Detectors.type]; simpl; auto.
Qed.

(** No scan is ever classified jit-liquidity: the detector's fixed
    confidence 0.6 does not exceed the threshold 0.6, and the legacy
    detectors have no such label. *)
Theorem never_jit_liquidity (m : MempoolData) (pool : Server.PoolData)
    (h : Detectors.History) (input : Server.ScanRequest) :
  Server.attack_type (Server.assess m pool h input) <> "jit-liquidity"%string
  /\ In (Server.attack_type (Server.assess m pool h input))
        ["sandwich"; "copycat-frontrun"; "front-run"; "back-run"; "none";
         "potential-sandwich"]%string.
Proof.
  assert (H : In (Server.attack_type (Server.assess m pool h input))
                ["sandwich"; "copycat-frontrun"; "front-run"; "back-run"; "none";
                 "potential-sandwich"]%string).
  { unfold Server.assess. cbn [Server.attack_type].
    set (u := Server.asUserTx input).
    unfold Server.determineAttackType.
    cbn [PatternAnalyzer.patterns PatternAnalyzer.analyzeMEVPatterns
         PatternAnalyzer.analyzePatterns PatternAnalyzer.pat_sandwich
         PatternAnalyzer.pat_copycat PatternAnalyzer.pat_frontrun
         PatternAnalyzer.pat_backrun PatternAnalyzer.pat_jit].
    rewrite (jit_never_passes m u).
    destruct (legacy_types u m) as [Hs Hf].
    repeat match goal with
           | |- In (if ?b then _ else _) _ => destruct b
           end; simpl; auto.
    - simpl in Hs. intuition auto.
    - simpl in Hf. intuition auto. }
  split; [|exact H].
  intros E. rewrite E in H. simpl in H.
  repeat (destruct H as [H|H]; [discriminate H|]). exact H.
Qed.

(** Scenario A.  On a snapshot without competing transactions no
    detector fires, the aggregate is 0, the attack type is none and the
    server's score is between 3 and 25. *)
Theorem empty_snapshot_is_quiet (m : MempoolData) (pool : Server.PoolData)
    (h : Detectors.History) (input : Server.ScanRequest) (u : UserTx) :
  competingTxs m = [] ->
  PatternAnalyzer.analyzePatterns m u
  = {| PatternAnalyzer.pat_sandwich := PatternAnalyzer.notDetected;
       PatternAnalyzer.pat_frontrun := PatternAnalyzer.notDetected;
       PatternAnalyzer.pat_backrun := PatternAnalyzer.notDetected;
       PatternAnalyzer.pat_copycat := PatternAnalyzer.notDetected;
       PatternAnalyzer.pat_jit := PatternAnalyzer.notDetected |} /\
  PatternAnalyzer.aggregateRisk (PatternAnalyzer.analyzeMEVPatterns m u) = 0%Z /\
  Server.attack_type (Server.assess m pool h input) = "none"%string /\
  (3 <= Server.risk_score (Server.assess m pool h input) <= 25)%Z.
Proof.
  intros He.
  assert (Hps : forall u', PatternAnalyzer.analyzePatterns m u'
    = {| PatternAnalyzer.pat_sandwich := PatternAnalyzer.notDetected;
         PatternAnalyzer.pat_frontrun := PatternAnalyzer.notDetected;
         PatternAnalyzer.pat_backrun := PatternAnalyzer.notDetected;
         PatternAnalyzer.pat_copycat := PatternAnalyzer.notDetected;
         PatternAnalyzer.pat_jit := PatternAnalyzer.notDetected |}).
  { intros u'. unfold PatternAnalyzer.analyzePatterns,
      PatternAnalyzer.detectSandwichPattern, PatternAnalyzer.detectFrontrunPattern,
      PatternAnalyzer.detectBackrunPattern, PatternAnalyzer.detectCopycatPattern,
      PatternAnalyzer.detectJITLiquidityPattern.
    rewrite He. reflexivity. }
  assert (Hagg : forall u', PatternAnalyzer.aggregateRisk
                   (PatternAnalyzer.analyzeMEVPatterns m u') = 0%Z).
  { intros u'. unfold PatternAnalyzer.analyzeMEVPatterns.
    cbn [PatternAnalyzer.aggregateRisk]. rewrite Hps. reflexivity. }
  assert (Ls : Detectors.detectSandwich (Server.asUserTx input) m
               = {| Detectors.score := 10; Detectors.type := "none" |})
    by (unfold Detectors.detectSandwich; rewrite He; reflexivity).
  assert (Lf : Detectors.detectFrontRun (Server.asUserTx input) m
               = {| Detectors.score := 5; Detectors.type := "none" |})
    by (unfold Detectors.detectFrontRun; rewrite He; reflexivity).
  split; [apply Hps|]. split; [apply Hagg|]. split.
  - unfold Server.assess. cbn [Server.attack_type].
    unfold PatternAnalyzer.analyzeMEVPatterns. cbn [PatternAnalyzer.patterns].
    rewrite Hps, Ls, Lf. unfold Detectors.detectCopycat. rewrite He.
    reflexivity.
  - assert (H0 : (0 <= PatternAnalyzer.aggregateRisk
                         (PatternAnalyzer.analyzeMEVPatterns m
                            (Server.asUserTx input)) <= 0)%Z)
      by (rewrite Hagg; lia).
    exact (assess_quiet_bounds m pool h input 0 Ls Lf H0).
Qed.

Lemma empty_snapshot_is_quiet_witness :
  Server.attack_type
    (Server.assess (Scenario.snapshot_of []) Scenario.pool
       Scenario.quietHistory Scenario.request) = "none"%string.
Proof.
  apply (empty_snapshot_is_quiet (Scenario.snapshot_of []) Scenario.pool
           Scenario.quietHistory Scenario.request (Scenario.trade_AB None)).
  reflexivity.
Defined.

(** ** Confidence values *)

Lemma len_succ {A} (x : A) (l : list A) :
  PatternAnalyzer.len (x :: l) == PatternAnalyzer.len l + 1.
Proof.
  unfold PatternAnalyzer.len. cbn [List.length].
  rewrite Nat2Z.inj_succ, <- Z.add_1_r, inject_Z_plus. reflexivity.
Qed.

Lemma fold_plus_above (c : Q) (l : list Q) :
  Forall (fun x => c < x) l -> l <> [] ->
  forall acc, acc + c * PatternAnalyzer.len l < fold_left Qplus l acc.
Proof.
  induction 1 as [|x l Hx Hl IH]; intros Hne acc; [congruence|].
  cbn [fold_left]. rewrite len_succ.
  destruct l as [|y l'].
  - cbn [fold_left]. unfold PatternAnalyzer.len. simpl List.length.
    change (inject_Z (Z.of_nat 0)) with 0. lra.
  - assert (Hne' : y :: l' <> []) by discriminate.
    specialize (IH Hne' (acc + x)). lra.
Qed.

Lemma fold_plus_below (c : Q) (l : list Q) :
  Forall (fun x => x < c) l -> l <> [] ->
  forall acc, fold_left Qplus l acc < acc + c * PatternAnalyzer.len l.
Proof.
  induction 1 as [|x l Hx Hl IH]; intros Hne acc; [congruence|].
  cbn [fold_left]. rewrite len_succ.
  destruct l as [|y l'].
  - cbn [fold_left]. unfold PatternAnalyzer.len. simpl List.length.
    change (inject_Z (Z.of_nat 0)) with 0. lra.
  - assert (Hne' : y :: l' <> []) by discriminate.
    specialize (IH Hne' (acc + x)). lra.
Qed.

Lemma len_map {A B} (f : A -> B) (l : list A) :
  PatternAnalyzer.len (map f l) = PatternAnalyzer.len l.
Proof. unfold PatternAnalyzer.len. rewrite length_map. reflexivity. Qed.

Lemma avgGas_above (c : Q) (txs : list Tx) :
  txs <> [] -> Forall (fun tx => c < gasPrice tx) txs ->
  c < PatternAnalyzer.avgGas txs.
Proof.
  intros Hne Hall. unfold PatternAnalyzer.avgGas, JS.sum.
  fold (PatternAnalyzer.len txs).
  assert (Hpos : 0 < PatternAnalyzer.len txs).
  { destruct txs as [|t l]; [congruence|]. pose proof (len_cons t l). lra. }
  apply Qlt_shift_div_l; [exact Hpos|].
  assert (Hm : Forall (fun x => c < x) (map gasPrice txs))
    by (apply Forall_map; exact Hall).
  assert (Hne' : map gasPrice txs <> [])
    by (destruct txs; [congruence|discriminate]).
  pose proof (fold_plus_above c _ Hm Hne' 0) as H.
  rewrite len_map in H. lra.
Qed.

Lemma avgGas_below (c : Q) (txs : list Tx) :
  txs <> [] -> Forall (fun tx => gasPrice tx < c) txs ->
  PatternAnalyzer.avgGas txs < c.
Proof.
  intros Hne Hall. unfold PatternAnalyzer.avgGas, JS.sum.
  fold (PatternAnalyzer.len txs).
  assert (Hpos : 0 < PatternAnalyzer.len txs).
  { destruct txs as [|t l]; [congruence|]. pose proof (len_cons t l). lra. }
  apply Qlt_shift_div_r; [exact Hpos|].
  assert (Hm : Forall (fun x => x < c) (map gasPrice txs))
    by (apply Forall_map; exact Hall).
  assert (Hne' : map gasPrice txs <> [])
    by (destruct txs; [congruence|discriminate]).
  pose proof (fold_plus_below c _ Hm Hne' 0) as H.
  rewrite len_map in H. lra.
Qed.

(** With a positive caller price the sandwich detector knows one
    confidence only: whenever it fires the ordering bonus applies (every
    front-runner is above the caller's price and every back-runner below
    it), the sum reaches the cap and the confidence is 1. *)
Theorem sandwich_confidence_is_one (m : MempoolData) (u : UserTx) :
  0 < userGasPriceOf m u ->
  PatternAnalyzer.detected (PatternAnalyzer.detectSandwichPattern m u) = true ->
  PatternAnalyzer.confidence (PatternAnalyzer.detectSandwichPattern m u) == 1.
Proof.
  intros Hg. unfold PatternAnalyzer.detectSandwichPattern.
  set (g := userGasPriceOf m u) in *.
  destruct (competingTxs m) as [|t0 txs]; [discriminate|].
  set (F := filter (PatternAnalyzer.isFrontRunner g u) (t0 :: txs)).
  set (B := filter (PatternAnalyzer.isBackRunner g u) (t0 :: txs)).
  cbn [PatternAnalyzer.detected PatternAnalyzer.confidence].
  intros Hd. rewrite Hd. apply andb_true_iff in Hd. destruct Hd as [HF HB].
  apply nonEmpty_true in HF. apply nonEmpty_true in HB.
  assert (HFall : Forall (fun tx => g < gasPrice tx) F).
  { apply Forall_forall. intros tx Hin. apply filter_In in Hin.
    destruct Hin as [_ Hin]. apply isFrontRunner_true in Hin. lra. }
  assert (HBall : Forall (fun tx => gasPrice tx < g) B).
  { apply Forall_forall. intros tx Hin. apply filter_In in Hin.
    destruct Hin as [_ Hin]. apply isBackRunner_true in Hin. lra. }
  assert (Hord : PatternAnalyzer.checkGasOrdering F B g = true).
  { unfold PatternAnalyzer.checkGasOrdering.
    destruct F as [|f F'] eqn:EF; [congruence|].
    destruct B as [|b B'] eqn:EB; [congruence|].
    apply andb_true_iff. split; apply gt_true.
    - apply avgGas_above; assumption.
    - apply avgGas_below; assumption. }
  rewrite Hord.
  assert (1 <= PatternAnalyzer.len F)
    by (destruct F; [congruence|apply len_cons]).
  assert (1 <= PatternAnalyzer.len B)
    by (destruct B; [congruence|apply len_cons]).
  apply Q.min_r. lra.
Qed.

Lemma sandwich_confidence_is_one_witness :
  PatternAnalyzer.confidence
    (PatternAnalyzer.detectSandwichPattern Scenario.reversed
       (Scenario.trade_AB (Some 50))) == 1.
Proof.
  apply sandwich_confidence_is_one.
  - simpl. unfold Qlt. simpl. lia.
  - reflexivity.
Defined.

(** Every detector reports a confidence between 0 and 1 (the front-run
    detector for a caller's price that is not negative), and 0 when it did
    not fire. *)
Theorem detector_confidence_range (m : MempoolData) (u : UserTx)
    (d : PatternAnalyzer.Detection) :
  0 <= userGasPriceOf m u ->
  In d [ PatternAnalyzer.detectSandwichPattern m u;
         PatternAnalyzer.detectFrontrunPattern m u;
         PatternAnalyzer.detectBackrunPattern m u;
         PatternAnalyzer.detectCopycatPattern m u;
         PatternAnalyzer.detectJITLiquidityPattern m u ] ->
  0 <= PatternAnalyzer.confidence d <= 1 /\
  (PatternAnalyzer.detected d = false -> PatternAnalyzer.confidence d = 0) /\
  (PatternAnalyzer.detected d = true -> PatternAnalyzer.matched d <> []).
Proof.
  intros Hg Hd.
  destruct Hd as [<-|[<-|[<-|[<-|[<-|[]]]]]]; (split; [|split]).
  - apply sandwich_confidence_range.
  - unfold PatternAnalyzer.detectSandwichPattern.
    destruct (competingTxs m); [reflexivity|].
    cbn [PatternAnalyzer.detected PatternAnalyzer.confidence].
    intros ->. reflexivity.
  - unfold PatternAnalyzer.detectSandwichPattern.
    destruct (competingTxs m); [discriminate|].
    cbn [PatternAnalyzer.detected PatternAnalyzer.matched].
    intros H. apply andb_true_iff in H. apply nonEmpty_true, H.
  - apply frontrun_confidence_range, Hg.
  - unfold PatternAnalyzer.detectFrontrunPattern.
    destruct (competingTxs m) as [|t0 txs]; [reflexivity|].
    cbn [PatternAnalyzer.detected PatternAnalyzer.confidence].
    destruct (filter _ (t0 :: txs)); [reflexivity|discriminate].
  - unfold PatternAnalyzer.detectFrontrunPattern.
    destruct (competingTxs m); [discriminate|].
    cbn [PatternAnalyzer.detected PatternAnalyzer.matched].
    apply nonEmpty_true.
  - apply backrun_confidence_range.
  - unfold PatternAnalyzer.detectBackrunPattern.
    destruct (competingTxs m); [reflexivity|].
    cbn [PatternAnalyzer.detected PatternAnalyzer.confidence].
    intros ->. reflexivity.
  - unfold PatternAnalyzer.detectBackrunPattern.
    destruct (competingTxs m); [discriminate|].
    cbn [PatternAnalyzer.detected PatternAnalyzer.matched].
    apply nonEmpty_true.
  - apply copycat_confidence_range.
  - unfold PatternAnalyzer.detectCopycatPattern.
    destruct (competingTxs m); [reflexivity|].
    cbn [PatternAnalyzer.detected PatternAnalyzer.confidence].
    intros ->. reflexivity.
  - unfold PatternAnalyzer.detectCopycatPattern.
    destruct (competingTxs m); [discriminate|].
    cbn [PatternAnalyzer.detected PatternAnalyzer.matched].
    apply nonEmpty_true.
  - apply jit_confidence_range.
  - unfold PatternAnalyzer.detectJITLiquidityPattern.
    destruct (competingTxs m); [reflexivity|].
    cbn [PatternAnalyzer.detected PatternAnalyzer.confidence].
    intros ->. reflexivity.
  - unfold PatternAnalyzer.detectJITLiquidityPattern.
    destruct (competingTxs m); [discriminate|].
    cbn [PatternAnalyzer.detected PatternAnalyzer.matched].
    apply nonEmpty_true.
Qed.

Lemma detector_confidence_range_witness :
  0 <= PatternAnalyzer.confidence
         (PatternAnalyzer.detectFrontrunPattern Scenario.frontRunOnly
            (Scenario.trade_AB (Some 50))) <= 1.
Proof.
  apply (detector_confidence_range Scenario.frontRunOnly
           (Scenario.trade_AB (Some 50))).
  - simpl. unfold Qle. simpl. lia.
  - right. left. reflexivity.
Defined.

(** ** The buffer and the records of the stream *)

Lemma firstn_app_firstn {A} (k : nat) (l : list A) (front : list A) :
  forall n, (n <= k)%nat ->
    firstn n (front ++ firstn k l) = firstn n (front ++ l).
Proof.
  induction front as [|y ys IH]; intros n Hn; cbn [app].
  - rewrite firstn_firstn. rewrite Nat.min_l by exact Hn. reflexivity.
  - destruct n as [|n]; [reflexivity|]. cbn [firstn]. f_equal.
    apply IH. lia.
Qed.

(** The buffer is newest first: after any trace it holds the records the
    trace inserted, the last one at the head, followed by the older ones,
    cut off at 100. *)
Theorem buffer_holds_newest_first (events : list Event) :
  forall s,
    (List.length (transactions (pendingTxCache s)) <= 100)%nat ->
    transactions (pendingTxCache (fst (run s events)))
    = firstn 100 (rev (inserted events) ++ transactions (pendingTxCache s)).
Proof.
  induction events as [|e events IH]; intros s Hs.
  - change (transactions (pendingTxCache s)
            = firstn 100 (transactions (pendingTxCache s))).
    symmetry. apply firstn_all2. exact Hs.
  - cbn [run]. destruct (handle s e) as [s1 out1] eqn:Eh.
    specialize (IH s1). destruct (run s1 events) as [s2 out2].
    cbn [fst] in *.
    destruct e as [| | |tx now]; cbn [handle] in Eh.
    + injection Eh as <- _. apply IH. exact Hs.
    + injection Eh as <- _. apply IH. exact Hs.
    + unfold onClose in Eh.
      destruct (reconnectAttempts s <? MAX_RECONNECT_ATTEMPTS)%nat;
        injection Eh as <- _; apply IH; exact Hs.
    + injection Eh as <- _. cbn [pendingTxCache] in IH.
      rewrite addToPendingCache_firstn in IH.
      rewrite IH by apply firstn_le_length.
      change (inserted (PendingTx tx now :: events)) with (tx :: inserted events).
      cbn [rev]. rewrite <- app_assoc. cbn [app].
      unfold MAX_CACHED_TXS. apply firstn_app_firstn. lia.
Qed.

Lemma buffer_holds_newest_first_witness :
  transactions
    (pendingTxCache
       (fst (run initialState
               [ Open; PendingTx (Scenario.tx_of "0x01" 30 "UNKNOWN/UNKNOWN") 1000;
                 PendingTx (Scenario.tx_of "0x02" 31 "UNKNOWN/UNKNOWN") 2000 ])))
  = [ Scenario.tx_of "0x02" 31 "UNKNOWN/UNKNOWN";
      Scenario.tx_of "0x01" 30 "UNKNOWN/UNKNOWN" ].
Proof.
  rewrite buffer_holds_newest_first by (simpl; lia).
  reflexivity.
Defined.

Import Subscriber.

(** What one notification does to the subscriber: a lookup that fails or
    finds nothing, a transaction without recipient and one that is no swap
    change nothing; otherwise the processed record, with the pair
    UNKNOWN/UNKNOWN, goes to the head of the buffer.  The connection state
    and the retry counter are never touched. *)
Theorem processPendingTransaction_spec (lookup : Result (option ChainTx))
    (now : Z) (s : State) :
  let s' := processPendingTransaction lookup now s in
  reconnectAttempts s' = reconnectAttempts s /\
  isConnected (pendingTxCache s') = isConnected (pendingTxCache s) /\
  ((exists tx, lookup = Ok (Some tx) /\ isDexTransaction tx = true /\
               c_to tx <> ""%string /\
               transactions (pendingTxCache s')
               = firstn 100 (processedTx tx :: transactions (pendingTxCache s)) /\
               tokenPair (processedTx tx) = "UNKNOWN/UNKNOWN"%string /\
               lastUpdate (pendingTxCache s') = now)
   \/ (s' = s /\
       forall tx, lookup = Ok (Some tx) ->
                  isDexTransaction tx = false)).
Proof.
  unfold processPendingTransaction.
  destruct lookup as [[tx|]|msg]; cbn [bind try_catch].
  - destruct (isDexTransaction tx) eqn:Ed; cbn [try_catch].
    + split; [reflexivity|]. split; [reflexivity|]. left.
      exists tx. repeat split; try assumption.
      * intros E. unfold isDexTransaction in Ed. rewrite E in Ed. discriminate.
      * cbn [onPendingTx fst pendingTxCache].
        apply addToPendingCache_firstn.
    + split; [reflexivity|]. split; [reflexivity|]. right.
      split; [reflexivity|]. intros tx' E. injection E as <-. exact Ed.
  - repeat split; try reflexivity. right. split; [reflexivity|].
    intros tx E. discriminate.
  - repeat split; try reflexivity. right. split; [reflexivity|].
    intros tx E. discriminate.
Qed.

Example router_address_in_capitals :
  isDexTransaction Sample.routerSwap = true.
Proof. reflexivity. Qed.

Lemma allUnknown_firstn (n : nat) (l : list Tx) :
  allUnknown l -> allUnknown (firstn n l).
Proof.
  unfold allUnknown. intros H.
  rewrite <- (firstn_skipn n l) in H. apply Forall_app in H. apply H.
Qed.

Lemma live_invariant (history : list Step) :
  forall s,
    allUnknown (transactions (pendingTxCache s)) ->
    (List.length (transactions (pendingTxCache s)) <= 100)%nat ->
    allUnknown (transactions (pendingTxCache (live history s))) /\
    (List.length (transactions (pendingTxCache (live history s))) <= 100)%nat.
Proof.
  induction history as [|st history IH]; intros s Hu Hl.
  - split; assumption.
  - unfold live. cbn [fold_left]. apply IH.
    + destruct st as [| | |lookup now]; cbn [step].
      * exact Hu.
      * exact Hu.
      * unfold onClose.
        destruct (reconnectAttempts s <? MAX_RECONNECT_ATTEMPTS)%nat; exact Hu.
      * destruct (processPendingTransaction_spec lookup now s)
          as (_ & _ & [(tx & _ & _ & _ & Ht & Hp & _)|[-> _]]); [|exact Hu].
        rewrite Ht. apply allUnknown_firstn. constructor; assumption.
    + destruct st as [| | |lookup now]; cbn [step].
      * exact Hl.
      * exact Hl.
      * unfold onClose.
        destruct (reconnectAttempts s <? MAX_RECONNECT_ATTEMPTS)%nat; exact Hl.
      * destruct (processPendingTransaction_spec lookup now s)
          as (_ & _ & [(tx & _ & _ & _ & Ht & _)|[-> _]]); [|exact Hl].
        rewrite Ht. apply firstn_le_length.
Qed.

(** Whatever the stream delivers, the buffer the subscriber builds from
    its empty start holds at most 100 records, all with the pair
    UNKNOWN/UNKNOWN, and so does every snapshot read from it: by
    [live_scan_is_quiet] no scan of real tokens finds a pattern in it. *)
Theorem stream_records_are_unknown (history : list Step)
    (tokenIn tokenOut : string) (now : Z) (snapshot : MempoolData) :
  let ws := pendingTxCache (live history initialState) in
  (List.length (transactions ws) <= 100)%nat /\
  allUnknown (transactions ws) /\
  (fetchFromWebSocketCache ws tokenIn tokenOut now = Some snapshot ->
   allUnknown (competingTxs snapshot) /\
   (Server.congestionScore snapshot <= 20)%Z).
Proof.
  intros ws.
  destruct (live_invariant history initialState) as [Hu Hl];
    [constructor|simpl; lia|].
  fold ws in Hu, Hl.
  split; [exact Hl|]. split; [exact Hu|].
  intros H. unfold fetchFromWebSocketCache in H.
  destruct (negb (cp_isRealTime (getCachedPendingTransactions ws now))) eqn:E;
    [discriminate|].
  injection H as <-. cbn [competingTxs]. split.
  - rewrite read_is_prefix.
    destruct (CACHE_TTL <? now - lastUpdate ws)%Z; [constructor|].
    apply allUnknown_firstn. exact Hu.
  - unfold Server.congestionScore. cbn [pendingTxCount].
    unfold getCachedPendingTransactions.
    destruct (CACHE_TTL <? now - lastUpdate ws)%Z; cbn [cp_totalCached option_map];
      [lia|].
    repeat match goal with
           | |- context [(?a <? ?b)%Z] => destruct (Z.ltb_spec a b); try lia
           | |- context [(?a =? ?b)%Z] => destruct (Z.eqb_spec a b); try lia
           end.
Qed.

Lemma stream_records_are_unknown_witness :
  exists snapshot,
    fetchFromWebSocketCache
      (pendingTxCache
         (live [Opened; Notified (Ok (Some Sample.routerSwap)) 9500]
               initialState))
      "WETH" "USDC" 10000 = Some snapshot /\
    allUnknown (competingTxs snapshot) /\
    List.length (competingTxs snapshot) = 1%nat.
Proof.
  eexists. split; [reflexivity|]. split.
  - apply (stream_records_are_unknown
             [Opened; Notified (Ok (Some Sample.routerSwap)) 9500]
             "WETH" "USDC" 10000).
    reflexivity.
  - reflexivity.
Defined.

(** ** The competitors the Ethereum RPC strategy reports *)

Lemma analyzeOne_shape (pair : string) (g : GasPriceField) (tx : RawTx) (r : Tx) :
  analyzeOne pair g tx = Some r ->
  tokenPair r = "UNKNOWN/UNKNOWN"%string /\ hash r = raw_hash tx /\
  isLikelySwapTransaction tx = true /\ g <> NotInteger /\
  (String.eqb "UNKNOWN/UNKNOWN" pair || isRelatedPair "UNKNOWN/UNKNOWN" pair) = true.
Proof.
  unfold analyzeOne, extractTokenPair.
  destruct (isLikelySwapTransaction tx); cbn [try_catch]; [|discriminate].
  destruct (String.eqb "UNKNOWN/UNKNOWN" pair || isRelatedPair "UNKNOWN/UNKNOWN" pair);
    cbn [try_catch]; [|discriminate].
  destruct g as [| |n]; cbn [isSuspiciousTransaction bind try_catch].
  - intros H. injection H as <-. repeat split. discriminate.
  - discriminate.
  - destruct (n =? 0)%Z; cbn [bind try_catch]; intros H; injection H as <-;
      repeat split; discriminate.
Qed.

Lemma keep_some_length {A} (l : list (option A)) :
  (List.length (keep_some l) <= List.length l)%nat.
Proof.
  induction l as [|[x|] l IH]; simpl; lia.
Qed.

Lemma keep_some_In {A} (l : list (option A)) (x : A) :
  In x (keep_some l) -> In (Some x) l.
Proof.
  induction l as [|[y|] l IH]; simpl; [tauto| |].
  - intros [->|H]; auto.
  - intros H. auto.
Qed.

Lemma keep_some_nil {A} (l : list (option A)) :
  (forall o, In o l -> o = None) -> keep_some l = [].
Proof.
  induction l as [|[y|] l IH]; intros H; simpl; [reflexivity| |].
  - specialize (H (Some y) (or_introl eq_refl)). discriminate.
  - apply IH. intros o Ho. apply H. right. exact Ho.
Qed.

(** The competitors [analyzePendingTransactions] reports are swaps of
    the pending list, each with the pair UNKNOWN/UNKNOWN, and never more
    than the list holds.  There are none at all when neither token of the
    trade is the text UNKNOWN, and none when the caller's gas price is no
    integer literal: [BigInt] then throws for every swap and the loop
    skips it. *)
Theorem analyzePendingTransactions_spec (pendingTxs : list RawTx)
    (tokenIn tokenOut : string) (g : GasPriceField) :
  let competing := analyzePendingTransactions pendingTxs tokenIn tokenOut g in
  allUnknown competing /\
  (List.length competing <= List.length pendingTxs)%nat /\
  (forall r, In r competing ->
     exists tx, In tx pendingTxs /\ hash r = raw_hash tx /\
                isLikelySwapTransaction tx = true) /\
  (g = NotInteger -> competing = []) /\
  (no_sep "/" tokenIn -> no_sep "/" tokenOut ->
   tokenIn <> "UNKNOWN"%string -> tokenOut <> "UNKNOWN"%string ->
   competing = []).
Proof.
  intros competing. subst competing. unfold analyzePendingTransactions.
  split; [|split; [|split; [|split]]].
  - apply Forall_forall. intros r Hr. apply keep_some_In in Hr.
    apply in_map_iff in Hr. destruct Hr as [tx [Hr _]].
    apply (analyzeOne_shape _ _ _ _ Hr).
  - eapply Nat.le_trans; [apply keep_some_length|]. rewrite length_map. lia.
  - intros r Hr. apply keep_some_In in Hr.
    apply in_map_iff in Hr. destruct Hr as [tx [Hr Hin]].
    exists tx. destruct (analyzeOne_shape _ _ _ _ Hr) as (_ & Hh & Hs & _).
    repeat split; assumption.
  - intros ->. apply keep_some_nil. intros o Ho.
    apply in_map_iff in Ho. destruct Ho as [tx [<- _]].
    destruct (analyzeOne _ NotInteger tx) as [r|] eqn:E; [|reflexivity].
    destruct (analyzeOne_shape _ _ _ _ E) as (_ & _ & _ & Hg & _). congruence.
  - intros Hi Ho Ni No. apply keep_some_nil. intros o Hin.
    apply in_map_iff in Hin. destruct Hin as [tx [<- _]].
    destruct (analyzeOne _ g tx) as [r|] eqn:E; [|reflexivity].
    destruct (analyzeOne_shape _ _ _ _ E) as (_ & _ & _ & _ & Hrel).
    pose (u := {| token_in := tokenIn; token_out := tokenOut; amount_in := 0;
                  u_gasPrice := None; wallet_address := "" |}).
    destruct (unknown_pair_unrelated u Hi Ho Ni No) as (_ & H1 & H2).
    unfold userPair in H1, H2. cbn [token_in token_out u] in H1, H2.
    rewrite H1, H2 in Hrel. discriminate.
Qed.

Lemma analyzePendingTransactions_spec_witness :
  analyzePendingTransactions Sample.pendingSwaps "WETH" "USDC" Missing = [] /\
  List.length
    (analyzePendingTransactions Sample.pendingSwaps "UNKNOWN" "USDC" Missing)
  = 2%nat /\
  analyzePendingTransactions Sample.pendingSwaps "UNKNOWN" "USDC" NotInteger = [].
Proof.
  split; [|split].
  - assert (Hi : no_sep "/" "WETH") by (simpl; repeat split).
    assert (Ho : no_sep "/" "USDC") by (simpl; repeat split).
    destruct (analyzePendingTransactions_spec Sample.pendingSwaps "WETH" "USDC"
                Missing) as (_ & _ & _ & _ & H).
    apply H; try assumption; discriminate.
  - reflexivity.
  - destruct (analyzePendingTransactions_spec Sample.pendingSwaps "UNKNOWN"
                "USDC" NotInteger) as (_ & _ & _ & H & _).
    apply H. reflexivity.
Defined.

(** ** The cache table *)

(** A lookup answers only from a row of the asked pair that is younger
    than 3 seconds, and answers whenever there is one. *)
Theorem getCachedMempoolData_sound (db : Db) (now : Z) (pair : string) :
  (forall d, getCachedMempoolData db now pair = Some d ->
     exists row, In row db /\ token_pair row = pair /\ data row = d /\
                 (seconds now - 3 < cached_at row)%Z /\
                 forall other, In other db -> token_pair other = pair ->
                               (cached_at other <= cached_at row)%Z)
  /\ (getCachedMempoolData db now pair = None <->
      forall row, In row db -> token_pair row = pair ->
                  (cached_at row <= seconds now - 3)%Z).
Proof.
  unfold getCachedMempoolData. split.
  - intros d H.
    destruct (newest (filter (fresh pair (seconds now - 3)) db)) as [r|] eqn:E;
      [|discriminate].
    injection H as <-. destruct (newest_is_max _ r E) as [Hin Hmax].
    apply filter_In in Hin. destruct Hin as [Hin Hf].
    unfold fresh in Hf. apply andb_true_iff in Hf. destruct Hf as [Hp Ht].
    apply String.eqb_eq in Hp. apply Z.ltb_lt in Ht.
    exists r. repeat split; try assumption.
    intros other Ho Hpo.
    destruct (Z.lt_ge_cases (seconds now - 3) (cached_at other)) as [Hlt|Hge].
    + apply Hmax. apply filter_In. split; [exact Ho|]. unfold fresh.
      rewrite Hpo, String.eqb_refl. simpl. apply Z.ltb_lt. exact Hlt.
    + lia.
  - split.
    + intros H row Hin Hp.
      destruct (newest (filter (fresh pair (seconds now - 3)) db)) eqn:E;
        [discriminate|].
      apply newest_none in E.
      destruct (Z.lt_ge_cases (seconds now - 3) (cached_at row)) as [Hlt|Hge];
        [|exact Hge].
      assert (Hf : In row (filter (fresh pair (seconds now - 3)) db)).
      { apply filter_In. split; [exact Hin|]. unfold fresh.
        rewrite Hp, String.eqb_refl. simpl. apply Z.ltb_lt. exact Hlt. }
      rewrite E in Hf. destruct Hf.
    + intros H. rewrite (filter_none (fresh pair (seconds now - 3))); [reflexivity|].
      intros row Hin. unfold fresh.
      destruct (String.eqb (token_pair row) pair) eqn:Ep; [|reflexivity].
      apply String.eqb_eq in Ep. specialize (H row Hin Ep).
      simpl. apply Z.ltb_ge. exact H.
Qed.

(** Insert, then look up.  On a table without rows from the future, a
    snapshot written for a pair is what a lookup of that pair returns for
    the next 3 seconds (by the clock in whole seconds), whatever older
    rows the pair has. *)
Theorem lookup_after_insert (db : Db) (now now' : Z) (pair : string)
    (d : MempoolData) :
  Forall (fun row => (cached_at row <= seconds now)%Z) db ->
  (now <= now')%Z -> (seconds now' - seconds now < 3)%Z ->
  getCachedMempoolData (cacheMempoolData db now pair d) now' pair = Some d.
Proof.
  intros Hwf Hnow Httl. unfold getCachedMempoolData, cacheMempoolData.
  rewrite filter_app. cbn [filter]. unfold fresh at 2.
  cbn [token_pair cached_at]. rewrite String.eqb_refl.
  assert (E : (seconds now' - 3 <? seconds now)%Z = true)
    by (apply Z.ltb_lt; lia).
  rewrite E. cbn [andb]. rewrite newest_snoc.
  destruct (newest _) as [b|] eqn:Eb; [|reflexivity].
  cbn [newer]. apply newest_is_max in Eb. destruct Eb as [Hin _].
  apply filter_In in Hin. destruct Hin as [Hin _].
  apply filter_In in Hin. destruct Hin as [Hin _].
  rewrite Forall_forall in Hwf. specialize (Hwf b Hin).
  cbn [cached_at].
  assert (E' : (cached_at b <=? seconds now)%Z = true) by (apply Z.leb_le; exact Hwf).
  rewrite E'. reflexivity.
Qed.

Lemma lookup_after_insert_witness :
  getCachedMempoolData
    (cacheMempoolData [] 10000 "A/B" Scenario.classic) 12999 "A/B"
  = Some Scenario.classic.
Proof.
  apply lookup_after_insert.
  - constructor.
  - lia.
  - vm_compute. reflexivity.
Defined.

(** A write evicts exactly the rows more than 10 seconds old, keeps the
    others in their order and appends the new row; the table never holds
    a row older than 10 seconds right after a write. *)
Theorem cacheMempoolData_evicts (db : Db) (now : Z) (pair : string)
    (d : MempoolData) :
  let db' := cacheMempoolData db now pair d in
  (forall row, In row db' <->
     (In row db /\ (seconds now - 10 <= cached_at row)%Z)
     \/ row = {| token_pair := pair; data := d; cached_at := seconds now |})
  /\ Forall (fun row => (seconds now - 10 <= cached_at row)%Z) db'
  /\ (List.length db' <= S (List.length db))%nat.
Proof.
  intros db'. subst db'. unfold cacheMempoolData.
  assert (Hin : forall row,
            In row (filter (fun r => negb (cached_at r <? seconds now - 10)%Z) db)
            <-> In row db /\ (seconds now - 10 <= cached_at row)%Z).
  { intros row. rewrite filter_In, negb_true_iff, Z.ltb_ge. reflexivity. }
  split; [|split].
  - intros row. rewrite in_app_iff, Hin. cbn [In]. intuition auto.
  - apply Forall_app. split.
    + apply Forall_forall. intros row Hr. apply Hin in Hr. apply Hr.
    + constructor; [|constructor]. cbn [cached_at]. lia.
  - rewrite length_app. cbn [List.length].
    pose proof (filter_length_le (fun r => negb (cached_at r <? seconds now - 10)%Z) db).
    lia.
Qed.

Lemma getCachedMempoolData_sound_witness :
  exists row,
    In row (cacheMempoolData [] 10000 "A/B" Scenario.classic) /\
    token_pair row = "A/B"%string /\ data row = Scenario.classic.
Proof.
  destruct (getCachedMempoolData_sound
              (cacheMempoolData [] 10000 "A/B" Scenario.classic) 11000 "A/B")
    as [H _].
  destruct (H Scenario.classic eq_refl) as (row & Hin & Hp & Hd & _).
  exists row. repeat split; assumption.
Defined.

(** ** The legacy detectors *)

(** The legacy front-run score lies between 5 and 100 and the
    historical part between 0 and 40; the legacy sandwich score is at
    least 10, and between 75 and 100 when a full sandwich is reported. *)
Theorem legacy_score_ranges (u : UserTx) (m : MempoolData) (h : Detectors.History) :
  (5 <= Detectors.score (Detectors.detectFrontRun u m) <= 100)%Z /\
  (10 <= Detectors.score (Detectors.detectSandwich u m))%Z /\
  (Detectors.type (Detectors.detectSandwich u m) = "sandwich"%string ->
   (75 <= Detectors.score (Detectors.detectSandwich u m) <= 100)%Z) /\
  (0 <= Detectors.performHistoricalAnalysis u h <= 40)%Z.
Proof.
  split; [|split; [|split]].
  - unfold Detectors.detectFrontRun.
    repeat match goal with
           | |- context [match filter ?f ?l with _ => _ end] =>
               destruct (filter f l)
           end; cbn [Detectors.score List.length]; lia.
  - unfold Detectors.detectSandwich.
    repeat match goal with
           | |- context [match filter ?f ?l with _ => _ end] =>
               destruct (filter f l)
           end; cbn [Detectors.score List.length]; try lia.
    repeat match goal with |- context [if ?c then _ else _] => destruct c end; lia.
  - unfold Detectors.detectSandwich.
    repeat match goal with
           | |- context [match filter ?f ?l with _ => _ end] =>
               destruct (filter f l)
           end; cbn [Detectors.score Detectors.type List.length];
      try discriminate.
    intros _.
    repeat match goal with |- context [if ?c then _ else _] => destruct c end; lia.
  - split; [apply performHistoricalAnalysis_nonneg|apply performHistoricalAnalysis_le_40].
Qed.

Lemma legacy_score_ranges_witness :
  (75 <= Detectors.score
           (Detectors.detectSandwich (Scenario.trade_AB (Some 50%Q))
              Scenario.classic) <= 100)%Z.
Proof.
  destruct (legacy_score_ranges (Scenario.trade_AB (Some 50%Q)) Scenario.classic
              Scenario.quietHistory) as (_ & _ & H & _).
  apply H. reflexivity.
Defined.

(** ** Reconnection after a success *)

Lemma run_app (a b : list Event) (s : State) :
  run s (a ++ b)
  = (fst (run (fst (run s a)) b), snd (run s a) ++ snd (run (fst (run s a)) b)).
Proof.
  revert s. induction a as [|e a IH]; intros s.
  - cbn. destruct (run s b). reflexivity.
  - cbn [app run]. destruct (handle s e) as [s1 o1].
    rewrite IH. destruct (run s1 a) as [s2 o2]. cbn [fst snd].
    destruct (run s2 b) as [s3 o3]. cbn [fst snd].
    rewrite app_assoc. reflexivity.
Qed.

Lemma reconnects_app (a b : list Action) :
  reconnects (a ++ b) = (reconnects a + reconnects b)%nat.
Proof. unfold reconnects. rewrite filter_app, length_app. reflexivity. Qed.

(** Every successful connection grants five fresh reconnects: in a trace
    that opens and then sees no further open, the reconnects scheduled
    after the open number the closes after it, cut off at 5, whatever
    happened before. *)
Theorem open_restores_budget (s : State) (before after : list Event) :
  noOpen after ->
  reconnects (snd (run s (before ++ Open :: after)))
  = (reconnects (snd (run s before)) + Nat.min (closes after) 5)%nat /\
  reconnectAttempts (fst (run s (before ++ Open :: after)))
  = Nat.min (closes after) 5.
Proof.
  intros Hno. rewrite run_app. cbn [fst snd]. rewrite reconnects_app.
  cbn [run handle].
  set (s1 := fst (run s before)).
  destruct (run_no_open after Hno (fst (onOpen s1))) as (R & A & _).
  unfold MAX_RECONNECT_ATTEMPTS in *.
  cbn [onOpen fst reconnectAttempts] in R, A.
  cbn [onOpen fst snd].
  destruct (run _ after) as [s2 o2] eqn:Er. cbn [fst snd] in *.
  rewrite reconnects_app. cbn [reconnects filter isReconnect List.length].
  unfold reconnects in *. split; [|exact A].
  cbn [filter isReconnect List.length]. rewrite R. lia.
Qed.

Lemma open_restores_budget_witness :
  reconnects (snd (run initialState (Scenario.sixFailures ++ Open :: Scenario.sixFailures)))
  = 10%nat.
Proof.
  assert (Hno : noOpen Scenario.sixFailures)
    by (repeat constructor; discriminate).
  rewrite (proj1 (open_restores_budget initialState Scenario.sixFailures
                    Scenario.sixFailures Hno)).
  reflexivity.
Defined.

(** ** Rounding, positions and the estimated loss *)

Lemma toFixed2_error (x : Q) :
  0 <= x -> x - (1 # 200) < JS.toFixed 2 x /\ JS.toFixed 2 x <= x + (1 # 200).
Proof.
  intros Hx. rewrite (toFixed_nonneg_eq 2 x Hx). unfold JS.toFixedPos.
  change (10 ^ Z.of_nat 2)%Z with 100%Z.
  change (Z.to_pos 100) with 100%positive.
  set (y := x * inject_Z 100 + (1 # 2)).
  assert (E : (Qfloor y # 100) == inject_Z (Qfloor y) * (1 # 100)).
  { unfold Qeq, Qmult, inject_Z. cbn [Qnum Qden]. lia. }
  rewrite E.
  pose proof (Qfloor_le y) as Hle. pose proof (Qlt_floor y) as Hlt.
  rewrite inject_Z_plus in Hlt. change (inject_Z 1) with 1 in Hlt.
  subst y. change (inject_Z 100) with 100 in *.
  split; lra.
Qed.

(** Each percentile reported from the stream buffer is within 0.005 of
    the gas price of one of the buffered transactions. *)
Theorem wsGasPercentiles_accuracy (txs : list Tx) (q : Q) :
  filter (fun gp => JS.gt gp 0) (map gasPrice txs) <> [] ->
  In q [ p25 (wsGasPercentiles txs); p50 (wsGasPercentiles txs);
         p75 (wsGasPercentiles txs); p90 (wsGasPercentiles txs) ] ->
  exists tx, In tx txs /\ 0 < gasPrice tx /\
             gasPrice tx - (1 # 200) < q /\ q <= gasPrice tx + (1 # 200).
Proof.
  intros Hne Hq.
  destruct (wsGasPercentiles_spec txs) as [_ H].
  destruct (H Hne) as (a & b & c & d & Ha & Hb & Hc & Hd & E25 & E50 & E75 & E90 & _).
  assert (Hfrom : forall v p,
            Spec.nearestRank
              (sortAsc (filter (fun gp => JS.gt gp 0) (map gasPrice txs))) p
            = Some v ->
            exists tx, In tx txs /\ gasPrice tx = v /\ 0 < v).
  { intros v p Hv. unfold Spec.nearestRank in Hv. apply nth_error_In in Hv.
    apply (Permutation_in _ (Permutation_sym (sortAsc_perm _))) in Hv.
    apply filter_In in Hv. destruct Hv as [Hv Hpos].
    apply gt_true in Hpos. apply in_map_iff in Hv.
    destruct Hv as [tx [Etx Hin]]. exists tx. repeat split; assumption. }
  assert (Hgo : forall v p,
            Spec.nearestRank
              (sortAsc (filter (fun gp => JS.gt gp 0) (map gasPrice txs))) p
            = Some v ->
            exists tx, In tx txs /\ 0 < gasPrice tx /\
                       gasPrice tx - (1 # 200) < JS.toFixed 2 v /\
                       JS.toFixed 2 v <= gasPrice tx + (1 # 200)).
  { intros v p Hv. destruct (Hfrom v p Hv) as (tx & Hin & Ev & Hpos).
    exists tx. rewrite Ev. split; [exact Hin|]. split; [exact Hpos|].
    apply toFixed2_error. lra. }
  destruct Hq as [<-|[<-|[<-|[<-|[]]]]].
  - rewrite E25. eapply Hgo; eassumption.
  - rewrite E50. eapply Hgo; eassumption.
  - rewrite E75. eapply Hgo; eassumption.
  - rewrite E90. eapply Hgo; eassumption.
Qed.

Lemma wsGasPercentiles_accuracy_witness :
  exists tx, In tx Scenario.oneObservation /\ 0 < gasPrice tx /\
             gasPrice tx - (1 # 200) < p50 (wsGasPercentiles Scenario.oneObservation) /\
             p50 (wsGasPercentiles Scenario.oneObservation)
             <= gasPrice tx + (1 # 200).
Proof.
  apply (wsGasPercentiles_accuracy Scenario.oneObservation).
  - discriminate.
  - right. left. reflexivity.
Defined.

(** The estimated loss grows with nothing but the amount and the score:
    for an amount that is not negative and a score between 0 and 100 it
    is at least 0 and at most 5% of the amount, up to the half cent of
    [toFixed(2)]. *)
Theorem calculatePotentialLoss_bound (amountIn : Q) (riskScore : Z) :
  0 <= amountIn -> (0 <= riskScore <= 100)%Z ->
  0 <= Utils.calculatePotentialLoss amountIn riskScore
  /\ Utils.calculatePotentialLoss amountIn riskScore
     <= amountIn * (5 # 100) + (1 # 200).
Proof.
  intros Ha [H0 H1]. unfold Utils.calculatePotentialLoss.
  pose proof (inject_Z_nonneg _ H0) as R0.
  pose proof (inject_Z_le _ _ H1) as R1. change (inject_Z 100) with 100 in R1.
  set (r := inject_Z riskScore) in *.
  assert (Hx : 0 <= amountIn * ((5 # 100) * (r / 100))).
  { apply Qmult_le_0_compat; [exact Ha|].
    apply Qmult_le_0_compat; [lra|].
    apply Qle_shift_div_l; lra. }
  assert (Hub : amountIn * ((5 # 100) * (r / 100)) <= amountIn * (5 # 100)).
  { assert (Hr : r / 100 <= 1) by (apply Qle_shift_div_r; lra).
    assert (Hr0 : 0 <= r / 100) by (apply Qle_shift_div_l; lra).
    nra. }
  destruct (toFixed2_error _ Hx) as [L U].
  split.
  - rewrite (toFixed_nonneg_eq 2 _ Hx). unfold JS.toFixedPos.
    change (10 ^ Z.of_nat 2)%Z with 100%Z.
    assert (Hz : (0 <= Qfloor (amountIn * ((5 # 100) * (r / 100)) * inject_Z 100
                               + (1 # 2)))%Z).
    { change 0%Z with (Qfloor 0). apply Qfloor_resp_le.
      change (inject_Z 100) with 100. lra. }
    unfold Qle. cbn [Qnum Qden]. lia.
  - lra.
Qed.

Lemma calculatePotentialLoss_bound_witness :
  Utils.calculatePotentialLoss 1000 27 <= 1000 * (5 # 100) + (1 # 200).
Proof.
  apply calculatePotentialLoss_bound.
  - unfold Qle. simpl. lia.
  - lia.
Defined.

(** With percentiles in ascending order, the mempool position derived
    from a gas price is front exactly from p75 on, back exactly below p50
    and middle in between; and a higher gas price never gives a lower
    percentile. *)
Theorem mempool_position_spec (g : GasPercentiles) (gas : Q) :
  ascending g ->
  let position := Utils.getMempoolPosition (Utils.calculateGasPercentile gas g) in
  (position = "front"%string <-> p75 g <= gas) /\
  (position = "back"%string <-> gas < p50 g) /\
  (position = "middle"%string <-> p50 g <= gas /\ gas < p75 g) /\
  (forall gas', gas <= gas' ->
     (Utils.calculateGasPercentile gas g
      <= Utils.calculateGasPercentile gas' g)%Z).
Proof.
  intros (H1 & H2 & H3) position. subst position.
  unfold Utils.calculateGasPercentile, Utils.getMempoolPosition.
  split; [|split; [|split]].
  - destruct (JS.lt gas (p25 g)) eqn:E1;
      [apply lt_true in E1|apply gt_false in E1];
    destruct (JS.lt gas (p50 g)) eqn:E2;
      [apply lt_true in E2|apply gt_false in E2| |];
    try (apply lt_true in E2); try (apply gt_false in E2);
    destruct (JS.lt gas (p75 g)) eqn:E3;
      try (apply lt_true in E3); try (apply gt_false in E3);
    destruct (JS.lt gas (p90 g)) eqn:E4;
      try (apply lt_true in E4); try (apply gt_false in E4);
    cbn; split; intros H; try discriminate; try reflexivity; try lra.
  - destruct (JS.lt gas (p25 g)) eqn:E1;
      [apply lt_true in E1|apply gt_false in E1];
    destruct (JS.lt gas (p50 g)) eqn:E2;
      try (apply lt_true in E2); try (apply gt_false in E2);
    destruct (JS.lt gas (p75 g)) eqn:E3;
      try (apply lt_true in E3); try (apply gt_false in E3);
    destruct (JS.lt gas (p90 g)) eqn:E4;
      try (apply lt_true in E4); try (apply gt_false in E4);
    cbn; split; intros H; try discriminate; try reflexivity; try lra.
  - destruct (JS.lt gas (p25 g)) eqn:E1;
      [apply lt_true in E1|apply gt_false in E1];
    destruct (JS.lt gas (p50 g)) eqn:E2;
      try (apply lt_true in E2); try (apply gt_false in E2);
    destruct (JS.lt gas (p75 g)) eqn:E3;
      try (apply lt_true in E3); try (apply gt_false in E3);
    destruct (JS.lt gas (p90 g)) eqn:E4;
      try (apply lt_true in E4); try (apply gt_false in E4);
    cbn; split; intros H; try discriminate; try reflexivity;
      try (split; lra); try lra.
  - intros gas' Hle.
    destruct (JS.lt gas (p25 g)) eqn:E1;
      [apply lt_true in E1|apply gt_false in E1];
    destruct (JS.lt gas (p50 g)) eqn:E2;
      try (apply lt_true in E2); try (apply gt_false in E2);
    destruct (JS.lt gas (p75 g)) eqn:E3;
      try (apply lt_true in E3); try (apply gt_false in E3);
    destruct (JS.lt gas (p90 g)) eqn:E4;
      try (apply lt_true in E4); try (apply gt_false in E4);
    destruct (JS.lt gas' (p25 g)) eqn:F1;
      try (apply lt_true in F1); try (apply gt_false in F1);
    destruct (JS.lt gas' (p50 g)) eqn:F2;
      try (apply lt_true in F2); try (apply gt_false in F2);
    destruct (JS.lt gas' (p75 g)) eqn:F3;
      try (apply lt_true in F3); try (apply gt_false in F3);
    destruct (JS.lt gas' (p90 g)) eqn:F4;
      try (apply lt_true in F4); try (apply gt_false in F4);
    try lia; exfalso; lra.
Qed.

Lemma mempool_position_spec_witness :
  Utils.getMempoolPosition (Utils.calculateGasPercentile 35 defaultPercentiles)
  = "middle"%string.
Proof.
  destruct (mempool_position_spec defaultPercentiles 35 ascending_default)
    as (_ & _ & H & _).
  apply H. split; [unfold Qle|unfold Qlt]; simpl; lia.
Defined.

(** ** The recommendations *)

(** There is one recommendation per detector that fired, in the order
    sandwich, copycat, front-run, back-run, JIT; the list is empty exactly
    when nothing fired, and it starts with the CRITICAL one exactly when
    the sandwich detector fired. *)
Theorem generateRecommendations_spec (ps : PatternAnalyzer.Patterns) (risk : Z) :
  let recs := Recommendations.generateRecommendations ps risk in
  List.length recs = firedCount ps /\
  (recs = [] <-> firedCount ps = 0%nat) /\
  (PatternAnalyzer.detected (PatternAnalyzer.pat_sandwich ps) = true <->
   exists rest,
     recs = {| Recommendations.rec_type := "CRITICAL";
               Recommendations.rec_title := "Sandwich Attack Detected" |} :: rest) /\
  Forall (fun r => In (Recommendations.rec_type r)
                      ["CRITICAL"; "HIGH"; "MEDIUM"]%string) recs.
Proof.
  intros recs. subst recs.
  unfold Recommendations.generateRecommendations, firedCount.
  cbn [filter].
  destruct (PatternAnalyzer.detected (PatternAnalyzer.pat_sandwich ps));
    destruct (PatternAnalyzer.detected (PatternAnalyzer.pat_copycat ps));
    destruct (PatternAnalyzer.detected (PatternAnalyzer.pat_frontrun ps));
    destruct (PatternAnalyzer.detected (PatternAnalyzer.pat_backrun ps));
    destruct (PatternAnalyzer.detected (PatternAnalyzer.pat_jit ps));
    cbn [app List.length];
    (split; [reflexivity|]);
    (split; [split; intros H; try discriminate; try reflexivity|]);
    (split; [split; [intros H; try discriminate; eexists; reflexivity
                    |intros [rest H]; try discriminate; reflexivity]|]);
    repeat (apply Forall_cons || apply Forall_nil); cbn; auto 6.
Qed.
